(** * Allocation and risk engine of the stock-exchange bot (logic_engine.py)

    A shallow embedding of [TradingLogic] (src/logic_engine.py) and of the
    ledger queries it uses (src/trade_logger.py).

    Conventions of the embedding.
    - Python floats are idealised as exact rationals ([Q]); the only
      non-finite value the engine can compute, the NaN produced by pandas
      when an RSI window has neither gains nor losses, is kept explicit
      ([rsi_value]).  Integers are injected into [Q].
    - [None] is [None]; truthiness tests ([if x:], [x and y], [x or y],
      [not x]) are written out with [truthy].
    - Python exceptions are values of [exn]; a raising call returns [inl].
    - The collaborators are inputs: the Alpaca client is a record of
      functions whose result [None] stands for a raised exception, the
      operator answering the manual price prompt is a function, and the
      SQLite ledger is the list of its rows, threaded through the code.
      One planning cycle is taken to run at one instant [now], the ledger
      file is taken to be readable and writable, and the broker and the
      operator give one answer per ticker within a cycle. *)

From Stdlib Require Import QArith Qround Qabs Qminmax Qpower ZArith Lia Lqa.
From Stdlib Require Import Sorted.
From stdpp Require Import base option list strings gmap.

Local Open Scope Q_scope.

(** ** Numbers *)

Module Num.

Definition Qleb (a b : Q) : bool := Qle_bool a b.
Definition Qltb (a b : Q) : bool := negb (Qle_bool b a).

(** [if x:] on a float. *)
Definition truthy (x : Q) : bool := negb (Qeq_bool x 0).

(** [if x:] on a value that may be [None]. *)
Definition truthy_opt (o : option Q) : bool :=
  match o with Some x => truthy x | None => false end.

(** [int(x)]: truncation toward zero. *)
Definition py_int (x : Q) : Z := Z.quot (Qnum x) (Zpos (Qden x)).

(** [math.floor(x)]. *)
Definition py_floor (x : Q) : Z := Qfloor x.

(** [round(x, 4)]: nearest multiple of 1/10000, ties to even. *)
Definition py_round4 (x : Q) : Q :=
  let y := x * 10000 in
  let f := Qfloor y in
  let r := y - inject_Z f in
  let n := if Qltb r (1 # 2) then f
           else if Qltb (1 # 2) r then (f + 1)%Z
           else if Z.even f then f else (f + 1)%Z in
  inject_Z n / 10000.

Definition Qsum (l : list Q) : Q := foldr Qplus 0 l.

(** The last [n] elements: [s.iloc[-n:]]. *)
Definition lastn {A} (n : nat) (l : list A) : list A :=
  drop (length l - n) l.

Definition mean (l : list Q) : Q := Qsum l / inject_Z (Z.of_nat (length l)).

End Num.
Export Num.

(** ** Indicator calculator *)

Record Bar := mkBar { high : Q; low : Q; close : Q }.

(** A float that may be NaN (only the RSI can be). *)
Inductive rsi_value := NaN | Fin (v : Q).

Module Indicators.

(** True range of one bar; the first bar has no previous close, and the
    row-wise [max] skips the two undefined terms. *)
Definition true_range (prev_close : option Q) (b : Bar) : Q :=
  let tr1 := high b - low b in
  match prev_close with
  | None => tr1
  | Some pc => Qmax tr1 (Qmax (Qabs (high b - pc)) (Qabs (low b - pc)))
  end.

Fixpoint true_ranges (prev_close : option Q) (bars : list Bar) : list Q :=
  match bars with
  | [] => []
  | b :: rest => true_range prev_close b :: true_ranges (Some (close b)) rest
  end.

(** [calculate_atr(ohlc_df, period)], for [ohlc_df] not [None].  The bars
    of the model hold numbers, so the mean is a number and the closing
    [atr if not np.isnan(atr) else None] hands it on; a frame with a
    NaN in the window, for which the source answers [None], is not among
    the inputs of the model. *)
Definition calculate_atr (ohlc_df : list Bar) (period : nat) : option Q :=
  if (length ohlc_df <? period + 1)%nat then None
  else Some (mean (lastn period (true_ranges None ohlc_df))).

(** [series.diff()], the undefined first entry being replaced by 0 by
    both [where] calls. *)
Fixpoint diffs (prev : option Q) (series : list Q) : list Q :=
  match series with
  | [] => []
  | x :: rest =>
      (match prev with None => 0 | Some p => x - p end) :: diffs (Some x) rest
  end.

Definition gain_of (d : Q) : Q := if Qltb 0 d then d else 0.
Definition loss_of (d : Q) : Q := - (if Qltb d 0 then d else 0).

(** [calculate_rsi(series, period)]. *)
Definition calculate_rsi (series : list Q) (period : nat) : option rsi_value :=
  if (length series <? period + 1)%nat then None
  else
    let delta := diffs None series in
    let gain := mean (lastn period (map gain_of delta)) in
    let loss := mean (lastn period (map loss_of delta)) in
    if Qeq_bool loss 0 then
      (* gain / 0 is inf (RSI 100), 0 / 0 is NaN *)
      if Qeq_bool gain 0 then Some NaN else Some (Fin 100)
    else
      let rs := gain / loss in
      Some (Fin (100 - 100 / (1 + rs))).

(** [calculate_sma(series, period)]. *)
Definition calculate_sma (series : list Q) (period : nat) : option Q :=
  if (length series <? period)%nat then None
  else Some (mean (lastn period series)).

End Indicators.
Export Indicators.

(** ** Data model *)

Record Asset := mkAsset { tradable : bool; status : string }.

(** A position as the broker reports it ([api.list_positions()]). *)
Record Position := mkPosition {
  symbol : string;
  qty : Q;
  avg_entry_price : Q;
  market_value : Q;
  current_price : Q
}.

(** An entry of [portfolio['positions']] (the mock-mode fallback). *)
Record PortfolioPosition := mkPortfolioPosition { shares : Q; buy_price : Q }.

(** A value of [current_holdings_data]. *)
Record Holding := mkHolding {
  h_qty : Q;
  h_avg_entry : Q;
  h_market_value : option Q;
  h_current_price : option Q
}.

(** The Alpaca REST client; [None] is a raised exception. *)
Record AlpacaApi := mkApi {
  get_asset : string -> option Asset;
  get_latest_trade : string -> option Q;
  get_bars : string -> option (list Bar);
  list_positions : option (list Position)
}.

(** A candidate signal of [sentiment_data]; an absent key is [None]. *)
Record Signal := mkSignal {
  sig_action : option string;
  sig_ticker : string;
  sig_sentiment_score : option Q;
  sig_duration_score : option Q;
  sig_reasoning : option string
}.

Inductive Action := BUY | SELL | HOLD | SKIP | DEFENSE_MODE.

Inductive Side := buy | sell.
Inductive OrderType := limit | market.

(** The reason texts, one constructor per f-string of the source, carrying
    the values the string is formatted from. *)
Inductive Reason :=
| ProtectedProfitStop (entry cur stop : Q)
| ATRStop (entry cur stop atr mult : Q)
| HardStopLoss (entry cur threshold : Q)
| TrailingProfitTaken (hwm entry cur : Q)
| TrendBreakdown (cur sma20 sma50 : Q)
| GracePeriod (hours_held : Q)
| SafeFromStops (sma20 sma50 atr : option Q)
| SkipNotTradable (ticker : string)
| SkipCooldown
| SkipMaxConcentration (held max_shares : Z)
| SkipTechnicalsWeak (rsi : rsi_value)
| SkipDowntrend (ticker : string) (price sma20 sma50 : Q)
| SkipBelowSMA20 (ticker : string) (price sma20 : Q)
| HolisticBuy (rank : Q)
| FractionalGapFill (rank qty : Q)
| PartialSwapFor (new_ticker : string)
| SwapBuyVia (old_ticker : string) (proceeds : Q)
| DefenseModeReason (safe_hold : bool) (env_bias : Q) (macro_reason : string).

(** The dict handed to [trade_logger.log_decision]; an absent key is
    [None]. *)
Record Decision := mkDecision {
  d_ticker : string;
  d_action : Action;
  d_quantity : option Q;
  d_price : Q;
  d_sentiment_score : option Q;
  d_duration_score : option Q;
  d_rsi_14 : option rsi_value;
  d_sma_20 : option Q;
  d_sma_50 : option Q;
  d_atr_14 : option Q;
  d_high_water_mark : option Q;
  d_decision_reason : Reason;
  d_entry_price : option Q;
  d_exit_price : option Q;
  d_pnl : option Q;
  d_pnl_percent : option Q;
  d_env_bias : option Q;
  d_macro_reason : option string
}.

(** A decision with only the keys every call site passes. *)
Definition decision (t : string) (a : Action) (p : Q) (r : Reason) : Decision :=
  mkDecision t a None p None None None None None None None r
             None None None None None None.

Definition with_quantity (q : Q) (d : Decision) : Decision :=
  mkDecision (d_ticker d) (d_action d) (Some q) (d_price d)
    (d_sentiment_score d) (d_duration_score d) (d_rsi_14 d) (d_sma_20 d)
    (d_sma_50 d) (d_atr_14 d) (d_high_water_mark d) (d_decision_reason d)
    (d_entry_price d) (d_exit_price d) (d_pnl d) (d_pnl_percent d)
    (d_env_bias d) (d_macro_reason d).

Definition with_scores (s du : Q) (d : Decision) : Decision :=
  mkDecision (d_ticker d) (d_action d) (d_quantity d) (d_price d)
    (Some s) (Some du) (d_rsi_14 d) (d_sma_20 d)
    (d_sma_50 d) (d_atr_14 d) (d_high_water_mark d) (d_decision_reason d)
    (d_entry_price d) (d_exit_price d) (d_pnl d) (d_pnl_percent d)
    (d_env_bias d) (d_macro_reason d).

Definition with_rsi (r : option rsi_value) (d : Decision) : Decision :=
  mkDecision (d_ticker d) (d_action d) (d_quantity d) (d_price d)
    (d_sentiment_score d) (d_duration_score d) r (d_sma_20 d)
    (d_sma_50 d) (d_atr_14 d) (d_high_water_mark d) (d_decision_reason d)
    (d_entry_price d) (d_exit_price d) (d_pnl d) (d_pnl_percent d)
    (d_env_bias d) (d_macro_reason d).

Definition with_sma_20 (s20 : option Q) (d : Decision) : Decision :=
  mkDecision (d_ticker d) (d_action d) (d_quantity d) (d_price d)
    (d_sentiment_score d) (d_duration_score d) (d_rsi_14 d) s20
    (d_sma_50 d) (d_atr_14 d) (d_high_water_mark d) (d_decision_reason d)
    (d_entry_price d) (d_exit_price d) (d_pnl d) (d_pnl_percent d)
    (d_env_bias d) (d_macro_reason d).

Definition with_sma_50 (s50 : option Q) (d : Decision) : Decision :=
  mkDecision (d_ticker d) (d_action d) (d_quantity d) (d_price d)
    (d_sentiment_score d) (d_duration_score d) (d_rsi_14 d) (d_sma_20 d)
    s50 (d_atr_14 d) (d_high_water_mark d) (d_decision_reason d)
    (d_entry_price d) (d_exit_price d) (d_pnl d) (d_pnl_percent d)
    (d_env_bias d) (d_macro_reason d).

Definition with_atr_14 (a : option Q) (d : Decision) : Decision :=
  mkDecision (d_ticker d) (d_action d) (d_quantity d) (d_price d)
    (d_sentiment_score d) (d_duration_score d) (d_rsi_14 d) (d_sma_20 d)
    (d_sma_50 d) a (d_high_water_mark d) (d_decision_reason d)
    (d_entry_price d) (d_exit_price d) (d_pnl d) (d_pnl_percent d)
    (d_env_bias d) (d_macro_reason d).

Definition with_exit (hwm : option Q) (entry exit pnl pnl_pct : Q)
    (d : Decision) : Decision :=
  mkDecision (d_ticker d) (d_action d) (d_quantity d) (d_price d)
    (d_sentiment_score d) (d_duration_score d) (d_rsi_14 d) (d_sma_20 d)
    (d_sma_50 d) (d_atr_14 d) hwm (d_decision_reason d)
    (Some entry) (Some exit) (Some pnl) (Some pnl_pct)
    (d_env_bias d) (d_macro_reason d).

Definition with_macro (bias : Q) (why : string) (d : Decision) : Decision :=
  mkDecision (d_ticker d) (d_action d) (d_quantity d) (d_price d)
    (d_sentiment_score d) (d_duration_score d) (d_rsi_14 d) (d_sma_20 d)
    (d_sma_50 d) (d_atr_14 d) (d_high_water_mark d) (d_decision_reason d)
    (d_entry_price d) (d_exit_price d) (d_pnl d) (d_pnl_percent d)
    (Some bias) (Some why).

(** An entry of the execution plan. *)
Record Order := mkOrder {
  o_ticker : string;
  o_action : Side;
  o_quantity : Q;
  o_order_type : OrderType;
  o_limit_price : option Q;
  o_reason : Reason;
  o_decision_id : Z
}.

(** ** The decision ledger (trade_logger.py) *)

Inductive exn := TypeError | ZeroDivisionError | KeyError.

(** A row of the [history] table: the logged decision with its row id, its
    timestamp (seconds) and the execution status the trader writes later. *)
Record Row := mkRow {
  row_id : Z;
  row_timestamp : Q;
  row_execution_status : option string;
  row_data : Decision
}.

Module Ledger.

Definition is_BUY (a : Action) : bool :=
  match a with BUY => true | _ => false end.

Definition next_id (db : list Row) : Z :=
  1 + foldr Z.max 0%Z (map row_id db).

(** The columns [log_decision] fills with a default when the key is
    absent: [quantity] (0) and [duration_score] (0.0). *)
Definition stored (d : Decision) : Decision :=
  mkDecision (d_ticker d) (d_action d) (Some (default 0 (d_quantity d)))
    (d_price d) (d_sentiment_score d)
    (Some (default 0 (d_duration_score d))) (d_rsi_14 d) (d_sma_20 d)
    (d_sma_50 d) (d_atr_14 d) (d_high_water_mark d) (d_decision_reason d)
    (d_entry_price d) (d_exit_price d) (d_pnl d) (d_pnl_percent d)
    (d_env_bias d) (d_macro_reason d).

(** Code that reads and writes the ledger and may raise. *)
Definition L (A : Type) : Type := list Row -> (exn + A) * list Row.

Definition ret {A} (a : A) : L A := fun db => (inr a, db).
Definition raise {A} (e : exn) : L A := fun db => (inl e, db).
Definition bind {A B} (m : L A) (k : A -> L B) : L B :=
  fun db => match m db with
            | (inl e, db') => (inl e, db')
            | (inr a, db') => k a db'
            end.
Definition read {A} (f : list Row -> A) : L A := fun db => (inr (f db), db).

(** [log_decision(decision_data)]: insert a row, return its id. *)
Definition log_decision (now : Q) (d : Decision) : L Z :=
  fun db => let i := next_id db in
            (inr i, db ++ [mkRow i now None (stored d)]).

Definition not_rejected (r : Row) : bool :=
  match row_execution_status r with
  | None => true
  | Some s => negb (String.eqb s "rejected")
  end.

(** [is_on_cooldown(ticker, hours)]. *)
Definition is_on_cooldown (now : Q) (ticker : string) (hours : Q)
    (db : list Row) : bool :=
  let cutoff := now - hours * 3600 in
  existsb (fun r => String.eqb (d_ticker (row_data r)) ticker
                    && is_BUY (d_action (row_data r))
                    && Qltb cutoff (row_timestamp r)
                    && not_rejected r) db.

(** The row [ORDER BY timestamp DESC LIMIT 1] selects among those that
    satisfy [p].  The statement fixes no order among rows of one
    timestamp; here the later inserted is taken, a cycle being modelled
    at one instant, where a later insert stands for a later timestamp.
    What is proved of the contents of the selected row is stated for
    ledgers in which the timestamp decides. *)
Definition latest (p : Row -> bool) (db : list Row) : option Row :=
  fold_left (fun best r =>
               if p r then
                 match best with
                 | Some b => if Qltb (row_timestamp r) (row_timestamp b)
                             then Some b else Some r
                 | None => Some r
                 end
               else best) db None.

(** [get_last_buy_time(ticker)]. *)
Definition get_last_buy_time (ticker : string) (db : list Row) : option Q :=
  row_timestamp <$>
    latest (fun r => String.eqb (d_ticker (row_data r)) ticker
                     && is_BUY (d_action (row_data r))) db.

(** [get_latest_scores(ticker)]: (sentiment, duration). *)
Definition get_latest_scores (ticker : string) (db : list Row) : Q * Q :=
  match latest (fun r => String.eqb (d_ticker (row_data r)) ticker
                         && bool_decide (is_Some (d_sentiment_score (row_data r))))
               db with
  | Some r => (default 0 (d_sentiment_score (row_data r)),
               default (1 # 2) (d_duration_score (row_data r)))
  | None => (0, 0)
  end.

End Ledger.
Export Ledger.

Notation "'let*' x ':=' m 'in' k" := (bind m (fun x => k))
  (at level 10, x pattern, m at level 100, k at level 200).

(** ** The engine *)

(** The operator at the console and the clock. *)
Record Env := mkEnv {
  console_price : string -> option Q;   (* the answer to the price prompt; [None] is 'skip' *)
  now : Q
}.

(** The fields of a [TradingLogic] instance. *)
Record TradingLogic := mkTradingLogic {
  budget : Q;
  risk_per_trade_percent : Q;
  stop_loss_percent : Q;
  max_concentration_percent : Q;
  atr_multiplier : Q;
  atr_period : nat;
  trailing_activation_pct : Q;
  trailing_drop_pct : Q;
  api : option AlpacaApi;
  _ticker_cache : gmap string bool;
  _panic_mode : option bool;      (* [None]: the attribute is not set yet *)
  _env_bias : option Q;
  _macro_reason : option string
}.

(** [TradingLogic.__init__]. *)
Definition init (budget risk_per_trade_percent stop_loss_percent
                 max_concentration_percent : Q) (client : option AlpacaApi)
  : TradingLogic :=
  mkTradingLogic budget risk_per_trade_percent stop_loss_percent
    max_concentration_percent 2 14 (10 # 100) (3 # 100) client ∅ None None None.

Definition set_ticker_cache (c : gmap string bool) (self : TradingLogic)
  : TradingLogic :=
  mkTradingLogic (budget self) (risk_per_trade_percent self)
    (stop_loss_percent self) (max_concentration_percent self)
    (atr_multiplier self) (atr_period self) (trailing_activation_pct self)
    (trailing_drop_pct self) (api self) c (_panic_mode self)
    (_env_bias self) (_macro_reason self).

(** [validate_ticker(ticker)]: the answer and the instance with its cache
    updated. *)
Definition validate_ticker (self : TradingLogic) (ticker : string)
  : bool * TradingLogic :=
  match _ticker_cache self !! ticker with
  | Some v => (v, self)
  | None =>
      match api self with
      | None => (true, set_ticker_cache (<[ticker := true]> (_ticker_cache self)) self)
      | Some client =>
          match get_asset client ticker with
          | Some asset =>
              let is_valid := tradable asset && String.eqb (status asset) "active" in
              (is_valid,
               set_ticker_cache (<[ticker := is_valid]> (_ticker_cache self)) self)
          | None =>
              (false,
               set_ticker_cache (<[ticker := false]> (_ticker_cache self)) self)
          end
      end
  end.

(** [fetch_price(ticker)]: the latest trade, else the operator's answer. *)
Definition fetch_price (self : TradingLogic) (env : Env) (ticker : string)
  : option Q :=
  let price := match api self with
               | Some client => get_latest_trade client ticker
               | None => None
               end in
  match price with
  | Some p => Some p
  | None => console_price env ticker
  end.

(** [fetch_history(ticker)]. *)
Definition fetch_history (self : TradingLogic) (ticker : string)
  : option (list Bar) :=
  match api self with
  | None => None
  | Some client =>
      match get_bars client ticker with
      | None => None
      | Some [] => None
      | Some bars => Some bars
      end
  end.

(** ** Risk evaluator: [check_portfolio_risks] *)

Module Risk.

(** Priority 1, the stop before the zero-loss rule: ATR based when the
    ATR is available and positive, else the fixed percentage. *)
Definition base_stop_price (self : TradingLogic) (buy_price : Q)
    (atr_14 : option Q) : Q :=
  match atr_14 with
  | Some a =>
      if truthy a && Qltb 0 a
      then buy_price - atr_multiplier self * a
      else buy_price * (1 - stop_loss_percent self)
  | None => buy_price * (1 - stop_loss_percent self)
  end.

(** The zero-loss rule: the stop and [is_zero_loss_active]. *)
Definition zero_loss_rule (buy_price current_price stop_price : Q)
  : Q * bool :=
  if Qltb 0 buy_price then
    let unrealized_gain_pct := (current_price - buy_price) / buy_price in
    if Qltb (5 # 100) unrealized_gain_pct then
      let zero_loss_stop := buy_price * (1005 # 1000) in
      if Qltb stop_price zero_loss_stop
      then (zero_loss_stop, true)
      else (stop_price, false)
    else (stop_price, false)
  else (stop_price, false).

(** The stop-loss trigger and its reason; the drop percentage of the
    message divides by the entry price. *)
Definition stop_loss_trigger (self : TradingLogic)
    (buy_price current_price : Q) (atr_14 : option Q)
    (stop_price : Q) (is_zero_loss_active : bool) : exn + option Reason :=
  if Qltb current_price stop_price then
    if Qeq_bool buy_price 0 then inl ZeroDivisionError
    else if is_zero_loss_active then
      inr (Some (ProtectedProfitStop buy_price current_price stop_price))
    else
      match atr_14 with
      | Some a =>
          if truthy a
          then inr (Some (ATRStop buy_price current_price stop_price a
                                  (atr_multiplier self)))
          else inr (Some (HardStopLoss buy_price current_price
                                       (stop_loss_percent self)))
      | None => inr (Some (HardStopLoss buy_price current_price
                                        (stop_loss_percent self)))
      end
  else inr None.

Definition max_of (l : list Q) : Q :=
  match l with
  | [] => 0
  | x :: rest => foldr Qmax x rest
  end.

(** The maximum high of the last five bars, when there are five. *)
Definition recent_high (ohlc : option (list Bar)) : option Q :=
  match ohlc with
  | Some bars =>
      if (5 <=? length bars)%nat
      then Some (max_of (map high (lastn 5 bars)))
      else None
  | None => None
  end.

(** Priority 2: trailing take-profit. *)
Definition trailing_trigger (self : TradingLogic) (ohlc : option (list Bar))
    (buy_price current_price : Q) : option Reason :=
  if Qltb 0 buy_price then
    let unrealized_gain_pct := (current_price - buy_price) / buy_price in
    if Qltb (trailing_activation_pct self) unrealized_gain_pct then
      let high_water_mark :=
        Qmax (default current_price (recent_high ohlc)) current_price in
      let trailing_stop := high_water_mark * (1 - trailing_drop_pct self) in
      if Qltb current_price trailing_stop
      then Some (TrailingProfitTaken high_water_mark buy_price current_price)
      else None
    else None
  else None.

(** What the three priorities come to for one holding. *)
Inductive Outcome :=
| NoTrigger
| GraceSuppressed (hours_held : Q)
| SellFor (sell_reason : Reason).

(** Priority 3: whipsaw-protected trend breakdown, with the 24 hour grace
    period that [_panic_mode] overrides. *)
Definition trend_breakdown (self : TradingLogic) (env : Env)
    (current_price : Q) (sma_20 sma_50 : option Q) (last_buy : option Q)
  : Outcome :=
  match sma_20, sma_50 with
  | Some s20, Some s50 =>
      if truthy s20 && truthy s50 then
        if Qltb current_price s20 && Qltb s20 s50 then
          let hours_held :=
            match last_buy with
            | Some t => (now env - t) / 3600
            | None => 999
            end in
          if Qltb hours_held 24 && negb (default false (_panic_mode self))
          then GraceSuppressed hours_held
          else SellFor (TrendBreakdown current_price s20 s50)
        else NoTrigger
      else NoTrigger
  | _, _ => NoTrigger
  end.

Definition if_truthy (o : option Q) : option Q :=
  match o with
  | Some x => if truthy x then Some x else None
  | None => None
  end.

(** The indicators computed for one holding. *)
Definition holding_atr (self : TradingLogic) (ticker : string) : option Q :=
  fetch_history self ticker ≫= fun ohlc => calculate_atr ohlc (atr_period self).
Definition holding_sma (self : TradingLogic) (ticker : string) (period : nat)
  : option Q :=
  fetch_history self ticker ≫= fun ohlc => calculate_sma (map close ohlc) period.

(** The stop of priority 1 after the zero-loss rule, and the flag. *)
Definition holding_stop (self : TradingLogic) (ticker : string)
    (buy_price current_price : Q) : Q * bool :=
  zero_loss_rule buy_price current_price
    (base_stop_price self buy_price (holding_atr self ticker)).

(** The priorities in order; the first trigger wins.  [last_buy] is the
    ledger's answer to [get_last_buy_time(ticker)], which priority 3 asks
    for. *)
Definition evaluate_triggers (self : TradingLogic) (env : Env)
    (ticker : string) (buy_price current_price : Q) (last_buy : option Q)
  : exn + Outcome :=
  let '(stop_price, is_zero_loss_active) :=
    holding_stop self ticker buy_price current_price in
  match stop_loss_trigger self buy_price current_price
          (holding_atr self ticker) stop_price is_zero_loss_active with
  | inl e => inl e
  | inr (Some sell_reason) => inr (SellFor sell_reason)
  | inr None =>
      match trailing_trigger self (fetch_history self ticker)
              buy_price current_price with
      | Some sell_reason => inr (SellFor sell_reason)
      | None =>
          inr (trend_breakdown self env current_price
                 (holding_sma self ticker 20) (holding_sma self ticker 50)
                 last_buy)
      end
  end.

(** What one iteration of the loop over the holdings comes to. *)
Inductive Verdict :=
| Skipped                      (* [continue] before any evaluation *)
| GraceHeld                    (* breakdown suppressed, HOLD logged *)
| Held                         (* no trigger, HOLD logged *)
| Sold (o : Order) (estimated_proceeds : Q).

(** [data.get('current_price') or self.fetch_price(ticker)]. *)
Definition holding_price (self : TradingLogic) (env : Env) (ticker : string)
    (data : Holding) : option Q :=
  match if_truthy (h_current_price data) with
  | Some p => Some p
  | None => fetch_price self env ticker
  end.

(** The keys every record of the risk check carries. *)
Definition risk_record (self : TradingLogic) (ticker : string) (a : Action)
    (shares : Z) (current_price : Q) (r : Reason) : Decision :=
  with_atr_14 (holding_atr self ticker)
    (with_sma_50 (holding_sma self ticker 50)
      (with_sma_20 (holding_sma self ticker 20)
        (with_quantity (inject_Z shares)
          (decision ticker a current_price r)))).

(** The SELL record and the sell order of a triggered holding. *)
Definition sell_record (self : TradingLogic) (ticker : string) (shares : Z)
    (buy_price current_price : Q) (sell_reason : Reason) : Decision :=
  let pnl := (current_price - buy_price) * inject_Z shares in
  let pnl_pct := if Qltb 0 buy_price
                 then (current_price - buy_price) / buy_price * 100
                 else 0 in
  let log_hwm := (fun h => Qmax h current_price)
                   <$> recent_high (fetch_history self ticker) in
  with_exit log_hwm buy_price current_price pnl pnl_pct
    (risk_record self ticker SELL shares current_price sell_reason).

Definition sell_order (ticker : string) (shares : Z) (current_price : Q)
    (sell_reason : Reason) (risk_decision_id : Z) : Order :=
  mkOrder ticker sell (inject_Z shares) limit (Some current_price)
          sell_reason risk_decision_id.

Definition hold_record (self : TradingLogic) (ticker : string) (shares : Z)
    (current_price : Q) : Decision :=
  risk_record self ticker HOLD shares current_price
    (SafeFromStops (if_truthy (holding_sma self ticker 20))
                   (if_truthy (holding_sma self ticker 50))
                   (if_truthy (holding_atr self ticker))).

Definition grace_record (self : TradingLogic) (ticker : string) (shares : Z)
    (current_price hours_held : Q) : Decision :=
  risk_record self ticker HOLD shares current_price (GracePeriod hours_held).

(** The body of the loop of [check_portfolio_risks]. *)
Definition risk_check_holding (self : TradingLogic) (env : Env)
    (ticker : string) (data : Holding) : L Verdict :=
  let buy_price := h_avg_entry data in
  let shares := py_int (h_qty data) in
  if (shares <=? 0)%Z then ret Skipped else
  match if_truthy (holding_price self env ticker data) with
  | None => ret Skipped
  | Some current_price =>
      let* last_buy := read (get_last_buy_time ticker) in
      match evaluate_triggers self env ticker buy_price current_price
                              last_buy with
      | inl e => raise e
      | inr (GraceSuppressed hours_held) =>
          let* _ := log_decision (now env)
                      (grace_record self ticker shares current_price
                                    hours_held) in
          ret GraceHeld
      | inr (SellFor sell_reason) =>
          let estimated_proceeds := current_price * inject_Z shares in
          let* risk_decision_id := log_decision (now env)
            (sell_record self ticker shares buy_price current_price
                         sell_reason) in
          ret (Sold (sell_order ticker shares current_price sell_reason
                                risk_decision_id)
                    estimated_proceeds)
      | inr NoTrigger =>
          let* _ := log_decision (now env)
                      (hold_record self ticker shares current_price) in
          ret Held
      end
  end.

(** The loop, with its two accumulators. *)
Fixpoint risk_loop (self : TradingLogic) (env : Env)
    (items : list (string * Holding)) (sell_orders : list Order)
    (total_proceeds : Q) : L (list Order * Q) :=
  match items with
  | [] => ret (sell_orders, total_proceeds)
  | (ticker, data) :: rest =>
      let* v := risk_check_holding self env ticker data in
      match v with
      | Sold o estimated_proceeds =>
          risk_loop self env rest (sell_orders ++ [o])
                    (total_proceeds + estimated_proceeds)
      | _ => risk_loop self env rest sell_orders total_proceeds
      end
  end.

(** [check_portfolio_risks(holdings_data)]. *)
Definition check_portfolio_risks (self : TradingLogic) (env : Env)
    (holdings_data : list (string * Holding)) : L (list Order * Q) :=
  risk_loop self env holdings_data [] 0.

End Risk.
Export Risk.

(** ** Signal ranker and allocation planner: [generate_plan] *)

Inductive EntryType := new_signal | holding.

(** An entry of [rank_list]; only holdings carry ['qty']. *)
Record RankEntry := mkRankEntry {
  r_ticker : string;
  r_type : EntryType;
  r_rank_score : Q;
  r_sent_score : Q;
  r_dur_score : Q;
  r_price : option Q;
  r_qty : option Q
}.

Module Plan.

(** The mode switches at the head of [generate_plan], with the tightening
    of the stored ATR multiplier. *)
Definition enter_mode (self : TradingLogic) (env_bias : Q)
    (macro_reason : string) : TradingLogic :=
  let safe_hold_mode := Qeq_bool env_bias 0 in
  let defense_mode := Qltb env_bias (5 # 10) in
  mkTradingLogic (budget self) (risk_per_trade_percent self)
    (stop_loss_percent self) (max_concentration_percent self)
    (if safe_hold_mode then atr_multiplier self * (5 # 10)
     else if defense_mode then atr_multiplier self * (7 # 10)
     else atr_multiplier self)
    (atr_period self) (trailing_activation_pct self)
    (trailing_drop_pct self) (api self) (_ticker_cache self)
    (Some (Qltb env_bias (3 # 10)))
    (Some env_bias) (Some macro_reason).

(** [d[k] = v] on a dict kept in insertion order. *)
Fixpoint dict_set {V} (k : string) (v : V) (d : list (string * V))
  : list (string * V) :=
  match d with
  | [] => [(k, v)]
  | (k', v') :: rest =>
      if String.eqb k' k then (k, v) :: rest
      else (k', v') :: dict_set k v rest
  end.

Fixpoint dict_get {V} (k : string) (d : list (string * V)) : option V :=
  match d with
  | [] => None
  | (k', v') :: rest => if String.eqb k' k then Some v' else dict_get k rest
  end.

(** Step 1: cost basis and [current_holdings_data], from the broker or,
    when listing the positions raises, from the portfolio file (an
    exception while the positions are read is taken to come from the
    listing call itself).  Without a client there are no holdings. *)
Definition load_holdings (self : TradingLogic)
    (portfolio : list (string * PortfolioPosition))
  : Q * list (string * Holding) :=
  match api self with
  | None => (0, [])
  | Some client =>
      match list_positions client with
      | Some positions =>
          fold_left (fun '(cost_basis_total, chd) p =>
                       (cost_basis_total + qty p * avg_entry_price p,
                        dict_set (symbol p)
                          (mkHolding (qty p) (avg_entry_price p)
                                     (Some (market_value p))
                                     (Some (current_price p))) chd))
                    positions (0, [])
      | None =>
          fold_left (fun '(cost_basis_total, chd) '(ticker, data) =>
                       (cost_basis_total + shares data * buy_price data,
                        dict_set ticker
                          (mkHolding (shares data) (buy_price data)
                                     None None) chd))
                    portfolio (0, [])
      end
  end.

Definition is_Buy (a : option string) : bool :=
  match a with Some s => String.eqb s "Buy" | None => false end.

(** Step 2.A: the validated new Buy signals. *)
Fixpoint add_new_signals (self : TradingLogic) (env : Env)
    (sentiment_data : list Signal) (rank_list : list RankEntry)
  : L (TradingLogic * list RankEntry) :=
  match sentiment_data with
  | [] => ret (self, rank_list)
  | signal :: rest =>
      if is_Buy (sig_action signal) then
        let ticker := sig_ticker signal in
        let '(ok, self') := validate_ticker self ticker in
        if negb ok then
          let* _ := log_decision (now env)
            (with_scores (default 0 (sig_sentiment_score signal))
                         (default (1 # 2) (sig_duration_score signal))
               (decision ticker SKIP 0 (SkipNotTradable ticker))) in
          add_new_signals self' env rest rank_list
        else
          let sent_score := default 0 (sig_sentiment_score signal) in
          let dur_score := default (1 # 2) (sig_duration_score signal) in
          let rank_score := sent_score * dur_score in
          add_new_signals self' env rest
            (rank_list ++ [mkRankEntry ticker new_signal rank_score
                             sent_score dur_score
                             (fetch_price self' env ticker) None])
      else add_new_signals self env rest rank_list
  end.

(** Step 2.B: the existing holdings, scored from the ledger. *)
Definition holding_entries (self : TradingLogic) (env : Env)
    (chd : list (string * Holding)) (db : list Row) : list RankEntry :=
  omap (fun '(ticker, data) =>
          if Qltb 0 (h_qty data) then
            let '(last_sent, last_dur) := get_latest_scores ticker db in
            Some (mkRankEntry ticker holding (last_sent * last_dur)
                    last_sent last_dur (fetch_price self env ticker)
                    (Some (h_qty data)))
          else None) chd.

(** Step 2.C: [rank_list.sort(key=rank_score, reverse=True)], a stable
    sort by descending score. *)
Fixpoint insert_desc (x : RankEntry) (l : list RankEntry) : list RankEntry :=
  match l with
  | [] => [x]
  | y :: rest =>
      if Qltb (r_rank_score x) (r_rank_score y)
      then y :: insert_desc x rest
      else x :: y :: rest
  end.

Definition sort_desc (l : list RankEntry) : list RankEntry :=
  foldr insert_desc [] l.

(** The state of step 4. *)
Record PlanState := mkPlanState {
  remaining_budget : Q;
  sold_tickers : list string;
  orders : list Order
}.

Definition in_list (t : string) (l : list string) : bool :=
  existsb (String.eqb t) l.

(** The overbought test [rsi > 75 or (rsi >= 65 and new_price <= sma_20)];
    comparing [None] with a number raises. *)
Definition overbought (rsi : option rsi_value) (new_price : Q)
    (sma_20 : option Q) : exn + bool :=
  match rsi with
  | None => inl TypeError
  | Some NaN => inr false
  | Some (Fin r) =>
      if Qltb 75 r then inr true
      else if Qleb 65 r then
        match sma_20 with
        | None => inl TypeError
        | Some s20 => inr (Qleb new_price s20)
        end
      else inr false
  end.

Definition is_oversold (rsi : option rsi_value) : bool :=
  match rsi with
  | Some (Fin r) => Qltb r 35
  | _ => false
  end.

(** The technical entry filter: the SKIP decision to log, if any. *)
Definition technical_filter (item : RankEntry) (new_price : Q)
    (ohlc : option (list Bar)) : exn + option Decision :=
  match ohlc with
  | None => inr None
  | Some bars =>
      let close_series := map close bars in
      let rsi := calculate_rsi close_series 14 in
      let sma_20 := calculate_sma close_series 20 in
      let sma_50 := calculate_sma close_series 50 in
      let new_ticker := r_ticker item in
      let skip r :=
        with_rsi rsi (with_scores (r_sent_score item) (r_dur_score item)
          (decision new_ticker SKIP new_price r)) in
      let contrarian := is_oversold rsi || Qleb (5 # 10) (r_rank_score item) in
      match overbought rsi new_price sma_20 with
      | inl e => inl e
      | inr true =>
          inr (Some (with_sma_50 sma_50 (with_sma_20 sma_20
                 (skip (SkipTechnicalsWeak (default NaN rsi))))))
      | inr false =>
          match sma_20 with
          | Some s20 =>
              if truthy s20 && truthy_opt sma_50 && Qltb new_price s20
                 && Qltb s20 (default 0 sma_50)
              then
                if contrarian then inr None
                else inr (Some (with_sma_50 sma_50 (with_sma_20 sma_20
                       (skip (SkipDowntrend new_ticker new_price s20
                                            (default 0 sma_50))))))
              else if truthy s20 && negb (truthy_opt sma_50)
                      && Qltb new_price s20
              then
                if contrarian then inr None
                else inr (Some (with_sma_20 sma_20
                       (skip (SkipBelowSMA20 new_ticker new_price s20))))
              else inr None
          | None => inr None
          end
      end
  end.

(** The indicators a BUY decision is logged with. *)
Definition entry_indicators (ohlc : option (list Bar))
  : option rsi_value * option Q * option Q :=
  match ohlc with
  | None => (None, None, None)
  | Some bars =>
      (calculate_rsi (map close bars) 14,
       calculate_sma (map close bars) 20,
       calculate_sma (map close bars) 50)
  end.

(** Step 5.e, hybrid whole/fractional sizing. *)
Inductive Sizing :=
| WholeShares (shares_to_buy : Z)
| FractionalShares (frac_qty : Q)
| NoBuy.

Definition size_order (self : TradingLogic) (remaining_budget new_price : Q)
  : Sizing :=
  let target_trade_value := budget self * risk_per_trade_percent self in
  let raw_qty := target_trade_value / new_price in
  if Qleb 1 raw_qty && Qleb new_price remaining_budget then
    let shares_to_buy := py_floor raw_qty in
    let shares_to_buy :=
      if (shares_to_buy =? 0)%Z then
        let max_allowed_shares :=
          py_floor (budget self * max_concentration_percent self / new_price) in
        if (1 <=? max_allowed_shares)%Z then 1%Z else shares_to_buy
      else shares_to_buy in
    if (0 <? shares_to_buy)%Z then
      let cost := inject_Z shares_to_buy * new_price in
      let shares_to_buy :=
        if Qltb remaining_budget cost
        then py_floor (remaining_budget / new_price)
        else shares_to_buy in
      if (0 <? shares_to_buy)%Z then WholeShares shares_to_buy else NoBuy
    else NoBuy
  else if Qltb 0 raw_qty && Qltb raw_qty 1 && Qltb 0 remaining_budget
          && Qltb remaining_budget new_price then
    let frac_qty := py_round4 (remaining_budget / new_price) in
    if Qltb 0 frac_qty then FractionalShares frac_qty else NoBuy
  else NoBuy.

(** The swap buy funded by [proceeds]: quantity and order type. *)
Definition size_swap_buy (proceeds new_price : Q) : Q * OrderType :=
  let raw_swap_qty := proceeds / new_price in
  if Qleb 1 raw_swap_qty then (inject_Z (py_floor raw_swap_qty), limit)
  else if Qltb 0 raw_swap_qty then (py_round4 raw_swap_qty, market)
  else (0, limit).

Definition threshold_met (old_rank new_rank : Q) : bool :=
  if Qleb old_rank (1 # 100) then Qltb (1 # 10) new_rank
  else Qltb (old_rank * (12 # 10)) new_rank.

(** Step 5.f: the scan of [reversed(rank_list)] for a holding to swap
    half of; [candidates] is what is left of the scan. *)
Fixpoint swap_scan (env : Env) (item : RankEntry) (new_price : Q)
    (candidates : list RankEntry) (st : PlanState) : L PlanState :=
  match candidates with
  | [] => ret st
  | potential_swap :: rest =>
      let new_ticker := r_ticker item in
      let old_ticker := r_ticker potential_swap in
      match r_type potential_swap with
      | new_signal => swap_scan env item new_price rest st
      | holding =>
        if in_list old_ticker (sold_tickers st)
        then swap_scan env item new_price rest st
        else
          match r_qty potential_swap with
          | None => raise KeyError
          | Some old_qty =>
            if threshold_met (r_rank_score potential_swap) (r_rank_score item)
            then
              let swap_qty := py_floor (old_qty * (5 # 10)) in
              if (swap_qty <=? 0)%Z
              then swap_scan env item new_price rest st
              else
                match r_price potential_swap with
                | None => raise TypeError      (* [swap_qty * None] *)
                | Some old_price =>
                  let proceeds := inject_Z swap_qty * old_price in
                  let* sell_decision_id := log_decision (now env)
                    (with_quantity (inject_Z swap_qty)
                       (decision old_ticker SELL old_price
                                 (PartialSwapFor new_ticker))) in
                  let sell_order :=
                    mkOrder old_ticker sell (inject_Z swap_qty) limit
                            (Some old_price) (PartialSwapFor new_ticker)
                            sell_decision_id in
                  let '(shares_to_buy_swap, swap_order_type) :=
                    size_swap_buy proceeds new_price in
                  let* buy_orders :=
                    if Qltb 0 shares_to_buy_swap then
                      let reason := SwapBuyVia old_ticker proceeds in
                      let* buy_decision_id := log_decision (now env)
                        (with_scores (r_sent_score item) (r_dur_score item)
                           (with_quantity shares_to_buy_swap
                              (decision new_ticker BUY new_price reason))) in
                      ret [mkOrder new_ticker buy shares_to_buy_swap
                             swap_order_type
                             (match swap_order_type with
                              | limit => Some new_price
                              | market => None
                              end)
                             reason buy_decision_id]
                    else ret [] in
                  let buy_cost := if Qltb 0 shares_to_buy_swap
                                  then shares_to_buy_swap * new_price
                                  else 0 in
                  let leftover := proceeds - buy_cost in
                  ret (mkPlanState
                         (if Qltb 0 leftover
                          then remaining_budget st + leftover
                          else remaining_budget st)
                         (sold_tickers st ++ [old_ticker])
                         (orders st ++ sell_order :: buy_orders))
                end
            else swap_scan env item new_price rest st
          end
      end
  end.

(** [current_holdings_data.get(new_ticker, {}).get('qty', 0)], as [int]. *)
Definition current_held (chd : list (string * Holding)) (new_ticker : string)
  : Z :=
  py_int (match dict_get new_ticker chd with
          | Some data => h_qty data
          | None => 0
          end).

Definition max_shares_for_ticker (self : TradingLogic) (new_price : Q) : Z :=
  py_floor (budget self * max_concentration_percent self / new_price).

(** The body of the loop of step 4 for one entry of [rank_list]. *)
Definition plan_entry (self : TradingLogic) (env : Env)
    (chd : list (string * Holding)) (rank_list : list RankEntry)
    (item : RankEntry) (st : PlanState) : L PlanState :=
  match r_type item with
  | holding => ret st
  | new_signal =>
    match if_truthy (r_price item) with
    | None => ret st
    | Some new_price =>
      let new_ticker := r_ticker item in
      let new_rank := r_rank_score item in
      let skip r := with_scores (r_sent_score item) (r_dur_score item)
                      (decision new_ticker SKIP new_price r) in
      let* cooling := read (is_on_cooldown (now env) new_ticker 4) in
      if cooling then
        let* _ := log_decision (now env) (skip SkipCooldown) in ret st
      else
        let max_shares := max_shares_for_ticker self new_price in
        let held := current_held chd new_ticker in
        if (max_shares <=? held)%Z then
          let* _ := log_decision (now env)
                      (skip (SkipMaxConcentration held max_shares)) in
          ret st
        else
          let ohlc := fetch_history self new_ticker in
          match technical_filter item new_price ohlc with
          | inl e => raise e
          | inr (Some d) => let* _ := log_decision (now env) d in ret st
          | inr None =>
            let '(rsi, sma_20, sma_50) := entry_indicators ohlc in
            let buy_decision q r :=
              with_sma_50 sma_50 (with_sma_20 sma_20 (with_rsi rsi
                (with_scores (r_sent_score item) (r_dur_score item)
                  (with_quantity q (decision new_ticker BUY new_price r))))) in
            match size_order self (remaining_budget st) new_price with
            | WholeShares shares_to_buy =>
                let cost := inject_Z shares_to_buy * new_price in
                let reason := HolisticBuy new_rank in
                let* decision_id := log_decision (now env)
                  (buy_decision (inject_Z shares_to_buy) reason) in
                ret (mkPlanState (remaining_budget st - cost)
                       (sold_tickers st)
                       (orders st ++
                          [mkOrder new_ticker buy (inject_Z shares_to_buy)
                             limit (Some new_price) reason decision_id]))
            | FractionalShares frac_qty =>
                let cost := frac_qty * new_price in
                let reason := FractionalGapFill new_rank frac_qty in
                let* decision_id := log_decision (now env)
                  (buy_decision frac_qty reason) in
                ret (mkPlanState (remaining_budget st - cost)
                       (sold_tickers st)
                       (orders st ++
                          [mkOrder new_ticker buy frac_qty market None
                             reason decision_id]))
            | NoBuy => swap_scan env item new_price (rev rank_list) st
            end
          end
    end
  end.

Fixpoint plan_loop (self : TradingLogic) (env : Env)
    (chd : list (string * Holding)) (rank_list items : list RankEntry)
    (st : PlanState) : L PlanState :=
  match items with
  | [] => ret st
  | item :: rest =>
      let* st' := plan_entry self env chd rank_list item st in
      plan_loop self env chd rank_list rest st'
  end.

(** Steps 2.B to 4, once the new signals are ranked. *)
Definition plan_orders (self : TradingLogic) (env : Env)
    (chd : list (string * Holding)) (remaining_budget : Q)
    (new_entries : list RankEntry) : L (list Order) :=
  let* held_entries := read (holding_entries self env chd) in
  let rank_list := sort_desc (new_entries ++ held_entries) in
  let* (risk_sells, risk_proceeds) := check_portfolio_risks self env chd in
  let remaining_budget :=
    if Qltb 0 risk_proceeds then remaining_budget + risk_proceeds
    else remaining_budget in
  let* st := plan_loop self env chd rank_list rank_list
               (mkPlanState remaining_budget (map o_ticker risk_sells)
                            risk_sells) in
  ret (orders st).

(** Step 2, first half: nothing is ranked in defense or safe-hold mode. *)
Definition rank_new_signals (self : TradingLogic) (env : Env)
    (sentiment_data : list Signal) (env_bias : Q) (macro_reason : string)
  : L (TradingLogic * list RankEntry) :=
  let safe_hold_mode := Qeq_bool env_bias 0 in
  let defense_mode := Qltb env_bias (5 # 10) in
  if defense_mode || safe_hold_mode then
    let* _ := log_decision (now env)
      (with_macro env_bias macro_reason (with_scores 0 0
         (decision "SYSTEM" DEFENSE_MODE 0
            (DefenseModeReason safe_hold_mode env_bias macro_reason)))) in
    ret (self, [])
  else add_new_signals self env sentiment_data [].

(** [generate_plan(sentiment_data, portfolio, env_bias, macro_reason)]:
    the plan or the exception, the instance and the ledger afterwards. *)
Definition generate_plan (self : TradingLogic) (env : Env)
    (sentiment_data : list Signal)
    (portfolio : list (string * PortfolioPosition))
    (env_bias : Q) (macro_reason : string) (db : list Row)
  : (exn + list Order) * TradingLogic * list Row :=
  let self1 := enter_mode self env_bias macro_reason in
  let effective_budget := budget self1 * env_bias in
  let '(cost_basis_total, chd) := load_holdings self1 portfolio in
  let remaining_budget := effective_budget - cost_basis_total in
  match rank_new_signals self1 env sentiment_data env_bias macro_reason db with
  | (inl e, db1) => (inl e, self1, db1)
  | (inr (self2, new_entries), db1) =>
      let '(res, db2) :=
        plan_orders self2 env chd remaining_budget new_entries db1 in
      (res, self2, db2)
  end.

(** The instance in a later cycle: the same object, with the broker
    answering as it does by then. *)
Definition with_client (client : AlpacaApi) (self : TradingLogic)
  : TradingLogic :=
  mkTradingLogic (budget self) (risk_per_trade_percent self)
    (stop_loss_percent self) (max_concentration_percent self)
    (atr_multiplier self) (atr_period self) (trailing_activation_pct self)
    (trailing_drop_pct self)
    (match api self with Some _ => Some client | None => None end)
    (_ticker_cache self) (_panic_mode self)
    (_env_bias self) (_macro_reason self).

(** The inputs of one planning cycle and the state of the collaborators
    when it runs. *)
Record Cycle := mkCycle {
  c_client : AlpacaApi;
  c_env : Env;
  c_ledger : list Row;
  c_sentiment_data : list Signal;
  c_portfolio : list (string * PortfolioPosition);
  c_env_bias : Q;
  c_macro_reason : string
}.

(** Successive calls of [generate_plan] on one instance, whether or not
    a call raises. *)
Fixpoint run_cycles (self : TradingLogic) (cycles : list Cycle)
  : TradingLogic :=
  match cycles with
  | [] => self
  | c :: rest =>
      run_cycles
        (generate_plan (with_client (c_client c) self) (c_env c)
           (c_sentiment_data c) (c_portfolio c) (c_env_bias c)
           (c_macro_reason c) (c_ledger c)).1.2
        rest
  end.

End Plan.
Export Plan.

(** ** Measures on a plan *)

Module Accounting.

(** Quantity times limit price. *)
Definition order_value (o : Order) : Q :=
  o_quantity o * default 0 (o_limit_price o).

Definition is_sell (o : Order) : bool :=
  match o_action o with sell => true | buy => false end.

Definition is_limit_buy (o : Order) : bool :=
  match o_action o, o_order_type o with
  | buy, limit => true
  | _, _ => false
  end.

(** The proceeds of the sell orders of a plan (all are limit orders). *)
Definition sell_proceeds (plan : list Order) : Q :=
  Qsum (map order_value (List.filter is_sell plan)).

(** The cost of the whole-share (limit) buy orders of a plan. *)
Definition limit_buy_cost (plan : list Order) : Q :=
  Qsum (map order_value (List.filter is_limit_buy plan)).

(** The holdings the risk check evaluates: a whole share at least, and a
    current price that is neither missing nor zero. *)
Definition evaluated (self : TradingLogic) (env : Env)
    (entry : string * Holding) : bool :=
  (0 <? py_int (h_qty entry.2))%Z
  && bool_decide (is_Some (if_truthy (holding_price self env entry.1 entry.2))).

(** A HOLD or SELL record of [ticker] that carries the indicators
    computed for it. *)
Definition risk_row_of (self : TradingLogic) (row : Row)
    (entry : string * Holding) : Prop :=
  let d := row_data row in
  d_ticker d = entry.1
  /\ (d_action d = HOLD \/ d_action d = SELL)
  /\ d_sma_20 d = holding_sma self entry.1 20
  /\ d_sma_50 d = holding_sma self entry.1 50
  /\ d_atr_14 d = holding_atr self entry.1.

(** The market quotes no negative price: neither for a latest trade, nor
    at the console, nor as the current price of a position. *)
Definition prices_nonnegative (self : TradingLogic) (env : Env) : Prop :=
  (forall ticker p, fetch_price self env ticker = Some p -> 0 <= p)
  /\ (forall client positions,
        api self = Some client -> list_positions client = Some positions ->
        Forall (fun p => 0 <= current_price p) positions).

(** The budget invariant of step 4, for the whole-share buys: what they
    cost so far, with what is left of the budget, is covered by the budget
    that was free at the start and the proceeds of the sells so far. *)
Definition covered (free_at_start : Q) (st : PlanState) : Prop :=
  limit_buy_cost (orders st) + Qmax 0 (remaining_budget st)
  <= Qmax 0 free_at_start + sell_proceeds (orders st).

(** No entry of the ranked list carries a negative price. *)
Definition priced (entries : list RankEntry) : Prop :=
  Forall (fun e => forall p, r_price e = Some p -> 0 <= p) entries.

(** No holding carries a negative current price. *)
Definition holdings_priced (chd : list (string * Holding)) : Prop :=
  Forall (fun entry => forall p, h_current_price entry.2 = Some p -> 0 <= p) chd.

End Accounting.
Export Accounting.

(** ** Sample inputs

    A market in which XYZ has fallen for sixty days (close 160 down to 101,
    each bar ranging one above and one below its close): SMA20 is 110.5,
    SMA50 is 125.5 and the ATR is 2. *)

Module Sample.

Definition falling_bars : list Bar :=
  map (fun i : Z => mkBar (inject_Z (161 - i)) (inject_Z (159 - i))
                          (inject_Z (160 - i)))
      (seqZ 0 60).

Definition asset_active : Asset := mkAsset true "active".

(** Every asset is tradable; XYZ has sixty bars of history, RECENT the
    last thirty of them, nothing else has any. *)
Definition broker (positions : option (list Position)) : AlpacaApi :=
  mkApi (fun _ => Some asset_active)
        (fun t => if String.eqb t "NVDA" then Some 500
                  else if String.eqb t "NEW" then Some 50
                  else Some 100)
        (fun t => if String.eqb t "XYZ" then Some falling_bars
                  else if String.eqb t "RECENT" then Some (drop 30 falling_bars)
                  else None)
        positions.

(** A broker that is reachable but answers every call with an error. *)
Definition broker_down : AlpacaApi :=
  mkApi (fun _ => None) (fun _ => None) (fun _ => None) None.

Definition nobody : Env := mkEnv (fun _ => None) 1000000.

(** The instance [main] builds from config.py. *)
Definition engine (client : option AlpacaApi) : TradingLogic :=
  init 1000 (10 # 100) (8 # 100) (20 # 100) client.

Definition xyz : Holding := mkHolding 10 100 (Some 1000) (Some 100).

(** Half a share; ten and a half shares bought at 120; and a holding as
    the portfolio-file fallback records it, without a current price. *)
Definition half_share : Holding := mkHolding (1 # 2) 100 (Some 50) (Some 100).
Definition xyz_dear : Holding := mkHolding (21 # 2) 120 (Some 1050) (Some 100).
Definition xyz_unpriced : Holding := mkHolding 10 100 None None.

(** A BUY of XYZ logged [age] seconds before [now nobody]. *)
Definition bought_xyz (age : Q) : list Row :=
  [mkRow 1 (now nobody - age) (Some "filled"%string)
     (with_quantity 10 (decision "XYZ" BUY 100 (HolisticBuy (6 # 10))))].

Definition live : TradingLogic := engine (Some (broker None)).

(** A broker with no positions that quotes 50 for every ticker and serves
    the same bars for each. *)
Definition broker_serving (bars : list Bar) : AlpacaApi :=
  mkApi (fun _ => Some asset_active) (fun _ => Some 50)
        (fun _ => Some bars) (Some []).

(** Fifteen closes, ten rises of 1 then four falls of 1: RSI(14) is 71.4,
    and there is no SMA20 yet. *)
Definition warm_bars : list Bar :=
  map (fun c : Z => mkBar (inject_Z (c + 1)) (inject_Z (c - 1)) (inject_Z c))
      (seqZ 100 11 ++ [109; 108; 107; 106]%Z).

Definition buy_signal (ticker : string) : Signal :=
  mkSignal (Some "Buy"%string) ticker (Some (6 # 10)) (Some 1) None.

(** One cycle in normal mode on an empty ledger, with one Buy signal. *)
Definition plan_for (client : AlpacaApi) (ticker : string)
  : (exn + list Order) * TradingLogic * list Row :=
  generate_plan (engine (Some client)) nobody [buy_signal ticker] [] 1 "" [].

(** What the risk check of [xyz_dear] and of [xyz] returns on an empty
    ledger, and the averages of XYZ. *)
Definition dear_sale : (exn + list Order * Q) * list Row :=
  Eval vm_compute in
    check_portfolio_risks live nobody [("XYZ"%string, xyz_dear)] [].

Definition xyz_sale : (exn + list Order * Q) * list Row :=
  Eval vm_compute in
    check_portfolio_risks live nobody [("XYZ"%string, xyz)] [].

(** The sell orders of a result of the risk check. *)
Definition sells_of (r : (exn + list Order * Q) * list Row) : list Order :=
  match r.1 with
  | inr (sell_orders, _) => sell_orders
  | inl _ => []
  end.

Definition proceeds_of (r : (exn + list Order * Q) * list Row) : Q :=
  match r.1 with
  | inr (_, total_proceeds) => total_proceeds
  | inl _ => 0
  end.

Definition xyz_sma20 : Q :=
  Eval vm_compute in default 0 (holding_sma live "XYZ" 20).
Definition xyz_sma50 : Q :=
  Eval vm_compute in default 0 (holding_sma live "XYZ" 50).

(** A fully invested account: twelve shares of OLD bought at 100, worth
    100 each, against a budget of 1000; NEW trades at 50. *)
Definition invested : AlpacaApi :=
  broker (Some [mkPosition "OLD" 12 100 1200 100]).

(** The instance, the holdings, the ledger and the ranked list with which
    step 4 of that cycle starts (the risk check has logged one HOLD). *)
Definition invested_self : TradingLogic :=
  (plan_for invested "NEW").1.2.
Definition invested_holdings : list (string * Holding) :=
  (load_holdings invested_self []).2.
Definition invested_ledger : list Row :=
  Eval vm_compute in
    (check_portfolio_risks invested_self nobody invested_holdings []).2.
Definition invested_rank_list : list RankEntry :=
  Eval vm_compute in
    sort_desc ([mkRankEntry "NEW" new_signal ((6 # 10) * 1) (6 # 10) 1
                  (fetch_price invested_self nobody "NEW") None]
               ++ holding_entries invested_self nobody invested_holdings []).

(** The plan of that cycle: half of OLD is sold to buy NEW. *)
Definition invested_plan : list Order :=
  [mkOrder "OLD" sell 6 limit (Some 100) (PartialSwapFor "NEW") 2;
   mkOrder "NEW" buy 12 limit (Some 50) (SwapBuyVia "OLD" 600) 3].

(** An instance whose broker reports ten XYZ bought at 100, worth 100
    each, and the plan of a cycle in panic that starts one hour after the
    purchase. *)
Definition xyz_holder : TradingLogic :=
  engine (Some (broker (Some [mkPosition "XYZ" 10 100 1000 100]))).
Definition xyz_panic_plan : list Order :=
  [mkOrder "XYZ" sell 10 limit (Some 100)
           (TrendBreakdown 100 xyz_sma20 xyz_sma50) 3].

End Sample.

(** ** What the trader writes back (trade_logger.update_execution) *)

Module Execution.

(** [update_execution(decision_id, order_id, status, ...)]: the row with
    that id gets the execution status.  Of the columns the statement sets,
    [execution_status] is the one among the columns of [Row], the only one
    the engine reads back. *)
Definition update_execution (decision_id : Z) (status : string)
    (db : list Row) : list Row :=
  map (fun r => if (row_id r =? decision_id)%Z
                then mkRow (row_id r) (row_timestamp r) (Some status)
                           (row_data r)
                else r) db.

(** No row of the ledger is stamped later than [t]. *)
Definition not_after (t : Q) (db : list Row) : Prop :=
  Forall (fun r => row_timestamp r <= t) db.

(** Every row of the ledger is stamped before [t]. *)
Definition all_before (t : Q) (db : list Row) : Prop :=
  Forall (fun r => row_timestamp r < t) db.

(** Rows none of which records a BUY. *)
Definition no_buys (rows : list Row) : Prop :=
  Forall (fun r => is_BUY (d_action (row_data r)) = false) rows.

End Execution.
Export Execution.

(** ** Kinds of reasons and orders *)

Module Kinds.

(** The reasons of the stop-loss other than the protected-profit one. *)
Definition is_stop_reason (r : Reason) : bool :=
  match r with
  | ATRStop _ _ _ _ _ | HardStopLoss _ _ _ => true
  | _ => false
  end.

(** The reasons a risk sell can carry. *)
Definition is_risk_sell_reason (r : Reason) : bool :=
  match r with
  | ATRStop _ _ _ _ _ | HardStopLoss _ _ _
  | TrailingProfitTaken _ _ _ | TrendBreakdown _ _ _ => true
  | _ => false
  end.

(** A limit sell of a positive whole number of shares. *)
Definition is_whole_limit_sell (o : Order) : Prop :=
  o_action o = sell /\ o_order_type o = limit
  /\ is_Some (o_limit_price o)
  /\ exists n : Z, (0 < n)%Z /\ o_quantity o = inject_Z n.

(** The Buy signals of [sentiment_data]. *)
Definition buy_signals (sentiment_data : list Signal) : list Signal :=
  List.filter (fun signal => is_Buy (sig_action signal)) sentiment_data.

(** The record of a cycle in defense or safe-hold mode. *)
Definition defense_record (env_bias : Q) (macro_reason : string) : Decision :=
  with_macro env_bias macro_reason (with_scores 0 0
    (decision "SYSTEM" DEFENSE_MODE 0
       (DefenseModeReason (Qeq_bool env_bias 0) env_bias macro_reason))).

(** Entries with the score [s]. *)
Definition scored (s : Q) (entries : list RankEntry) : list RankEntry :=
  List.filter (fun e => Qeq_bool (r_rank_score e) s) entries.

(** The first entry ranks at least as high as the second. *)
Definition ranks_before (x y : RankEntry) : Prop :=
  r_rank_score y <= r_rank_score x.

(** An order a broker can take: a positive quantity, a limit price on a
    limit order, and market orders only for buys, without a limit price. *)
Definition well_formed (o : Order) : Prop :=
  0 < o_quantity o
  /\ match o_order_type o with
     | limit => is_Some (o_limit_price o)
     | market => o_limit_price o = None /\ o_action o = buy
     end.

(** The ledger holds the decision the order refers to: a row with the id
    the order carries, for the same ticker, action, quantity and reason. *)
Definition backed (db : list Row) (o : Order) : Prop :=
  exists r,
    r ∈ db
    /\ row_id r = o_decision_id o
    /\ d_ticker (row_data r) = o_ticker o
    /\ d_action (row_data r)
       = match o_action o with buy => BUY | sell => SELL end
    /\ d_quantity (row_data r) = Some (o_quantity o)
    /\ d_decision_reason (row_data r) = o_reason o.

(** What step 4 keeps true of its state: the orders are well formed and
    backed by the ledger, and [sold_tickers] lists the tickers of the sell
    orders, each once. *)
Definition sound (st : PlanState) (db : list Row) : Prop :=
  Forall well_formed (orders st)
  /\ Forall (backed db) (orders st)
  /\ sold_tickers st = map o_ticker (List.filter is_sell (orders st))
  /\ NoDup (sold_tickers st).

(** Code that only appends to the ledger, whether it returns or raises. *)
Definition grows {A} (m : L A) : Prop :=
  forall db, db `prefix_of` (m db).2.

(** An order for a ticker among the holdings [chd], for no more than the
    quantity held. *)
Definition held_by (chd : list (string * Holding)) (o : Order) : Prop :=
  exists data, (o_ticker o, data) ∈ chd /\ o_quantity o <= h_qty data.

(** A ticker with a Buy signal in [sentiment_data]. *)
Definition signalled (sentiment_data : list Signal) (ticker : string) : Prop :=
  ticker ∈ map sig_ticker (buy_signals sentiment_data).

(** A sell of a holding or a buy of a signalled ticker. *)
Definition justified (chd : list (string * Holding))
    (sentiment_data : list Signal) (o : Order) : Prop :=
  match o_action o with
  | sell => held_by chd o
  | buy => signalled sentiment_data (o_ticker o)
  end.

(** An entry of the ranked list that stands for a holding of [chd], with
    its quantity, or for a Buy signal of [sentiment_data]. *)
Definition ranked_from (chd : list (string * Holding))
    (sentiment_data : list Signal) (e : RankEntry) : Prop :=
  match r_type e with
  | holding =>
      exists data, (r_ticker e, data) ∈ chd /\ r_qty e = Some (h_qty data)
  | new_signal => signalled sentiment_data (r_ticker e)
  end.

(** The tickers of the buy orders of a plan, in plan order. *)
Definition bought (plan : list Order) : list string :=
  map o_ticker (List.filter (fun o => negb (is_sell o)) plan).

(** Step 4 at ledger [db], having started at [db0]: each ticker bought so
    far was off cooldown at [db0] and is on cooldown at [db], and none is
    bought twice. *)
Definition cooled (now : Q) (db0 db : list Row) (plan : list Order) : Prop :=
  db0 `prefix_of` db
  /\ Forall (fun t => is_on_cooldown now t 4 db0 = false
                      /\ is_on_cooldown now t 4 db = true) (bought plan)
  /\ NoDup (bought plan).

(** From [st] to [st'], half of one holding among [candidates] is swapped
    for the signal [item]: a holding not yet sold, ranked strictly below
    the signal, of at least two shares; the sell order is for the floor
    of half the quantity held, at most one buy order for the signal
    follows it, and the remaining budget does not go down. *)
Definition swaps (item : RankEntry) (candidates : list RankEntry)
    (st st' : PlanState) : Prop :=
  exists c old_qty sell_order buys,
    c ∈ candidates /\ r_type c = holding
    /\ (r_ticker c ∉ sold_tickers st)
    /\ r_rank_score c < r_rank_score item
    /\ r_qty c = Some old_qty /\ 2 <= old_qty
    /\ sold_tickers st' = sold_tickers st ++ [r_ticker c]
    /\ remaining_budget st <= remaining_budget st'
    /\ orders st' = orders st ++ sell_order :: buys
    /\ o_ticker sell_order = r_ticker c /\ o_action sell_order = sell
    /\ o_quantity sell_order = inject_Z (py_floor (old_qty * (5 # 10)))
    /\ o_quantity sell_order * 2 <= old_qty
    /\ (length buys <= 1)%nat
    /\ Forall (fun b => o_action b = buy /\ o_ticker b = r_ticker item) buys.

End Kinds.
Export Kinds.

(** ** The grace period: what is logged and what is ordered *)

Module Grace.

(** A HOLD row of the grace period for [shares] shares of [ticker] at
    [current_price], held for [hours_held] hours. *)
Definition is_grace_hold (ticker : string) (shares : Z)
    (current_price hours_held : Q) (r : Row) : Prop :=
  d_ticker (row_data r) = ticker
  /\ d_action (row_data r) = HOLD
  /\ d_quantity (row_data r) = Some (inject_Z shares)
  /\ d_price (row_data r) = current_price
  /\ d_decision_reason (row_data r) = GracePeriod hours_held.

(** The order [o] sells [shares] shares of [ticker] at the limit
    [current_price] for the trend breakdown, and [r] is the SELL row it
    refers to. *)
Definition is_breakdown_sell (ticker : string) (shares : Z)
    (current_price s20 s50 : Q) (o : Order) (r : Row) : Prop :=
  o_ticker o = ticker
  /\ o_action o = sell
  /\ o_quantity o = inject_Z shares
  /\ o_order_type o = limit
  /\ o_limit_price o = Some current_price
  /\ o_reason o = TrendBreakdown current_price s20 s50
  /\ o_decision_id o = row_id r
  /\ d_ticker (row_data r) = ticker
  /\ d_action (row_data r) = SELL
  /\ d_quantity (row_data r) = Some (inject_Z shares)
  /\ d_price (row_data r) = current_price
  /\ d_decision_reason (row_data r) = TrendBreakdown current_price s20 s50.

(** No order of [plan] for [ticker] is a sell of the risk check. *)
Definition no_risk_sell_of (ticker : string) (plan : list Order) : Prop :=
  Forall (fun o => o_ticker o = ticker ->
                   is_risk_sell_reason (o_reason o) = false) plan.

End Grace.
Export Grace.

(** * Properties *)

(** ** Comparisons and indicator availability *)

Section Basics.

Lemma Qleb_le a b : Qleb a b = true <-> a <= b.
Proof. apply Qle_bool_iff. Qed.

Lemma Qltb_lt a b : Qltb a b = true <-> a < b.
Proof.
  unfold Qltb. rewrite negb_true_iff. split.
  - intros H. apply Qnot_le_lt. intros Hle.
    apply Qle_bool_iff in Hle. congruence.
  - intros H. destruct (Qle_bool b a) eqn:E; [|done].
    apply Qle_bool_iff in E. exfalso. apply (Qlt_not_le _ _ H E).
Qed.

Lemma Qltb_ge a b : Qltb a b = false <-> b <= a.
Proof.
  unfold Qltb. rewrite negb_false_iff. apply Qle_bool_iff.
Qed.

Lemma Qleb_gt a b : Qleb a b = false <-> b < a.
Proof.
  unfold Qleb. split.
  - intros H. apply Qnot_le_lt. intros Hle.
    apply Qle_bool_iff in Hle. congruence.
  - intros H. destruct (Qle_bool a b) eqn:E; [|done].
    apply Qle_bool_iff in E. exfalso. apply (Qlt_not_le _ _ H E).
Qed.

Lemma truthy_neq x : truthy x = true <-> ~ x == 0.
Proof.
  unfold truthy. rewrite negb_true_iff. split.
  - intros H E. apply Qeq_bool_iff in E. congruence.
  - intros H. destruct (Qeq_bool x 0) eqn:E; [|done].
    apply Qeq_bool_iff in E. contradiction.
Qed.

Lemma truthy_pos x : 0 < x -> truthy x = true.
Proof. intros H. apply truthy_neq. intros E. rewrite E in H. lra. Qed.

Lemma calculate_rsi_short series period :
  (length series < period + 1)%nat -> calculate_rsi series period = None.
Proof.
  intros H. unfold calculate_rsi.
  destruct (Nat.ltb_spec (length series) (period + 1)); [done | lia].
Qed.

Lemma calculate_sma_short series period :
  (length series < period)%nat -> calculate_sma series period = None.
Proof.
  intros H. unfold calculate_sma.
  destruct (Nat.ltb_spec (length series) period); [done | lia].
Qed.

End Basics.

(** ** The risk evaluator, one holding at a time *)

Section RiskFacts.

Variables (self : TradingLogic) (env : Env).

Lemma risk_check_holding_no_shares ticker data db :
  (py_int (h_qty data) <= 0)%Z ->
  risk_check_holding self env ticker data db = (inr Skipped, db).
Proof.
  intros H. unfold risk_check_holding.
  destruct (Z.leb_spec (py_int (h_qty data)) 0); [done | lia].
Qed.

Lemma risk_check_holding_no_price ticker data db :
  if_truthy (holding_price self env ticker data) = None ->
  risk_check_holding self env ticker data db = (inr Skipped, db).
Proof.
  intros H. unfold risk_check_holding. rewrite H.
  by destruct (_ <=? _)%Z.
Qed.

(** An evaluated holding: the outcome of the triggers decides the verdict
    and the one row that is logged. *)
Lemma risk_check_holding_eval ticker data db current_price :
  (0 < py_int (h_qty data))%Z ->
  if_truthy (holding_price self env ticker data) = Some current_price ->
  let shares := py_int (h_qty data) in
  let row d := mkRow (next_id db) (now env) None (stored d) in
  risk_check_holding self env ticker data db =
  match evaluate_triggers self env ticker (h_avg_entry data) current_price
          (get_last_buy_time ticker db) with
  | inl e => (inl e, db)
  | inr NoTrigger =>
      (inr Held, db ++ [row (hold_record self ticker shares current_price)])
  | inr (GraceSuppressed hours_held) =>
      (inr GraceHeld,
       db ++ [row (grace_record self ticker shares current_price hours_held)])
  | inr (SellFor sell_reason) =>
      (inr (Sold (sell_order ticker shares current_price sell_reason (next_id db))
                 (current_price * inject_Z shares)),
       db ++ [row (sell_record self ticker shares (h_avg_entry data)
                               current_price sell_reason)])
  end.
Proof.
  intros Hs Hp shares row. unfold risk_check_holding. rewrite Hp.
  destruct (Z.leb_spec (py_int (h_qty data)) 0); [lia |].
  unfold bind, read, raise, ret, log_decision.
  by destruct (evaluate_triggers _ _ _ _ _ _) as [e | [ | h | r]].
Qed.

(** The triggers raise only through the division by a zero entry price. *)
Lemma evaluate_triggers_total ticker buy_price current_price last_buy :
  ~ buy_price == 0 ->
  exists o, evaluate_triggers self env ticker buy_price current_price last_buy
            = inr o.
Proof.
  intros Hbp. unfold evaluate_triggers.
  destruct (holding_stop _ _ _ _) as [stop zl].
  unfold stop_loss_trigger.
  assert (Qeq_bool buy_price 0 = false) as ->.
  { destruct (Qeq_bool buy_price 0) eqn:E; [|done].
    apply Qeq_bool_iff in E. contradiction. }
  destruct (Qltb current_price stop); [| destruct (trailing_trigger _ _ _ _); eauto].
  destruct zl; [eauto |].
  destruct (holding_atr self ticker) as [a |]; [destruct (truthy a) |]; eauto.
Qed.

(** A sell that priority 3 decides is a confirmed breakdown. *)
Lemma trend_breakdown_sell current_price sma_20 sma_50 last_buy r :
  trend_breakdown self env current_price sma_20 sma_50 last_buy = SellFor r ->
  exists s20 s50, sma_20 = Some s20 /\ sma_50 = Some s50
    /\ r = TrendBreakdown current_price s20 s50
    /\ current_price < s20 /\ s20 < s50.
Proof.
  unfold trend_breakdown.
  destruct sma_20 as [s20 |], sma_50 as [s50 |]; try done.
  destruct (truthy s20 && truthy s50); [| done].
  destruct (Qltb current_price s20) eqn:E1; [| done].
  destruct (Qltb s20 s50) eqn:E2; [| done]. simpl.
  destruct (_ && _); [done |].
  intros [= <-]. exists s20, s50.
  apply Qltb_lt in E1. apply Qltb_lt in E2. done.
Qed.

(** The reasons of priorities 1 and 2 are never the breakdown reason. *)
Lemma evaluate_triggers_breakdown ticker buy_price current_price last_buy
    cur s20 s50 :
  evaluate_triggers self env ticker buy_price current_price last_buy
    = inr (SellFor (TrendBreakdown cur s20 s50)) ->
  holding_sma self ticker 20 = Some s20
  /\ holding_sma self ticker 50 = Some s50
  /\ cur = current_price /\ cur < s20 /\ s20 < s50.
Proof.
  unfold evaluate_triggers.
  destruct (holding_stop _ _ _ _) as [stop zl].
  destruct (stop_loss_trigger _ _ _ _ _ _) as [e | [r |]] eqn:E1.
  - done.
  - intros [= ->]. unfold stop_loss_trigger in E1.
    repeat case_match; congruence.
  - destruct (trailing_trigger _ _ _ _) as [r |] eqn:E2.
    + intros [= ->]. unfold trailing_trigger in E2.
      repeat case_match; congruence.
    + intros [= Htb].
      apply trend_breakdown_sell in Htb
        as (a & b & -> & -> & [= -> -> ->] & ? & ?).
      done.
Qed.

End RiskFacts.

(** ** The loop of [check_portfolio_risks] *)

Section RiskLoop.

Variables (self : TradingLogic) (env : Env).

Lemma risk_check_holding_sold ticker data db o p db' :
  risk_check_holding self env ticker data db = (inr (Sold o p), db') ->
  exists current_price sell_reason,
    (0 < py_int (h_qty data))%Z
    /\ if_truthy (holding_price self env ticker data) = Some current_price
    /\ evaluate_triggers self env ticker (h_avg_entry data) current_price
         (get_last_buy_time ticker db) = inr (SellFor sell_reason)
    /\ o = sell_order ticker (py_int (h_qty data)) current_price sell_reason
                      (next_id db)
    /\ p = current_price * inject_Z (py_int (h_qty data)).
Proof.
  intros H.
  destruct (Z.leb_spec (py_int (h_qty data)) 0) as [Hs | Hs].
  { by rewrite risk_check_holding_no_shares in H. }
  destruct (if_truthy (holding_price self env ticker data)) as [cp |] eqn:Hp.
  2: { by rewrite risk_check_holding_no_price in H. }
  rewrite (risk_check_holding_eval _ _ _ _ _ cp Hs Hp) in H.
  destruct (evaluate_triggers _ _ _ _ _ _) as [e | [| h | r]] eqn:E; try done.
  simplify_eq. by exists cp, r.
Qed.

Lemma risk_loop_app items1 : forall items2 acc tot db,
  risk_loop self env (items1 ++ items2) acc tot db =
  match risk_loop self env items1 acc tot db with
  | (inl e, db') => (inl e, db')
  | (inr (acc', tot'), db') => risk_loop self env items2 acc' tot' db'
  end.
Proof.
  induction items1 as [| [t d] rest IH]; intros items2 acc tot db; [done |].
  simpl. unfold bind.
  destruct (risk_check_holding self env t d db) as [[e | v] db1]; [done |].
  destruct v; apply IH.
Qed.

(** Every order of the result, beyond those the accumulator held, was
    produced by the evaluation of one of the holdings. *)
Lemma risk_loop_sells items : forall acc tot db orders tot' db',
  risk_loop self env items acc tot db = (inr (orders, tot'), db') ->
  exists new,
    orders = acc ++ new
    /\ Forall (fun o => exists t d db0 db1 p,
                 (t, d) ∈ items
                 /\ risk_check_holding self env t d db0 = (inr (Sold o p), db1))
              new.
Proof.
  induction items as [| [t d] rest IH]; intros acc tot db orders tot' db' H.
  - injection H as <- _ _. exists []. by rewrite app_nil_r.
  - simpl in H. unfold bind in H.
    destruct (risk_check_holding self env t d db) as [[e | v] db1] eqn:E;
      [done |].
    assert (forall new, Forall (fun o => exists t0 d0 db0 db2 p,
                (t0, d0) ∈ rest /\ risk_check_holding self env t0 d0 db0
                                   = (inr (Sold o p), db2)) new ->
            Forall (fun o => exists t0 d0 db0 db2 p,
                (t0, d0) ∈ (t, d) :: rest /\ risk_check_holding self env t0 d0 db0
                                   = (inr (Sold o p), db2)) new) as Hweak.
    { intros new Hall. eapply Forall_impl; [exact Hall |].
      intros o (t0 & d0 & db0 & db2 & p & Hin & Hr).
      exists t0, d0, db0, db2, p. split; [by constructor | done]. }
    destruct v as [| | | o p];
      try (apply IH in H as (new & -> & Hall); exists new; by auto).
    apply IH in H as (new & -> & Hall).
    exists (o :: new). split; [by rewrite <- app_assoc |].
    constructor; [| by auto].
    exists t, d, db, db1, p. split; [by constructor | done].
Qed.

End RiskLoop.

(** ** Claims about the risk evaluator *)

Lemma py_int_fraction q : 0 < q -> q < 1 -> py_int q = 0%Z.
Proof.
  destruct q as [n d]. unfold Qlt, py_int. simpl. intros H0 H1.
  apply Z.quot_small. lia.
Qed.

(** C8. The zero-loss override is monotone: whatever the entry price, the
    current price and the ATR (available or not, so for the ATR stop and
    for the fixed-percent fallback alike), the stop after the override is
    at least the stop computed before it. *)
Theorem zero_loss_override_never_lowers_stop
    (self : TradingLogic) (buy_price current_price : Q) (atr_14 : option Q) :
  let stop_before := base_stop_price self buy_price atr_14 in
  let stop_after := fst (zero_loss_rule buy_price current_price stop_before) in
  stop_before <= stop_after.
Proof.
  intros stop_before stop_after. subst stop_after. unfold zero_loss_rule.
  destruct (Qltb 0 buy_price); [| apply Qle_refl].
  destruct (Qltb _ ((current_price - buy_price) / buy_price)); [| apply Qle_refl].
  destruct (Qltb stop_before _) eqn:E; [| apply Qle_refl].
  apply Qltb_lt in E. simpl. by apply Qlt_le_weak.
Qed.

(** C10. The share quantity is truncated to an integer before anything
    else: a holding of a fraction of a share (0 < qty < 1) is skipped with
    no verdict, no order and no record, so that the risk check of a
    portfolio is the risk check of the portfolio without it; and every
    sell order of the risk check is for the truncated full position of the
    holding of its ticker. *)
Theorem risk_check_truncates_share_quantity (self : TradingLogic) (env : Env) :
  (forall ticker data db,
      0 < h_qty data -> h_qty data < 1 ->
      risk_check_holding self env ticker data db = (inr Skipped, db))
  /\ (forall before after ticker data db,
      0 < h_qty data -> h_qty data < 1 ->
      check_portfolio_risks self env (before ++ (ticker, data) :: after) db
      = check_portfolio_risks self env (before ++ after) db)
  /\ (forall holdings_data db sell_orders total_proceeds db',
      check_portfolio_risks self env holdings_data db
        = (inr (sell_orders, total_proceeds), db') ->
      Forall (fun o => exists data,
                (o_ticker o, data) ∈ holdings_data
                /\ (0 < py_int (h_qty data))%Z
                /\ o_quantity o = inject_Z (py_int (h_qty data)))
             sell_orders).
Proof.
  assert (forall ticker data db,
      0 < h_qty data -> h_qty data < 1 ->
      risk_check_holding self env ticker data db = (inr Skipped, db)) as Hskip.
  { intros ticker data db H0 H1. apply risk_check_holding_no_shares.
    rewrite py_int_fraction; [lia | done | done]. }
  split; [exact Hskip |]. split.
  - intros before after ticker data db H0 H1. unfold check_portfolio_risks.
    rewrite !risk_loop_app.
    destruct (risk_loop self env before [] 0 db) as [[e | [acc tot]] db1];
      [done |].
    simpl. unfold bind. by rewrite Hskip.
  - intros holdings_data db sell_orders total_proceeds db' H.
    apply risk_loop_sells in H as (new & -> & Hall). simpl.
    eapply Forall_impl; [exact Hall |].
    intros o (t & d & db0 & db1 & p & Hin & Hr).
    apply risk_check_holding_sold in Hr as (cp & r & Hs & _ & _ & -> & _).
    by exists d.
Qed.

(** C6. No trend-breakdown sell without SMA50: every sell order of the risk
    check whose reason is the trend breakdown is for a ticker whose SMA20
    and SMA50 are both available, with price < SMA20 < SMA50; and a holding
    whose SMA50 is missing and whose stop-loss and trailing take-profit are
    silent is held, with a HOLD record, whatever its price is against
    SMA20. *)
Theorem no_breakdown_sell_without_sma50 (self : TradingLogic) (env : Env) :
  (forall holdings_data db sell_orders total_proceeds db',
      check_portfolio_risks self env holdings_data db
        = (inr (sell_orders, total_proceeds), db') ->
      forall o cur s20 s50,
        o ∈ sell_orders -> o_reason o = TrendBreakdown cur s20 s50 ->
        holding_sma self (o_ticker o) 20 = Some s20
        /\ holding_sma self (o_ticker o) 50 = Some s50
        /\ cur < s20 /\ s20 < s50)
  /\ (forall ticker data db current_price,
      (0 < py_int (h_qty data))%Z ->
      if_truthy (holding_price self env ticker data) = Some current_price ->
      holding_sma self ticker 50 = None ->
      fst (holding_stop self ticker (h_avg_entry data) current_price)
        <= current_price ->
      trailing_trigger self (fetch_history self ticker) (h_avg_entry data)
                       current_price = None ->
      risk_check_holding self env ticker data db
      = (inr Held,
         db ++ [mkRow (next_id db) (now env) None
                  (stored (hold_record self ticker (py_int (h_qty data))
                                       current_price))])).
Proof.
  split.
  - intros holdings_data db sell_orders total_proceeds db' H o cur s20 s50
           Hin Hreason.
    apply risk_loop_sells in H as (new & -> & Hall). simpl in Hin.
    rewrite Forall_forall in Hall.
    destruct (Hall o Hin) as (t & d & db0 & db1 & p & _ & Hr).
    apply risk_check_holding_sold in Hr as (cp & r & _ & _ & Hev & -> & _).
    simpl in *. subst r.
    apply evaluate_triggers_breakdown in Hev as (? & ? & _ & ? & ?). done.
  - intros ticker data db current_price Hs Hp H50 Hstop Htrail.
    rewrite (risk_check_holding_eval _ _ _ _ _ current_price Hs Hp).
    unfold evaluate_triggers.
    destruct (holding_stop _ _ _ _) as [stop zl]. simpl in Hstop.
    unfold stop_loss_trigger.
    apply Qltb_ge in Hstop. rewrite Hstop, Htrail, H50.
    unfold trend_breakdown. by destruct (holding_sma self ticker 20).
Qed.

Lemma risk_check_truncates_share_quantity_witness :
  risk_check_holding Sample.live Sample.nobody "XYZ" Sample.half_share []
    = (inr Skipped, [])
  /\ check_portfolio_risks Sample.live Sample.nobody
       ([] ++ ("HALF"%string, Sample.half_share) :: [("XYZ"%string, Sample.xyz_dear)]) []
     = check_portfolio_risks Sample.live Sample.nobody
         ([] ++ [("XYZ"%string, Sample.xyz_dear)]) []
  /\ Forall (fun o => exists data,
               (o_ticker o, data) ∈ [("XYZ"%string, Sample.xyz_dear)]
               /\ (0 < py_int (h_qty data))%Z
               /\ o_quantity o = inject_Z (py_int (h_qty data)))
            (Sample.sells_of Sample.dear_sale).
Proof.
  destruct (risk_check_truncates_share_quantity Sample.live Sample.nobody)
    as (Hskip & Hdrop & Hqty).
  split; [| split].
  - apply Hskip; reflexivity.
  - apply Hdrop; reflexivity.
  - apply (Hqty [("XYZ"%string, Sample.xyz_dear)] []
                (Sample.sells_of Sample.dear_sale)
                (Sample.proceeds_of Sample.dear_sale)
                (Sample.dear_sale.2)).
    vm_compute. reflexivity.
Defined.

Lemma no_breakdown_sell_without_sma50_witness :
  (holding_sma Sample.live "XYZ" 20 = Some Sample.xyz_sma20
   /\ holding_sma Sample.live "XYZ" 50 = Some Sample.xyz_sma50
   /\ 100 < Sample.xyz_sma20 /\ Sample.xyz_sma20 < Sample.xyz_sma50)
  /\ risk_check_holding Sample.live Sample.nobody "RECENT" Sample.xyz []
     = (inr Held,
        [] ++ [mkRow (next_id []) (now Sample.nobody) None
                 (stored (hold_record Sample.live "RECENT"
                            (py_int (h_qty Sample.xyz)) 100))]).
Proof.
  destruct (no_breakdown_sell_without_sma50 Sample.live Sample.nobody)
    as (Hsell & Hhold).
  split.
  - apply (Hsell [("XYZ"%string, Sample.xyz)] []
                 (Sample.sells_of Sample.xyz_sale)
                 (Sample.proceeds_of Sample.xyz_sale)
                 (Sample.xyz_sale.2) eq_refl
                 (sell_order "XYZ" 10 100
                    (TrendBreakdown 100 Sample.xyz_sma20 Sample.xyz_sma50) 1)).
    + vm_compute. constructor.
    + reflexivity.
  - apply Hhold.
    + reflexivity.
    + reflexivity.
    + reflexivity.
    + vm_compute. discriminate.
    + reflexivity.
Defined.

(** An evaluated holding with a non-zero entry price gets exactly one row,
    a HOLD or a SELL with the indicators attached. *)
Lemma risk_check_holding_logs_one self env ticker data db :
  evaluated self env (ticker, data) = true ->
  ~ h_avg_entry data == 0 ->
  exists v row,
    risk_check_holding self env ticker data db = (inr v, db ++ [row])
    /\ risk_row_of self row (ticker, data).
Proof.
  unfold evaluated. simpl. intros [Hs Hp]%andb_true_iff Hbp.
  apply Z.ltb_lt in Hs. apply bool_decide_eq_true in Hp as [cp Hp].
  rewrite (risk_check_holding_eval _ _ _ _ _ cp Hs Hp).
  destruct (evaluate_triggers_total self env ticker (h_avg_entry data) cp
              (get_last_buy_time ticker db) Hbp) as [o ->].
  destruct o as [| h | r]; eexists _, _; (split; [reflexivity |]);
    unfold risk_row_of; simpl; auto 10.
Qed.

Lemma risk_check_holding_not_evaluated self env ticker data db :
  evaluated self env (ticker, data) = false ->
  risk_check_holding self env ticker data db = (inr Skipped, db).
Proof.
  unfold evaluated. simpl. intros [Hs | Hp]%andb_false_iff.
  - apply risk_check_holding_no_shares. by apply Z.ltb_ge.
  - apply risk_check_holding_no_price.
    apply bool_decide_eq_false in Hp.
    destruct (if_truthy _); [| done]. exfalso. by apply Hp.
Qed.

Lemma risk_loop_records self env items : forall acc tot db,
  Forall (fun entry => ~ h_avg_entry entry.2 == 0) items ->
  exists sell_orders total_proceeds rows,
    risk_loop self env items acc tot db
      = (inr (sell_orders, total_proceeds), db ++ rows)
    /\ Forall2 (risk_row_of self) rows (List.filter (evaluated self env) items).
Proof.
  induction items as [| [t d] rest IH]; intros acc tot db Hall.
  - exists acc, tot, []. rewrite app_nil_r. split; [done | constructor].
  - apply Forall_cons in Hall as [Hbp Hall]. simpl in Hbp.
    simpl. unfold bind.
    destruct (evaluated self env (t, d)) eqn:Hev.
    + destruct (risk_check_holding_logs_one self env t d db Hev Hbp)
        as (v & row & -> & Hrow).
      assert (exists acc' tot', forall db1,
                 match v with
                 | Sold o p => risk_loop self env rest (acc ++ [o]) (tot + p)
                 | _ => risk_loop self env rest acc tot
                 end db1 = risk_loop self env rest acc' tot' db1)
        as (acc' & tot' & ->).
      { destruct v; eauto. }
      destruct (IH acc' tot' (db ++ [row]) Hall) as (so & tp & rows & -> & Hrows).
      exists so, tp, (row :: rows). rewrite <- app_assoc.
      split; [done | by constructor].
    + rewrite (risk_check_holding_not_evaluated self env t d db Hev).
      apply IH, Hall.
Qed.

(** C5, as the code has it. A holding with at least one whole share and a
    current price that can be obtained (and is not zero) gets exactly one
    decision record, a HOLD or a SELL carrying the SMA20, SMA50 and ATR
    computed for it, whether or not its history could be fetched (the
    indicators are then unavailable); a holding whose price cannot be
    obtained is skipped without a record.  So the rows the risk check adds
    match, one to one and in order, the holdings it evaluates.  Entry
    prices are not zero. *)
Theorem one_record_per_evaluated_holding
    (self : TradingLogic) (env : Env)
    (holdings_data : list (string * Holding)) (db : list Row) :
  Forall (fun entry => ~ h_avg_entry entry.2 == 0) holdings_data ->
  (exists sell_orders total_proceeds rows,
      check_portfolio_risks self env holdings_data db
        = (inr (sell_orders, total_proceeds), db ++ rows)
      /\ Forall2 (risk_row_of self) rows
                 (List.filter (evaluated self env) holdings_data))
  /\ (forall ticker data db0,
        if_truthy (holding_price self env ticker data) = None ->
        risk_check_holding self env ticker data db0 = (inr Skipped, db0)).
Proof.
  intros Hall. split.
  - by apply risk_loop_records.
  - intros ticker data db0. apply risk_check_holding_no_price.
Qed.

Lemma one_record_per_evaluated_holding_witness :
  (exists sell_orders total_proceeds rows,
      check_portfolio_risks Sample.live Sample.nobody
        [("XYZ"%string, Sample.xyz); ("NOHISTORY"%string, Sample.xyz);
         ("HALF"%string, Sample.half_share)] []
        = (inr (sell_orders, total_proceeds), [] ++ rows)
      /\ Forall2 (risk_row_of Sample.live) rows
           (List.filter (evaluated Sample.live Sample.nobody)
              [("XYZ"%string, Sample.xyz); ("NOHISTORY"%string, Sample.xyz);
               ("HALF"%string, Sample.half_share)]))
  /\ (forall ticker data db0,
        if_truthy (holding_price Sample.live Sample.nobody ticker data) = None ->
        risk_check_holding Sample.live Sample.nobody ticker data db0
        = (inr Skipped, db0)).
Proof.
  apply one_record_per_evaluated_holding.
  repeat constructor; vm_compute; discriminate.
Defined.

(** C5 as stated fails: a holding of ten shares whose price can be fetched
    neither from the broker nor from the operator is iterated over and
    leaves no decision record at all. *)
Lemma missing_price_leaves_no_record :
  (0 < py_int (h_qty Sample.xyz_unpriced))%Z
  /\ check_portfolio_risks (Sample.engine (Some Sample.broker_down))
       Sample.nobody [("XYZ"%string, Sample.xyz_unpriced)] []
     = (inr ([], 0), []).
Proof. split; reflexivity. Qed.

(** ** The ticker validator *)

(** C4, as the code has it. The validator fails open only when there is no
    API client: it then answers [True].  With a client whose asset lookup
    raises it answers [False], and the ticker is rejected.  Either answer
    is stored in the cache of the instance, and a cached ticker is answered
    from the cache, the broker not being asked again. *)
Theorem validate_ticker_fails_open_only_without_client
    (self : TradingLogic) (ticker : string) :
  (_ticker_cache self !! ticker = None -> api self = None ->
   validate_ticker self ticker
   = (true, set_ticker_cache (<[ticker := true]> (_ticker_cache self)) self))
  /\ (forall client,
       _ticker_cache self !! ticker = None -> api self = Some client ->
       get_asset client ticker = None ->
       validate_ticker self ticker
       = (false, set_ticker_cache (<[ticker := false]> (_ticker_cache self)) self))
  /\ (forall answer,
       _ticker_cache self !! ticker = Some answer ->
       validate_ticker self ticker = (answer, self))
  /\ (let '(answer, self') := validate_ticker self ticker in
      _ticker_cache self' !! ticker = Some answer
      /\ validate_ticker self' ticker = (answer, self')).
Proof.
  assert (forall s answer, _ticker_cache s !! ticker = Some answer ->
                           validate_ticker s ticker = (answer, s)) as Hhit.
  { intros s answer H. unfold validate_ticker. by rewrite H. }
  repeat split.
  - intros Hc Ha. unfold validate_ticker. by rewrite Hc, Ha.
  - intros client Hc Ha Hg. unfold validate_ticker. by rewrite Hc, Ha, Hg.
  - apply Hhit.
  - destruct (validate_ticker self ticker) as [answer self'] eqn:E.
    assert (_ticker_cache self' !! ticker = Some answer) as Hc.
    { unfold validate_ticker in E.
      destruct (_ticker_cache self !! ticker) as [v |] eqn:Hc.
      { by simplify_eq. }
      destruct (api self) as [client |];
        [destruct (get_asset client ticker) |];
        simplify_eq; simpl; apply lookup_insert_eq. }
    split; [done | by apply Hhit].
Qed.

Lemma validate_ticker_fails_open_only_without_client_witness :
  validate_ticker (Sample.engine None) "AAPL"
  = (true, set_ticker_cache (<["AAPL"%string := true]> ∅) (Sample.engine None))
  /\ validate_ticker (Sample.engine (Some Sample.broker_down)) "AAPL"
     = (false, set_ticker_cache (<["AAPL"%string := false]> ∅)
                 (Sample.engine (Some Sample.broker_down)))
  /\ validate_ticker
       (set_ticker_cache (<["AAPL"%string := false]> ∅) Sample.live) "AAPL"
     = (false, set_ticker_cache (<["AAPL"%string := false]> ∅) Sample.live).
Proof.
  split; [| split].
  - by apply (validate_ticker_fails_open_only_without_client
                (Sample.engine None) "AAPL").
  - by apply (validate_ticker_fails_open_only_without_client
                (Sample.engine (Some Sample.broker_down)) "AAPL"
             ).
  - apply (validate_ticker_fails_open_only_without_client
             (set_ticker_cache (<["AAPL"%string := false]> ∅) Sample.live)
             "AAPL").
    apply lookup_insert_eq.
Defined.

(** C4 as stated fails: the broker is reachable as a client, the asset
    lookup raises, and the ticker is rejected, not assumed valid. *)
Lemma lookup_failure_rejects_ticker :
  get_asset Sample.broker_down "AAPL" = None
  /\ (validate_ticker (Sample.engine (Some Sample.broker_down)) "AAPL").1 = false.
Proof. split; reflexivity. Qed.

(** ** The stored ATR multiplier *)

Section Multiplier.

(** The factor one call applies to the stored multiplier. *)
Lemma atr_multiplier_enter_mode self env_bias macro_reason :
  atr_multiplier (enter_mode self env_bias macro_reason)
  = if Qeq_bool env_bias 0 then atr_multiplier self * (5 # 10)
    else if Qltb env_bias (5 # 10) then atr_multiplier self * (7 # 10)
    else atr_multiplier self.
Proof. reflexivity. Qed.

Lemma atr_multiplier_validate_ticker self ticker :
  atr_multiplier (validate_ticker self ticker).2 = atr_multiplier self.
Proof. unfold validate_ticker. by repeat case_match. Qed.

Lemma atr_multiplier_add_new_signals env sentiment_data :
  forall self rank_list db self' new_entries db',
    add_new_signals self env sentiment_data rank_list db
      = (inr (self', new_entries), db') ->
    atr_multiplier self' = atr_multiplier self.
Proof.
  induction sentiment_data as [| signal rest IH];
    intros self rank_list db self' new_entries db' H.
  - cbv [add_new_signals ret] in H. by simplify_eq.
  - simpl in H. destruct (is_Buy (sig_action signal)); [| by eapply IH].
    pose proof (atr_multiplier_validate_ticker self (sig_ticker signal)) as Hv.
    destruct (validate_ticker self (sig_ticker signal)) as [ok self1].
    simpl in Hv. rewrite <- Hv.
    destruct ok; simpl in H; unfold bind, log_decision in H; by eapply IH.
Qed.

Lemma atr_multiplier_generate_plan self env sentiment_data portfolio env_bias
    macro_reason db :
  atr_multiplier
    (generate_plan self env sentiment_data portfolio env_bias macro_reason db).1.2
  = atr_multiplier (enter_mode self env_bias macro_reason).
Proof.
  unfold generate_plan.
  destruct (load_holdings _ _) as [cost_basis_total chd].
  destruct (rank_new_signals _ _ _ _ _ _) as [[e | [self2 new_entries]] db1] eqn:E;
    [done |].
  destruct (plan_orders _ _ _ _ _ _) as [res db2]. simpl.
  unfold rank_new_signals in E.
  destruct (_ || _).
  - cbv [bind log_decision ret] in E. by simplify_eq.
  - apply atr_multiplier_add_new_signals in E. exact E.
Qed.

Lemma atr_multiplier_with_client client self :
  atr_multiplier (with_client client self) = atr_multiplier self.
Proof. reflexivity. Qed.

End Multiplier.

(** C9. Every call of [generate_plan] with [env_bias < 0.5] leaves the
    stored ATR multiplier multiplied by 0.7 (by 0.5 when [env_bias] is 0),
    whether the call returns a plan or raises, a call with
    [env_bias >= 0.5] leaves it as it found it, and nothing sets it back:
    after n consecutive defense-mode cycles on one instance the multiplier
    is 0.7^n times what it was. *)
Theorem atr_tightening_compounds (self : TradingLogic) :
  (forall env sentiment_data portfolio env_bias macro_reason db,
      atr_multiplier
        (generate_plan self env sentiment_data portfolio env_bias
                       macro_reason db).1.2
      = if Qeq_bool env_bias 0 then atr_multiplier self * (5 # 10)
        else if Qltb env_bias (5 # 10) then atr_multiplier self * (7 # 10)
        else atr_multiplier self)
  /\ (forall cycles,
      Forall (fun c => c_env_bias c < 5 # 10 /\ ~ c_env_bias c == 0) cycles ->
      atr_multiplier (run_cycles self cycles)
      == atr_multiplier self * (7 # 10) ^ Z.of_nat (length cycles)).
Proof.
  split.
  - intros. by rewrite atr_multiplier_generate_plan.
  - intros cycles. revert self.
    induction cycles as [| c rest IH]; intros self Hall.
    + simpl. ring.
    + apply Forall_cons in Hall as [[Hlt Hne] Hall].
      cbn [run_cycles length]. rewrite (IH _ Hall).
      rewrite atr_multiplier_generate_plan, atr_multiplier_enter_mode.
      rewrite atr_multiplier_with_client.
      assert (Qeq_bool (c_env_bias c) 0 = false) as ->.
      { destruct (Qeq_bool (c_env_bias c) 0) eqn:E; [| done].
        apply Qeq_bool_iff in E. contradiction. }
      apply Qltb_lt in Hlt. rewrite Hlt.
      rewrite Nat2Z.inj_succ, <- Z.add_1_l.
      rewrite Qpower_plus by done. simpl. ring.
Qed.

Lemma atr_tightening_compounds_witness :
  atr_multiplier
    (run_cycles Sample.live
       [mkCycle (Sample.broker None) Sample.nobody [] [] [] (4 # 10) "weak";
        mkCycle (Sample.broker None) Sample.nobody [] [] [] (2 # 10) "crash";
        mkCycle Sample.broker_down Sample.nobody [] [] [] (1 # 10) "panic"])
  == atr_multiplier Sample.live * (7 # 10) ^ Z.of_nat 3.
Proof.
  apply (atr_tightening_compounds Sample.live).
  repeat constructor; vm_compute; discriminate.
Defined.

(** ** The planner: what the mode switch leaves alone *)

Section Frames.

Lemma fetch_price_enter_mode self env env_bias macro_reason ticker :
  fetch_price (enter_mode self env_bias macro_reason) env ticker
  = fetch_price self env ticker.
Proof. reflexivity. Qed.

Lemma fetch_price_validate_ticker self env ticker ticker' :
  fetch_price (validate_ticker self ticker).2 env ticker'
  = fetch_price self env ticker'.
Proof. unfold validate_ticker. by repeat case_match. Qed.

Lemma load_holdings_enter_mode self env_bias macro_reason portfolio :
  load_holdings (enter_mode self env_bias macro_reason) portfolio
  = load_holdings self portfolio.
Proof. reflexivity. Qed.

Lemma validate_ticker_enter_mode self env_bias macro_reason ticker :
  validate_ticker (enter_mode self env_bias macro_reason) ticker
  = ((validate_ticker self ticker).1,
     enter_mode (validate_ticker self ticker).2 env_bias macro_reason).
Proof. unfold validate_ticker. simpl. by repeat case_match. Qed.

End Frames.

(** C2, as the code has it. In scenario C (total budget 1000, maximum
    concentration 0.2, a validated Buy signal for NVDA at $500, no position
    held, normal mode, no cooldown) the cap is floor(1000 * 0.2 / 500) = 0
    shares, which the 0 shares held already reach: the signal is skipped
    with one "max concentration" SKIP record, and the plan is empty.
    Neither the sizing step, with its one-share upgrade, nor the swap scan
    is reached, whatever the scores of the signal and the risk per trade. *)
Theorem scenario_C_is_skipped_at_the_concentration_cap
    (self : TradingLogic) (env : Env)
    (sentiment duration : option Q) (reasoning : option string)
    (portfolio : list (string * PortfolioPosition))
    (env_bias : Q) (macro_reason : string) (db : list Row) :
  budget self == 1000 ->
  max_concentration_percent self == 2 # 10 ->
  (validate_ticker self "NVDA").1 = true ->
  fetch_price self env "NVDA" = Some 500 ->
  (load_holdings self portfolio).2 = [] ->
  is_on_cooldown (now env) "NVDA" 4 db = false ->
  5 # 10 <= env_bias ->
  generate_plan self env
    [mkSignal (Some "Buy"%string) "NVDA" sentiment duration reasoning]
    portfolio env_bias macro_reason db
  = (inr [],
     enter_mode (validate_ticker self "NVDA").2 env_bias macro_reason,
     db ++ [mkRow (next_id db) (now env) None
              (stored (with_scores (default 0 sentiment)
                         (default (1 # 2) duration)
                         (decision "NVDA" SKIP 500
                                   (SkipMaxConcentration 0 0))))]).
Proof.
  intros Hb Hm Hv Hp Hh Hc He.
  unfold generate_plan. rewrite load_holdings_enter_mode.
  destruct (load_holdings self portfolio) as [cost_basis_total chd].
  simpl in Hh. subst chd.
  unfold rank_new_signals.
  assert (Qltb env_bias (5 # 10) = false) as -> by by apply Qltb_ge.
  assert (Qeq_bool env_bias 0 = false) as ->.
  { destruct (Qeq_bool env_bias 0) eqn:E; [| done].
    apply Qeq_bool_iff in E. rewrite E in He. by vm_compute in He. }
  cbn [orb add_new_signals is_Buy sig_action sig_ticker].
  replace (String.eqb "Buy" "Buy") with true by reflexivity.
  rewrite validate_ticker_enter_mode, Hv.
  cbn [negb sig_sentiment_score sig_duration_score ret].
  set (self2 := enter_mode (validate_ticker self "NVDA").2 env_bias macro_reason).
  assert (fetch_price self2 env "NVDA" = Some 500) as Hp2.
  { unfold self2. by rewrite fetch_price_enter_mode, fetch_price_validate_ticker. }
  rewrite Hp2.
  assert (max_shares_for_ticker self2 500 = 0%Z) as Hmax.
  { unfold max_shares_for_ticker, py_floor.
    transitivity (Qfloor (1000 * (2 # 10) / 500)); [| reflexivity].
    apply Qfloor_comp.
    assert (budget self2 = budget (validate_ticker self "NVDA").2) as -> by done.
    assert (max_concentration_percent self2
            = max_concentration_percent (validate_ticker self "NVDA").2) as ->
      by done.
    assert (budget (validate_ticker self "NVDA").2 = budget self) as ->
      by (unfold validate_ticker; by repeat case_match).
    assert (max_concentration_percent (validate_ticker self "NVDA").2
            = max_concentration_percent self) as ->
      by (unfold validate_ticker; by repeat case_match).
    by rewrite Hb, Hm. }
  unfold plan_orders, holding_entries, check_portfolio_risks.
  cbn [omap app sort_desc foldr insert_desc risk_loop list_omap].
  unfold bind at 1. unfold read at 1.
  cbn [omap app sort_desc foldr insert_desc risk_loop list_omap].
  unfold bind at 1. unfold ret at 1.
  replace (Qltb 0 0) with false by reflexivity.
  cbn [map plan_loop].
  unfold bind at 1. unfold bind at 1.
  unfold plan_entry.
  cbn [r_type r_price r_ticker r_sent_score r_dur_score r_rank_score if_truthy].
  replace (truthy 500) with true by reflexivity.
  unfold bind at 1. unfold read at 1. rewrite Hc, Hmax.
  replace (current_held [] "NVDA") with 0%Z by reflexivity.
  cbn [Z.leb Z.compare].
  unfold bind, log_decision, ret. reflexivity.
Qed.

Lemma scenario_C_is_skipped_at_the_concentration_cap_witness :
  Sample.plan_for (Sample.broker (Some [])) "NVDA"
  = (inr [],
     enter_mode (validate_ticker (Sample.engine (Some (Sample.broker (Some []))))
                                 "NVDA").2 1 "",
     [] ++ [mkRow (next_id []) (now Sample.nobody) None
              (stored (with_scores (default 0 (Some (6 # 10)))
                         (default (1 # 2) (Some 1))
                         (decision "NVDA" SKIP 500
                                   (SkipMaxConcentration 0 0))))]).
Proof.
  apply (scenario_C_is_skipped_at_the_concentration_cap
           (Sample.engine (Some (Sample.broker (Some [])))) Sample.nobody
           (Some (6 # 10)) (Some 1) None [] 1 "" []);
    try reflexivity.
  vm_compute. discriminate.
Defined.

(** C2 as stated fails: with the values of the scenario (budget 1000, risk
    per trade 0.1, maximum concentration 0.2, NVDA at $500 with rank 0.6,
    nothing held, the whole budget left) the plan holds no order at all,
    the cap being 0 shares. *)
Lemma scenario_C_plans_no_buy :
  (Sample.plan_for (Sample.broker (Some [])) "NVDA").1.1 = inr []
  /\ max_shares_for_ticker (Sample.engine (Some (Sample.broker (Some [])))) 500
     = 0%Z.
Proof. split; vm_compute; reflexivity. Qed.

(** ** Indicators that are unavailable at the entry filter *)

Lemma technical_filter_without_rsi item new_price bars :
  (length bars < 15)%nat ->
  technical_filter item new_price (Some bars) = inl TypeError.
Proof.
  intros H. unfold technical_filter.
  rewrite calculate_rsi_short; [done |]. rewrite length_map. lia.
Qed.

(** Without a history the filter is skipped. *)
Lemma technical_filter_without_history item new_price :
  technical_filter item new_price None = inr None.
Proof. reflexivity. Qed.

(** Any new signal that reaches the entry filter with fewer than fifteen
    bars of history ends the cycle, whatever the budget and the ledger. *)
Lemma plan_entry_short_history self env chd rank_list item st db
    new_price bars :
  r_type item = new_signal ->
  if_truthy (r_price item) = Some new_price ->
  is_on_cooldown (now env) (r_ticker item) 4 db = false ->
  (current_held chd (r_ticker item) < max_shares_for_ticker self new_price)%Z ->
  fetch_history self (r_ticker item) = Some bars ->
  (length bars < 15)%nat ->
  plan_entry self env chd rank_list item st db = (inl TypeError, db).
Proof.
  intros Hty Hp Hcool Hcap Hbars Hlen. unfold plan_entry.
  rewrite Hty, Hp. unfold bind at 1. unfold read at 1. rewrite Hcool.
  destruct (Z.leb_spec (max_shares_for_ticker self new_price)
                       (current_held chd (r_ticker item))); [lia |].
  rewrite Hbars, technical_filter_without_rsi by done. reflexivity.
Qed.

(** C3 fails on the code. A Buy candidate whose fetched history has 1 to
    14 bars has no RSI, and the overbought test [rsi > 75] compares [None]
    with a number: the cycle ends in a TypeError for each of these lengths.
    With 15 bars and an RSI between 65 and 75 the second half of the test
    compares the price with the missing SMA20 and raises as well. *)
Theorem short_history_aborts_the_cycle :
  Forall (fun n =>
            (Sample.plan_for (Sample.broker_serving (take n Sample.falling_bars))
                             "NEW").1.1 = inl TypeError)
         (seq 1 14)
  /\ calculate_sma (map close Sample.warm_bars) 20 = None
  /\ (Sample.plan_for (Sample.broker_serving Sample.warm_bars) "NEW").1.1
     = inl TypeError.
Proof.
  split; [| split].
  - repeat constructor.
  - reflexivity.
  - vm_compute. reflexivity.
Qed.

(** ** The budget of one planning cycle *)

Section Sums.

Lemma Qsum_app l1 l2 : Qsum (l1 ++ l2) == Qsum l1 + Qsum l2.
Proof.
  induction l1 as [| x l1 IH]; simpl.
  - ring.
  - unfold Qsum in *. simpl. rewrite IH. ring.
Qed.

Lemma limit_buy_cost_app a b :
  limit_buy_cost (a ++ b) == limit_buy_cost a + limit_buy_cost b.
Proof.
  unfold limit_buy_cost. by rewrite List.filter_app, map_app, Qsum_app.
Qed.

Lemma sell_proceeds_app a b :
  sell_proceeds (a ++ b) == sell_proceeds a + sell_proceeds b.
Proof.
  unfold sell_proceeds. by rewrite List.filter_app, map_app, Qsum_app.
Qed.

Lemma floor_times_price x price :
  0 < price -> inject_Z (py_floor (x / price)) * price <= x.
Proof.
  intros Hp. unfold py_floor.
  assert (x == x / price * price) as Hx by (field; lra).
  rewrite Hx at 2.
  apply Qmult_le_compat_r; [apply Qfloor_le | lra].
Qed.

Lemma Qmax_0_add x y : 0 <= y -> Qmax 0 (x + y) <= Qmax 0 x + y.
Proof.
  intros Hy.
  destruct (Q.max_spec 0 (x + y)) as [[? ->] | [? ->]];
    destruct (Q.max_spec 0 x) as [[? ->] | [? ->]]; lra.
Qed.

Lemma Qmax_0_mono x y : x <= y -> Qmax 0 x <= Qmax 0 y.
Proof.
  intros Hy.
  destruct (Q.max_spec 0 x) as [[? ->] | [? ->]];
    destruct (Q.max_spec 0 y) as [[? ->] | [? ->]]; lra.
Qed.

Lemma Qmax_0_nonneg x : 0 <= Qmax 0 x.
Proof. destruct (Q.max_spec 0 x) as [[? ->] | [? ->]]; lra. Qed.

Lemma if_truthy_pos o p :
  (forall q, o = Some q -> 0 <= q) -> if_truthy o = Some p -> 0 < p.
Proof.
  intros Hnn H. destruct o as [q |]; [| done]. simpl in H.
  destruct (truthy q) eqn:E; [| done]. simplify_eq.
  apply truthy_neq in E. specialize (Hnn p eq_refl).
  apply Qle_lteq in Hnn as [? | Heq]; [done |].
  exfalso. apply E. by symmetry.
Qed.

End Sums.

Section Sizing.

Variable self : TradingLogic.

(** A whole-share buy of the sizing step costs no more than the budget
    that remains when it is emitted. *)
Lemma size_order_whole remaining new_price shares_to_buy :
  0 < new_price ->
  size_order self remaining new_price = WholeShares shares_to_buy ->
  inject_Z shares_to_buy * new_price <= remaining.
Proof.
  intros Hp. unfold size_order.
  destruct (Qleb 1 _ && Qleb new_price remaining).
  - set (s1 := if (py_floor _ =? 0)%Z then _ else _).
    destruct (0 <? s1)%Z; [| done].
    destruct (Qltb remaining (inject_Z s1 * new_price)) eqn:E.
    + destruct (0 <? _)%Z; [| done]. intros [= <-].
      by apply floor_times_price.
    + destruct (0 <? s1)%Z; [| done]. intros [= <-].
      by apply Qltb_ge in E.
  - destruct (_ && _); [| done]. by destruct (Qltb 0 _).
Qed.

Lemma size_order_fractional remaining new_price frac_qty :
  size_order self remaining new_price = FractionalShares frac_qty ->
  0 < frac_qty.
Proof.
  unfold size_order.
  destruct (Qleb 1 _ && Qleb new_price remaining).
  - set (s1 := if (py_floor _ =? 0)%Z then _ else _).
    destruct (0 <? s1)%Z; [| done].
    by destruct (0 <? _)%Z.
  - destruct (_ && _); [| done].
    destruct (Qltb 0 _) eqn:E; [| done]. intros [= <-]. by apply Qltb_lt.
Qed.

(** X1. The one-share upgrade of the sizing step cannot fire: the branch
    it sits in is entered only with [raw_qty >= 1], whose floor is not 0. *)
Lemma one_share_upgrade_is_unreachable remaining new_price :
  let raw_qty := budget self * risk_per_trade_percent self / new_price in
  Qleb 1 raw_qty && Qleb new_price remaining = true ->
  (py_floor raw_qty =? 0)%Z = false.
Proof.
  intros raw_qty [H _]%andb_true_iff. apply Qleb_le in H.
  apply Z.eqb_neq. unfold py_floor.
  assert (1 <= Qfloor raw_qty)%Z; [| lia].
  change 1%Z with (Qfloor 1). by apply Qfloor_resp_le.
Qed.

(** A whole-share swap buy costs no more than the proceeds of the swap
    sell that funds it. *)
Lemma size_swap_buy_limit proceeds new_price q :
  0 < new_price ->
  size_swap_buy proceeds new_price = (q, limit) ->
  0 < q ->
  q * new_price <= proceeds.
Proof.
  intros Hp. unfold size_swap_buy.
  destruct (Qleb 1 _).
  - intros [= <-] _. by apply floor_times_price.
  - destruct (Qltb 0 _); [done |]. intros [= <-] H. lra.
Qed.

End Sizing.

Section Covered.

Variables (env : Env) (free_at_start : Q).

Ltac plan_cbn :=
  cbn [limit_buy_cost sell_proceeds Qsum foldr map List.filter is_sell
       is_limit_buy o_action o_order_type orders remaining_budget
       sold_tickers] in *;
  unfold order_value in *;
  cbn [o_quantity o_limit_price default from_option id] in *.

Lemma covered_swap st new_ticker old_ticker swap_qty old_price new_price
    q ty sell_id buy_id reason :
  0 < new_price -> 0 <= old_price -> (0 < swap_qty)%Z ->
  size_swap_buy (inject_Z swap_qty * old_price) new_price = (q, ty) ->
  covered free_at_start st ->
  let proceeds := inject_Z swap_qty * old_price in
  let buy_cost := if Qltb 0 q then q * new_price else 0 in
  let leftover := proceeds - buy_cost in
  covered free_at_start
    (mkPlanState
       (if Qltb 0 leftover then remaining_budget st + leftover
        else remaining_budget st)
       (sold_tickers st ++ [old_ticker])
       (orders st ++
          mkOrder old_ticker sell (inject_Z swap_qty) limit (Some old_price)
                  (PartialSwapFor new_ticker) sell_id
          :: (if Qltb 0 q
              then [mkOrder new_ticker buy q ty
                      (match ty with limit => Some new_price | market => None end)
                      reason buy_id]
              else []))).
Proof.
  intros Hnp Hop Hsq Hsize Hcov proceeds buy_cost leftover.
  unfold covered in *. cbn [orders remaining_budget] in *.
  rewrite limit_buy_cost_app, sell_proceeds_app.
  assert (0 <= proceeds) as Hproc.
  { unfold proceeds. apply Qmult_le_0_compat; [| done].
    change 0 with (inject_Z 0). rewrite <- Zle_Qle. lia. }
  set (V := limit_buy_cost (orders st)) in *.
  set (S := sell_proceeds (orders st)) in *.
  set (rb := remaining_budget st) in *.
  assert (Qmax 0 (if Qltb 0 leftover then rb + leftover else rb)
          <= Qmax 0 rb + Qmax 0 leftover) as Hrb.
  { destruct (Qltb 0 leftover) eqn:E.
    - apply Qltb_lt in E.
      eapply Qle_trans; [apply Qmax_0_add; lra |].
      destruct (Q.max_spec 0 leftover) as [[? ->] | [? ->]]; lra.
    - pose proof (Qmax_0_nonneg leftover). lra. }
  destruct (Qltb 0 q) eqn:Eq.
  - apply Qltb_lt in Eq.
    assert (0 <= q * new_price) as Hcost
      by (apply Qmult_le_0_compat; lra).
    destruct ty; plan_cbn.
    + pose proof (size_swap_buy_limit _ _ _ Hnp Hsize Eq) as Hle.
      fold proceeds in Hle.
      set (c := q * new_price) in *.
      assert (Qmax 0 leftover == leftover) as Hl.
      { destruct (Q.max_spec 0 leftover) as [[? ->] | [? ->]];
          unfold leftover, buy_cost in *; lra. }
      unfold leftover, buy_cost in *. fold proceeds c. lra.
    + set (c := q * new_price) in *.
      assert (Qmax 0 leftover <= proceeds) as Hl.
      { destruct (Q.max_spec 0 leftover) as [[? ->] | [? ->]];
          unfold leftover, buy_cost in *; lra. }
      fold proceeds. lra.
  - plan_cbn.
    assert (Qmax 0 leftover <= proceeds) as Hl.
    { destruct (Q.max_spec 0 leftover) as [[? ->] | [? ->]];
        unfold leftover, buy_cost in *; lra. }
    fold proceeds. lra.
Qed.

End Covered.

Section PlanLoop.

Variables (self : TradingLogic) (env : Env) (free_at_start : Q).

Lemma swap_scan_covered item new_price candidates : forall st db st' db',
  0 < new_price ->
  priced candidates ->
  swap_scan env item new_price candidates st db = (inr st', db') ->
  covered free_at_start st -> covered free_at_start st'.
Proof.
  induction candidates as [| potential_swap rest IH];
    intros st db st' db' Hnp Hpr H Hcov.
  - cbv [swap_scan ret] in H. by simplify_eq.
  - apply Forall_cons in Hpr as [Hprice Hpr].
    cbn [swap_scan] in H.
    destruct (r_type potential_swap); [by eapply IH |].
    destruct (in_list _ _); [by eapply IH |].
    destruct (r_qty potential_swap) as [old_qty |]; [| done].
    destruct (threshold_met _ _); [| by eapply IH].
    destruct (Z.leb_spec (py_floor (old_qty * (5 # 10))) 0) as [| Hsq];
      [by eapply IH |].
    destruct (r_price potential_swap) as [old_price |] eqn:Hop; [| done].
    specialize (Hprice old_price eq_refl).
    unfold bind at 1 in H. unfold log_decision at 1 in H.
    destruct (size_swap_buy _ new_price) as [q ty] eqn:Hsize.
    pose proof (covered_swap free_at_start st (r_ticker item)
                  (r_ticker potential_swap) (py_floor (old_qty * (5 # 10)))
                  old_price new_price q ty)
      as Hswap.
    unfold bind, log_decision, ret in H.
    destruct (Qltb 0 q) eqn:Eq; simplify_eq.
    + by eapply Hswap.
    + by eapply (Hswap _ 0%Z SkipCooldown).
Qed.

Lemma covered_whole_buy st shares_to_buy new_price ticker reason decision_id :
  0 < new_price ->
  size_order self (remaining_budget st) new_price = WholeShares shares_to_buy ->
  covered free_at_start st ->
  covered free_at_start
    (mkPlanState (remaining_budget st - inject_Z shares_to_buy * new_price)
       (sold_tickers st)
       (orders st ++ [mkOrder ticker buy (inject_Z shares_to_buy) limit
                        (Some new_price) reason decision_id])).
Proof.
  intros Hnp Hsize Hcov. apply size_order_whole in Hsize; [| done].
  unfold covered in *. cbn [orders remaining_budget] in *.
  rewrite limit_buy_cost_app, sell_proceeds_app.
  set (V := limit_buy_cost (orders st)) in *.
  set (S := sell_proceeds (orders st)) in *.
  set (rb := remaining_budget st) in *.
  cbn [limit_buy_cost sell_proceeds Qsum foldr map List.filter is_sell
       is_limit_buy o_action o_order_type].
  unfold order_value. cbn [o_quantity o_limit_price default from_option id].
  set (c := inject_Z shares_to_buy * new_price) in *.
  destruct (Q.max_spec 0 (rb - c)) as [[? ->] | [? ->]];
    destruct (Q.max_spec 0 rb) as [[? Hm] | [? Hm]]; rewrite Hm in Hcov; lra.
Qed.

Lemma covered_fractional_buy st frac_qty new_price ticker reason decision_id :
  0 < new_price -> 0 < frac_qty ->
  covered free_at_start st ->
  covered free_at_start
    (mkPlanState (remaining_budget st - frac_qty * new_price)
       (sold_tickers st)
       (orders st ++ [mkOrder ticker buy frac_qty market None reason
                        decision_id])).
Proof.
  intros Hnp Hq Hcov.
  unfold covered in *. cbn [orders remaining_budget] in *.
  rewrite limit_buy_cost_app, sell_proceeds_app.
  set (V := limit_buy_cost (orders st)) in *.
  set (S := sell_proceeds (orders st)) in *.
  set (rb := remaining_budget st) in *.
  cbn [limit_buy_cost sell_proceeds Qsum foldr map List.filter is_sell
       is_limit_buy o_action o_order_type].
  assert (0 <= frac_qty * new_price) by (apply Qmult_le_0_compat; lra).
  set (c := frac_qty * new_price) in *.
  pose proof (Qmax_0_mono (rb - c) rb). lra.
Qed.

Lemma plan_entry_covered chd rank_list item st db st' db' :
  priced rank_list ->
  (forall p, r_price item = Some p -> 0 <= p) ->
  plan_entry self env chd rank_list item st db = (inr st', db') ->
  covered free_at_start st -> covered free_at_start st'.
Proof.
  intros Hpr Hitem H Hcov. unfold plan_entry in H.
  destruct (r_type item); [| cbv [ret] in H; by simplify_eq].
  destruct (if_truthy (r_price item)) as [new_price |] eqn:Hp;
    [| cbv [ret] in H; by simplify_eq].
  apply if_truthy_pos in Hp; [| done].
  unfold bind at 1 in H. unfold read at 1 in H.
  destruct (is_on_cooldown _ _ _ _).
  { cbv [bind log_decision ret] in H. by simplify_eq. }
  destruct (_ <=? _)%Z.
  { cbv [bind log_decision ret] in H. by simplify_eq. }
  destruct (technical_filter _ _ _) as [e | [d |]]; [done | |].
  { cbv [bind log_decision ret] in H. by simplify_eq. }
  destruct (entry_indicators _) as [[rsi sma_20] sma_50].
  destruct (size_order self (remaining_budget st) new_price)
    as [shares_to_buy | frac_qty |] eqn:Hsize.
  - cbv [bind log_decision ret] in H. simplify_eq.
    by apply covered_whole_buy.
  - cbv [bind log_decision ret] in H. simplify_eq.
    apply covered_fractional_buy; [done | | done].
    by eapply size_order_fractional.
  - eapply swap_scan_covered; [exact Hp | | exact H | done].
    unfold priced. by apply Forall_rev.
Qed.

Lemma plan_loop_covered chd rank_list items : forall st db st' db',
  priced rank_list -> priced items ->
  plan_loop self env chd rank_list items st db = (inr st', db') ->
  covered free_at_start st -> covered free_at_start st'.
Proof.
  induction items as [| item rest IH]; intros st db st' db' Hpr Hit H Hcov.
  - cbv [plan_loop ret] in H. by simplify_eq.
  - apply Forall_cons in Hit as [Hitem Hit].
    cbn [plan_loop] in H. unfold bind in H.
    destruct (plan_entry _ _ _ _ _ _ _) as [[e | st1] db1] eqn:E; [done |].
    eapply IH; [done | done | exact H |].
    by apply (plan_entry_covered chd rank_list item st db st1 db1).
Qed.

End PlanLoop.

Section Cycle.

Variable env : Env.

Lemma if_truthy_Some o p : if_truthy o = Some p -> o = Some p.
Proof.
  destruct o as [q |]; [| done]. simpl. by destruct (truthy q); intros [= ->].
Qed.

Lemma holding_price_nonneg self ticker data p :
  (forall t q, fetch_price self env t = Some q -> 0 <= q) ->
  (forall q, h_current_price data = Some q -> 0 <= q) ->
  holding_price self env ticker data = Some p -> 0 <= p.
Proof.
  intros Hf Hd. unfold holding_price.
  destruct (if_truthy (h_current_price data)) as [q |] eqn:E.
  - intros [= <-]. apply if_truthy_Some in E. eauto.
  - apply Hf.
Qed.

(** The risk check emits sell orders only, and its total is what they
    fetch. *)
Lemma risk_loop_proceeds self items : forall acc tot db sell_orders tot' db',
  (forall t q, fetch_price self env t = Some q -> 0 <= q) ->
  holdings_priced items ->
  risk_loop self env items acc tot db = (inr (sell_orders, tot'), db') ->
  exists new,
    sell_orders = acc ++ new
    /\ map o_ticker sell_orders = map o_ticker acc ++ map o_ticker new
    /\ limit_buy_cost new == 0
    /\ tot' == tot + sell_proceeds new
    /\ 0 <= sell_proceeds new.
Proof.
  induction items as [| [t d] rest IH];
    intros acc tot db sell_orders tot' db' Hf Hpr H.
  - cbv [risk_loop ret] in H. simplify_eq. exists [].
    rewrite !app_nil_r.
    change (limit_buy_cost []) with 0. change (sell_proceeds []) with 0.
    split; [done |]. split; [done |]. split; [reflexivity |].
    split; [ring | apply Qle_refl].
  - apply Forall_cons in Hpr as [Hd Hpr]. simpl in Hd.
    cbn [risk_loop] in H. unfold bind in H.
    destruct (risk_check_holding self env t d db) as [[e | v] db1] eqn:E;
      [done |].
    destruct v as [| | | o p];
      try (by eapply IH).
    apply IH in H as (new & -> & _ & Hb & Ht & Hnn); [| done | done].
    apply risk_check_holding_sold in E
      as (cp & r & Hs & Hp & _ & -> & ->).
    assert (0 <= cp) as Hcp.
    { apply if_truthy_Some in Hp. by eapply holding_price_nonneg. }
    assert (0 <= cp * inject_Z (py_int (h_qty d))) as Hval.
    { apply Qmult_le_0_compat; [done |].
      change 0 with (inject_Z 0). rewrite <- Zle_Qle. lia. }
    exists (sell_order t (py_int (h_qty d)) cp r (next_id db) :: new).
    rewrite <- app_assoc. split; [done |].
    split; [by rewrite !map_app |].
    change (limit_buy_cost (sell_order t (py_int (h_qty d)) cp r (next_id db)
                            :: new))
      with (limit_buy_cost new).
    change (sell_proceeds (sell_order t (py_int (h_qty d)) cp r (next_id db)
                           :: new))
      with (inject_Z (py_int (h_qty d)) * cp + sell_proceeds new).
    set (S := sell_proceeds new) in *.
    set (n := inject_Z (py_int (h_qty d))) in *.
    assert (n * cp == cp * n) as Hc by ring.
    clearbody S n. split; [done |]. split; lra.
Qed.

Lemma api_validate_ticker self ticker :
  api (validate_ticker self ticker).2 = api self.
Proof. unfold validate_ticker. by repeat case_match. Qed.

Lemma fetch_price_same_api self self' ticker :
  api self = api self' -> fetch_price self env ticker = fetch_price self' env ticker.
Proof. unfold fetch_price. by intros ->. Qed.

Lemma add_new_signals_priced sentiment_data :
  forall self rank_list db self' new_entries db',
    (forall t q, fetch_price self env t = Some q -> 0 <= q) ->
    priced rank_list ->
    add_new_signals self env sentiment_data rank_list db
      = (inr (self', new_entries), db') ->
    api self' = api self /\ priced new_entries.
Proof.
  induction sentiment_data as [| signal rest IH];
    intros self rank_list db self' new_entries db' Hf Hpr H.
  - cbv [add_new_signals ret] in H. by simplify_eq.
  - cbn [add_new_signals] in H.
    destruct (is_Buy (sig_action signal)); [| by eapply IH].
    pose proof (api_validate_ticker self (sig_ticker signal)) as Ha.
    destruct (validate_ticker self (sig_ticker signal)) as [ok self1].
    simpl in Ha.
    assert (forall t q, fetch_price self1 env t = Some q -> 0 <= q) as Hf1.
    { intros t q. rewrite (fetch_price_same_api self1 self t Ha). apply Hf. }
    rewrite <- Ha.
    destruct ok; cbn [negb] in H.
    + eapply IH; [exact Hf1 | | exact H].
      apply Forall_app. split; [done |].
      constructor; [| constructor]. simpl. apply Hf1.
    + unfold bind, log_decision in H. by eapply IH.
Qed.

Lemma holding_entries_priced self chd db :
  (forall t q, fetch_price self env t = Some q -> 0 <= q) ->
  priced (holding_entries self env chd db).
Proof.
  intros Hf. unfold holding_entries, priced.
  induction chd as [| [t d] rest IH]; [constructor |].
  cbn [omap list_omap]. destruct (Qltb 0 (h_qty d)); [| exact IH].
  destruct (get_latest_scores t db) as [last_sent last_dur].
  constructor; [| exact IH]. simpl. apply Hf.
Qed.

Lemma insert_desc_priced x l : priced [x] -> priced l -> priced (insert_desc x l).
Proof.
  intros Hx%Forall_inv. induction l as [| y l IH]; intros Hl.
  - by constructor.
  - cbn [insert_desc]. apply Forall_cons in Hl as [Hy Hl].
    destruct (Qltb _ _).
    + constructor; [done | by apply IH].
    + by repeat constructor.
Qed.

Lemma sort_desc_priced l : priced l -> priced (sort_desc l).
Proof.
  induction l as [| x l IH]; intros H; [constructor |].
  apply Forall_cons in H as [Hx Hl]. cbn [sort_desc foldr].
  apply insert_desc_priced; [by constructor | by apply IH].
Qed.

Lemma dict_set_priced k v chd :
  (forall p, h_current_price v = Some p -> 0 <= p) ->
  holdings_priced chd -> holdings_priced (dict_set k v chd).
Proof.
  intros Hv. induction chd as [| [k' v'] rest IH]; intros H.
  - by repeat constructor.
  - cbn [dict_set]. apply Forall_cons in H as [Hh Hr].
    destruct (String.eqb k' k).
    + by constructor.
    + constructor; [done | by apply IH].
Qed.

Lemma load_holdings_priced self portfolio :
  prices_nonnegative self env ->
  holdings_priced (load_holdings self portfolio).2.
Proof.
  intros [_ Hpos]. unfold load_holdings.
  destruct (api self) as [client |] eqn:Ha; [| constructor].
  destruct (list_positions client) as [positions |] eqn:Hl.
  - specialize (Hpos client positions eq_refl Hl). clear Hl.
    assert (forall acc, holdings_priced acc.2 ->
              holdings_priced
                (fold_left (fun '(cost_basis_total, chd) p =>
                    (cost_basis_total + qty p * avg_entry_price p,
                     dict_set (symbol p)
                       (mkHolding (qty p) (avg_entry_price p)
                                  (Some (market_value p))
                                  (Some (current_price p))) chd))
                  positions acc).2) as Hfold.
    { induction Hpos as [| p rest Hp Hrest IH]; intros [cb chd] Hacc; [done |].
      cbn [fold_left]. apply IH. simpl.
      apply dict_set_priced; [| done]. simpl. by intros q [= <-]. }
    apply Hfold. constructor.
  - assert (forall acc, holdings_priced acc.2 ->
              holdings_priced
                (fold_left (fun '(cost_basis_total, chd) '(ticker, data) =>
                    (cost_basis_total + shares data * buy_price data,
                     dict_set ticker
                       (mkHolding (shares data) (buy_price data) None None)
                       chd))
                  portfolio acc).2) as Hfold.
    { induction portfolio as [| [t d] rest IH]; intros [cb chd] Hacc; [done |].
      cbn [fold_left]. apply IH. simpl.
      apply dict_set_priced; [| done]. simpl. done. }
    apply Hfold. constructor.
Qed.

End Cycle.

(** C1, as the code has it. A whole-share buy of the sizing step is
    emitted only at a cost within the remaining budget tracked at that
    moment; a swap buy is not checked against the remaining budget but is
    funded by its swap sell, and a whole-share swap buy costs no more than
    the proceeds of that sell; and over a cycle that returns a plan, the
    whole-share (limit) buys cost in total no more than the budget that was
    free at the start, [max(0, effective_budget - cost_basis)], plus the
    proceeds of the sell orders of the plan.  Prices are not negative. *)
Theorem whole_share_buys_stay_within_budget
    (self : TradingLogic) (env : Env) :
  (forall remaining new_price shares_to_buy,
      0 < new_price ->
      size_order self remaining new_price = WholeShares shares_to_buy ->
      inject_Z shares_to_buy * new_price <= remaining)
  /\ (forall proceeds new_price q,
      0 < new_price -> 0 < q ->
      size_swap_buy proceeds new_price = (q, limit) ->
      q * new_price <= proceeds)
  /\ (forall sentiment_data portfolio env_bias macro_reason db plan self' db',
      prices_nonnegative self env ->
      generate_plan self env sentiment_data portfolio env_bias macro_reason db
        = (inr plan, self', db') ->
      limit_buy_cost plan
      <= Qmax 0 (budget self * env_bias - (load_holdings self portfolio).1)
         + sell_proceeds plan).
Proof.
  split; [| split].
  - intros. by eapply size_order_whole.
  - intros. by eapply size_swap_buy_limit.
  - intros sentiment_data portfolio env_bias macro_reason db plan self' db'
           Hprices H.
    pose proof (load_holdings_priced env self portfolio Hprices) as Hchd.
    destruct Hprices as [Hquote _].
    unfold generate_plan in H. rewrite load_holdings_enter_mode in H.
    destruct (load_holdings self portfolio) as [cost_basis_total chd].
    cbn [fst snd] in *.
    set (self1 := enter_mode self env_bias macro_reason) in *.
    change (budget self1) with (budget self) in H.
    set (free := budget self * env_bias - cost_basis_total) in *.
    destruct (rank_new_signals self1 env sentiment_data env_bias macro_reason db)
      as [[e | [self2 new_entries]] db1] eqn:Erank; [done |].
    destruct (plan_orders self2 env chd free new_entries db1)
      as [res db2] eqn:Eplan.
    injection H as -> _ _.
    (* the ranked list carries no negative price *)
    assert (api self2 = api self /\ priced new_entries) as [Hapi Hnew].
    { unfold rank_new_signals in Erank. destruct (_ || _).
      - cbv [bind log_decision ret] in Erank. simplify_eq.
        split; [done | constructor].
      - eapply (add_new_signals_priced env) in Erank; [done | | constructor].
        intros t q. unfold self1. rewrite fetch_price_enter_mode.
        apply Hquote. }
    assert (forall t q, fetch_price self2 env t = Some q -> 0 <= q) as Hquote2.
    { intros t q. rewrite (fetch_price_same_api env self2 self t Hapi).
      apply Hquote. }
    unfold plan_orders in Eplan.
    unfold bind at 1 in Eplan. unfold read at 1 in Eplan.
    set (rank_list := sort_desc (new_entries
                                 ++ holding_entries self2 env chd db1)) in *.
    assert (priced rank_list) as Hranked.
    { apply sort_desc_priced, Forall_app. split; [done |].
      by apply holding_entries_priced. }
    unfold bind at 1 in Eplan.
    destruct (check_portfolio_risks self2 env chd db1)
      as [[e | [risk_sells risk_proceeds]] db_r] eqn:Erisk; [done |].
    apply (risk_loop_proceeds env) in Erisk
      as (new & Hsells & _ & Hb & Ht & Hnn); [| done | done].
    simpl in Hsells. subst new.
    unfold bind in Eplan.
    destruct (plan_loop _ _ _ _ _ _ _) as [[e | st] db_f] eqn:Eloop; [done |].
    cbv [ret] in Eplan. injection Eplan as <- _.
    eapply (plan_loop_covered self2 env free) in Eloop; [| done | done |].
    + unfold covered in Eloop.
      pose proof (Qmax_0_nonneg (remaining_budget st)). lra.
    + unfold covered. cbn [orders remaining_budget].
      destruct (Qltb 0 risk_proceeds) eqn:E.
      * pose proof (Qmax_0_add free risk_proceeds). lra.
      * lra.
Qed.

Lemma whole_share_buys_stay_within_budget_witness :
  inject_Z 2 * 50 <= 1000
  /\ 12 * 50 <= 600
  /\ limit_buy_cost Sample.invested_plan
     <= Qmax 0 (budget (Sample.engine (Some Sample.invested)) * 1
                - (load_holdings (Sample.engine (Some Sample.invested)) []).1)
        + sell_proceeds Sample.invested_plan.
Proof.
  destruct (whole_share_buys_stay_within_budget
              (Sample.engine (Some Sample.invested)) Sample.nobody)
    as (Hsize & Hswap & Hcycle).
  split; [| split].
  - apply (Hsize 1000 50 2%Z); reflexivity.
  - apply (Hswap 600 50 12); reflexivity.
  - apply (Hcycle [Sample.buy_signal "NEW"] [] 1 ""%string []
                  Sample.invested_plan
                  (Sample.plan_for Sample.invested "NEW").1.2
                  (Sample.plan_for Sample.invested "NEW").2).
    + split.
      * intros ticker p. unfold fetch_price. simpl.
        destruct (String.eqb ticker "NVDA");
          [| destruct (String.eqb ticker "NEW")];
          intros [= <-]; vm_compute; discriminate.
      * intros client positions [= <-] [= <-].
        repeat constructor. vm_compute. discriminate.
    + vm_compute. reflexivity.
Defined.

(** C1 as stated fails. In a cycle that starts 200 over budget (budget
    1000, cost basis 1200) the swap sells six OLD for 600 and buys twelve
    NEW for 600: the buy is emitted while the tracked remaining budget is
    -200, and stays -200, and the buys of the cycle cost 600, more than
    the -200 + 600 the bound allows even with all sale proceeds counted. *)
Lemma swap_buy_exceeds_the_budget_bound :
  (Sample.plan_for Sample.invested "NEW").1.1 = inr Sample.invested_plan
  /\ plan_loop Sample.invested_self Sample.nobody Sample.invested_holdings
       Sample.invested_rank_list Sample.invested_rank_list
       (mkPlanState (-200) [] []) Sample.invested_ledger
     = (inr (mkPlanState (-200) ["OLD"%string] Sample.invested_plan),
        (Sample.plan_for Sample.invested "NEW").2)
  /\ budget (Sample.engine (Some Sample.invested)) * 1
     - (load_holdings (Sample.engine (Some Sample.invested)) []).1 == -200
  /\ limit_buy_cost Sample.invested_plan == 600
  /\ sell_proceeds Sample.invested_plan == 600
  /\ ~ limit_buy_cost Sample.invested_plan
       <= (budget (Sample.engine (Some Sample.invested)) * 1
           - (load_holdings (Sample.engine (Some Sample.invested)) []).1)
          + sell_proceeds Sample.invested_plan.
Proof.
  repeat split; try (vm_compute; reflexivity).
  vm_compute. intros H. by apply H.
Qed.

(** ** The sizing step below one share *)

(** X2. When the target value buys less than one share and the remaining
    budget covers a share, the sizing step plans nothing: the whole-share
    branch is not entered, so its one-share upgrade does not apply, and the
    gap-filler needs a budget below the price.  The signal goes on to the
    swap scan. *)
Lemma sizing_plans_nothing_below_one_share
    (self : TradingLogic) (remaining new_price : Q) :
  budget self * risk_per_trade_percent self / new_price < 1 ->
  new_price <= remaining ->
  size_order self remaining new_price = NoBuy.
Proof.
  intros Hraw Hrb. unfold size_order.
  apply Qleb_gt in Hraw. rewrite Hraw. cbn [andb].
  apply Qltb_ge in Hrb. rewrite Hrb.
  by rewrite !andb_false_r.
Qed.

Lemma sizing_plans_nothing_below_one_share_witness :
  size_order (init 1000 (1 # 10) (8 # 100) (6 # 10) None) 1000 500 = NoBuy.
Proof.
  apply sizing_plans_nothing_below_one_share; vm_compute; [reflexivity | discriminate].
Defined.

Lemma one_share_upgrade_is_unreachable_witness :
  (py_floor (budget Sample.live * risk_per_trade_percent Sample.live / 50)
   =? 0)%Z = false.
Proof.
  apply (one_share_upgrade_is_unreachable Sample.live 1000 50). reflexivity.
Defined.

(** ** The indicator calculator: ranges *)

Section IndicatorRanges.

Lemma inject_nat_succ k :
  inject_Z (Z.of_nat (S k)) == 1 + inject_Z (Z.of_nat k).
Proof. rewrite Nat2Z.inj_succ, <- Z.add_1_l, inject_Z_plus. reflexivity. Qed.

Lemma inject_nat_pos k : (0 < k)%nat -> 0 < inject_Z (Z.of_nat k).
Proof.
  intros H. change 0 with (inject_Z 0). rewrite <- Zlt_Qlt. lia.
Qed.

Lemma Qsum_bounds l lo hi :
  Forall (fun x => lo <= x /\ x <= hi) l ->
  lo * inject_Z (Z.of_nat (length l)) <= Qsum l
  /\ Qsum l <= hi * inject_Z (Z.of_nat (length l)).
Proof.
  induction 1 as [| x l [Hlo Hhi] _ [IHlo IHhi]].
  - change (Qsum []) with 0. change (inject_Z (Z.of_nat (length (@nil Q)))) with 0.
    split; lra.
  - change (Qsum (x :: l)) with (x + Qsum l).
    cbn [length]. rewrite inject_nat_succ.
    set (n := inject_Z (Z.of_nat (length l))) in *.
    set (s := Qsum l) in *. clearbody n s. split; lra.
Qed.

Lemma mean_bounds l lo hi :
  l <> [] ->
  Forall (fun x => lo <= x /\ x <= hi) l ->
  lo <= mean l /\ mean l <= hi.
Proof.
  intros Hne Hall. destruct (Qsum_bounds l lo hi Hall) as [Hlo Hhi].
  assert (0 < inject_Z (Z.of_nat (length l))) as Hn.
  { apply inject_nat_pos. destruct l; [done | simpl; lia]. }
  unfold mean. split.
  - by apply Qle_shift_div_l.
  - by apply Qle_shift_div_r.
Qed.

Lemma lastn_nonempty {A} (n : nat) (l : list A) :
  (1 <= n)%nat -> l <> [] -> lastn n l <> [].
Proof.
  intros Hn Hl. unfold lastn. intros E.
  apply (f_equal length) in E. rewrite length_drop in E. simpl in E.
  destruct l; [done | simpl in *; lia].
Qed.

Lemma lastn_Forall {A} (P : A -> Prop) (n : nat) (l : list A) :
  Forall P l -> Forall P (lastn n l).
Proof. intros H. unfold lastn. by apply Forall_drop. Qed.

Lemma lastn_cons {A} (n : nat) (x : A) (l : list A) :
  (n <= length l)%nat -> lastn n (x :: l) = lastn n l.
Proof.
  intros H. unfold lastn. cbn [length].
  replace (S (length l) - n)%nat with (S (length l - n)) by lia. done.
Qed.

Lemma true_ranges_length prev bars :
  length (true_ranges prev bars) = length bars.
Proof.
  revert prev. induction bars as [| b rest IH]; intros prev; [done |].
  cbn [true_ranges length]. by rewrite IH.
Qed.

(** Past the first bar every true range is at least an absolute value. *)
Lemma true_ranges_nonneg pc bars :
  Forall (fun x => 0 <= x) (true_ranges (Some pc) bars).
Proof.
  revert pc. induction bars as [| b rest IH]; intros pc; [constructor |].
  cbn [true_ranges]. constructor; [| apply IH].
  unfold true_range.
  eapply Qle_trans; [apply (Qabs_nonneg (low b - pc)) |].
  eapply Qle_trans; [apply Q.le_max_r |]. apply Q.le_max_r.
Qed.

Lemma gain_of_nonneg d : 0 <= gain_of d.
Proof.
  unfold gain_of. destruct (Qltb 0 d) eqn:E; [| apply Qle_refl].
  apply Qltb_lt in E. by apply Qlt_le_weak.
Qed.

Lemma loss_of_nonneg d : 0 <= loss_of d.
Proof.
  unfold loss_of. destruct (Qltb d 0) eqn:E; [| vm_compute; discriminate].
  apply Qltb_lt in E. lra.
Qed.

Lemma mean_nonneg l : Forall (fun x => 0 <= x) l -> 0 <= mean l.
Proof.
  intros H. destruct l as [| x l].
  - vm_compute. discriminate.
  - assert (Forall (fun y => 0 <= y /\ y <= Qsum (x :: l) + 1) (x :: l)) as Hb.
    { clear -H. assert (forall m, Forall (fun y => 0 <= y) m ->
                           Forall (fun y => 0 <= y /\ y <= Qsum m + 1) m) as Hgen.
      { induction 1 as [| y m Hy Hm IH]; [constructor |].
        change (Qsum (y :: m)) with (y + Qsum m).
        assert (0 <= Qsum m) as Hs.
        { clear -Hm. induction Hm as [| z m Hz _ IH]; [apply Qle_refl |].
          change (Qsum (z :: m)) with (z + Qsum m). lra. }
        constructor; [lra |].
        eapply Forall_impl; [exact IH |]. intros z [? ?]. simpl in *. lra. }
      by apply Hgen. }
    by apply (mean_bounds (x :: l) 0 _) in Hb as [? _].
Qed.

End IndicatorRanges.

(** X3. There is no ATR below [period + 1] bars, and an ATR that is
    returned is never negative, whatever numbers the bars hold (even with
    a high below the low): the window leaves out the first bar, and every
    later true range is at least an absolute value. *)
Theorem atr_is_unavailable_or_nonnegative (ohlc_df : list Bar) (period : nat) :
  (1 <= period)%nat ->
  ((length ohlc_df < period + 1)%nat -> calculate_atr ohlc_df period = None)
  /\ (forall atr, calculate_atr ohlc_df period = Some atr -> 0 <= atr).
Proof.
  intros Hp. unfold calculate_atr. split.
  - intros Hlen.
    destruct (Nat.ltb_spec (length ohlc_df) (period + 1)); [done | lia].
  - intros atr.
    destruct (Nat.ltb_spec (length ohlc_df) (period + 1)) as [| Hlen];
      [done |].
    intros [= <-].
    destruct ohlc_df as [| b rest]; [simpl in Hlen; lia |].
    cbn [true_ranges]. rewrite lastn_cons.
    2: { rewrite true_ranges_length. simpl in Hlen. lia. }
    apply mean_nonneg, lastn_Forall, true_ranges_nonneg.
Qed.

Lemma atr_is_unavailable_or_nonnegative_witness :
  calculate_atr (take 14 Sample.falling_bars) 14 = None
  /\ exists atr, calculate_atr Sample.falling_bars 14 = Some atr /\ 0 <= atr.
Proof.
  destruct (atr_is_unavailable_or_nonnegative (take 14 Sample.falling_bars) 14)
    as [Hnone _]; [lia |].
  destruct (atr_is_unavailable_or_nonnegative Sample.falling_bars 14)
    as [_ Hsome]; [lia |].
  split; [apply Hnone; vm_compute; lia |].
  eexists. split; [vm_compute; reflexivity |].
  apply Hsome. vm_compute. reflexivity.
Defined.

(** X4. An RSI that is a number lies between 0 and 100. *)
Theorem rsi_lies_between_0_and_100 (series : list Q) (period : nat) (r : Q) :
  calculate_rsi series period = Some (Fin r) -> 0 <= r /\ r <= 100.
Proof.
  unfold calculate_rsi. destruct (_ <? _)%nat; [done |].
  set (gain := mean (lastn period (map gain_of (diffs None series)))).
  set (loss := mean (lastn period (map loss_of (diffs None series)))).
  assert (0 <= gain) as Hg.
  { apply mean_nonneg, lastn_Forall, Forall_fmap, Forall_forall.
    intros d _. apply gain_of_nonneg. }
  assert (0 <= loss) as Hl.
  { apply mean_nonneg, lastn_Forall, Forall_fmap, Forall_forall.
    intros d _. apply loss_of_nonneg. }
  destruct (Qeq_bool loss 0) eqn:El.
  - destruct (Qeq_bool gain 0); [done |]. intros [= <-].
    split; vm_compute; discriminate.
  - intros [= <-].
    assert (0 < loss) as Hlpos.
    { apply Qle_lteq in Hl as [? | E]; [done |].
      symmetry in E. apply Qeq_bool_iff in E. congruence. }
    assert (0 <= gain / loss) as Hrs.
    { apply Qle_shift_div_l; [done | lra]. }
    set (rs := gain / loss) in *. clearbody rs.
    assert (0 < 1 + rs) as Hd by lra.
    assert (0 <= 100 / (1 + rs)) as H1.
    { apply Qle_shift_div_l; [done | lra]. }
    assert (100 / (1 + rs) <= 100) as H2.
    { apply Qle_shift_div_r; [done | lra]. }
    split; lra.
Qed.

Lemma rsi_lies_between_0_and_100_witness :
  exists r, calculate_rsi (map close Sample.warm_bars) 14 = Some (Fin r)
            /\ 0 <= r /\ r <= 100.
Proof.
  eexists. split; [vm_compute; reflexivity |].
  apply (rsi_lies_between_0_and_100 (map close Sample.warm_bars) 14).
  vm_compute. reflexivity.
Defined.

(** X5. An available simple moving average lies between any two bounds
    that hold for all the points of the series; it is unavailable exactly
    below [period] points. *)
Theorem sma_lies_within_the_series (series : list Q) (period : nat) (lo hi : Q) :
  (1 <= period)%nat ->
  Forall (fun x => lo <= x /\ x <= hi) series ->
  ((length series < period)%nat -> calculate_sma series period = None)
  /\ ((period <= length series)%nat ->
      exists sma, calculate_sma series period = Some sma
                  /\ lo <= sma /\ sma <= hi).
Proof.
  intros Hp Hall. unfold calculate_sma. split; intros Hlen.
  - destruct (Nat.ltb_spec (length series) period); [done | lia].
  - destruct (Nat.ltb_spec (length series) period); [lia |].
    eexists. split; [reflexivity |].
    apply mean_bounds; [| by apply lastn_Forall].
    apply lastn_nonempty; [done |]. destruct series; [simpl in *; lia | done].
Qed.

Lemma sma_lies_within_the_series_witness :
  calculate_sma [10; 12] 3 = None
  /\ exists sma, calculate_sma [10; 12; 11; 13] 3 = Some sma
                 /\ 10 <= sma /\ sma <= 13.
Proof.
  destruct (sma_lies_within_the_series [10; 12] 3 10 13) as [Hnone _];
    [lia | repeat constructor; vm_compute; discriminate |].
  destruct (sma_lies_within_the_series [10; 12; 11; 13] 3 10 13) as [_ Hsome];
    [lia | repeat constructor; vm_compute; discriminate |].
  split; [apply Hnone | apply Hsome]; simpl; lia.
Defined.

(** ** The ledger: what a logged decision changes *)

Section LedgerFacts.

Lemma next_id_above db r : r ∈ db -> (row_id r < next_id db)%Z.
Proof.
  unfold next_id. induction 1 as [r db | r r' db _ IH]; cbn [map foldr]; lia.
Qed.

Lemma next_id_fresh db : next_id db ∉ map row_id db.
Proof.
  intros (r & Hid & Hin)%list_elem_of_fmap.
  apply next_id_above in Hin. lia.
Qed.

Lemma is_on_cooldown_app now ticker hours db rows :
  is_on_cooldown now ticker hours (db ++ rows)
  = is_on_cooldown now ticker hours db || is_on_cooldown now ticker hours rows.
Proof. unfold is_on_cooldown. apply existsb_app. Qed.

Lemma latest_app p db r :
  latest p (db ++ [r])
  = if p r then
      match latest p db with
      | Some b => if Qltb (row_timestamp r) (row_timestamp b)
                  then Some b else Some r
      | None => Some r
      end
    else latest p db.
Proof. unfold latest. by rewrite fold_left_app. Qed.

Lemma latest_elem p db b : latest p db = Some b -> b ∈ db.
Proof.
  revert b. induction db as [| r db IH] using rev_ind; intros b; [done |].
  rewrite latest_app. intros H. apply elem_of_app.
  destruct (p r).
  - destruct (latest p db) as [b0 |].
    + destruct (Qltb _ _); simplify_eq;
        [left; by apply IH | right; by constructor].
    + simplify_eq. right. by constructor.
  - left. by apply IH.
Qed.

Lemma update_execution_fresh decision_id status db :
  decision_id ∉ map row_id db -> update_execution decision_id status db = db.
Proof.
  intros Hfresh. unfold update_execution.
  induction db as [| r db IH]; [done |]. cbn [map].
  destruct (Z.eqb_spec (row_id r) decision_id) as [E | _].
  - exfalso. apply Hfresh. rewrite <- E. cbn [map]. by constructor.
  - f_equal. apply IH. intros Hin. apply Hfresh. cbn [map]. by constructor.
Qed.

End LedgerFacts.

(** X6. A logged decision gets a row id that no row of the ledger has yet;
    the ledger only grows by that one row, and row ids that were distinct
    stay distinct. *)
Theorem log_decision_takes_a_fresh_id (now : Q) (d : Decision) (db : list Row) :
  exists decision_id,
    log_decision now d db
    = (inr decision_id, db ++ [mkRow decision_id now None (stored d)])
    /\ (decision_id ∉ map row_id db)
    /\ (NoDup (map row_id db) ->
        NoDup (map row_id (db ++ [mkRow decision_id now None (stored d)]))).
Proof.
  exists (next_id db). split; [done |]. split; [apply next_id_fresh |].
  intros Hnd. rewrite map_app. apply NoDup_app. split; [done |].
  split; [| apply NoDup_singleton].
  intros i Hi ->%list_elem_of_singleton. by apply next_id_fresh in Hi.
Qed.

(** X7. Cooldown and the ledger: as soon as a BUY is logged its ticker is
    on cooldown for any positive number of hours, so a second signal for
    the same ticker in the same cycle meets the cooldown; a logged decision
    that is no BUY puts no ticker on cooldown. *)
Theorem a_logged_buy_starts_the_cooldown
    (now hours : Q) (d : Decision) (db : list Row) :
  (d_action d = BUY -> 0 < hours ->
   is_on_cooldown now (d_ticker d) hours (log_decision now d db).2 = true)
  /\ (d_action d <> BUY ->
      forall ticker,
        is_on_cooldown now ticker hours (log_decision now d db).2
        = is_on_cooldown now ticker hours db).
Proof.
  unfold log_decision. cbn [snd]. split.
  - intros Hbuy Hh. rewrite is_on_cooldown_app.
    apply orb_true_iff. right. unfold is_on_cooldown.
    cbn [existsb row_data row_timestamp stored d_ticker d_action
         not_rejected row_execution_status].
    rewrite String.eqb_refl, Hbuy. cbn [is_BUY andb].
    assert (Qltb (now - hours * 3600) now = true) as ->; [| done].
    apply Qltb_lt. lra.
  - intros Hno ticker. rewrite is_on_cooldown_app.
    unfold is_on_cooldown at 2.
    cbn [existsb row_data stored d_ticker d_action].
    assert (is_BUY (d_action d) = false) as ->
      by (by destruct (d_action d)).
    by rewrite andb_false_r, !andb_false_l, !orb_false_r.
Qed.

Lemma a_logged_buy_starts_the_cooldown_witness :
  is_on_cooldown 1000000 "XYZ" 4
    (log_decision 1000000 (decision "XYZ" BUY 100 (HolisticBuy 1)) []).2 = true
  /\ forall ticker,
       is_on_cooldown 1000000 ticker 4
         (log_decision 1000000 (decision "XYZ" HOLD 100 SkipCooldown) []).2
       = is_on_cooldown 1000000 ticker 4 [].
Proof.
  split.
  - apply (a_logged_buy_starts_the_cooldown 1000000 4
             (decision "XYZ" BUY 100 (HolisticBuy 1)) []); reflexivity.
  - apply (a_logged_buy_starts_the_cooldown 1000000 4
             (decision "XYZ" HOLD 100 SkipCooldown) []). discriminate.
Defined.

(** X8. The trader's answer and the cooldown. For a BUY just logged for a
    ticker that was not on cooldown, the status the trader writes back
    decides: the exact status 'rejected' lifts the cooldown, any other
    status (such as 'rejected_safe_hold_mode', 'skipped_no_position' or
    'filled') leaves the ticker on cooldown. *)
Theorem only_a_rejected_buy_lifts_the_cooldown
    (now hours : Q) (d : Decision) (db : list Row) (status : string) :
  d_action d = BUY -> 0 < hours ->
  is_on_cooldown now (d_ticker d) hours db = false ->
  is_on_cooldown now (d_ticker d) hours
    (update_execution (next_id db) status (log_decision now d db).2)
  = negb (String.eqb status "rejected").
Proof.
  intros Hbuy Hh Hcold. unfold log_decision. cbn [snd].
  unfold update_execution. rewrite map_app.
  fold (update_execution (next_id db) status db).
  rewrite update_execution_fresh by apply next_id_fresh.
  rewrite is_on_cooldown_app, Hcold. cbn [orb map row_id].
  rewrite Z.eqb_refl. unfold is_on_cooldown.
  cbn [existsb row_data row_timestamp stored d_ticker d_action
       not_rejected row_execution_status].
  rewrite String.eqb_refl, Hbuy. cbn [is_BUY andb].
  assert (Qltb (now - hours * 3600) now = true) as ->.
  { apply Qltb_lt. lra. }
  by rewrite orb_false_r.
Qed.

Lemma only_a_rejected_buy_lifts_the_cooldown_witness :
  is_on_cooldown 1000000 "XYZ" 4
    (update_execution (next_id []) "rejected"
       (log_decision 1000000 (decision "XYZ" BUY 100 (HolisticBuy 1)) []).2)
  = negb (String.eqb "rejected" "rejected")
  /\ is_on_cooldown 1000000 "XYZ" 4
       (update_execution (next_id []) "rejected_safe_hold_mode"
          (log_decision 1000000 (decision "XYZ" BUY 100 (HolisticBuy 1)) []).2)
     = negb (String.eqb "rejected_safe_hold_mode" "rejected").
Proof.
  split;
    apply (only_a_rejected_buy_lifts_the_cooldown 1000000 4
             (decision "XYZ" BUY 100 (HolisticBuy 1)) []); reflexivity.
Defined.

(** X9. After a BUY is logged at a time no row of the ledger is stamped
    later than, the last buy time of its ticker is that time; a logged
    decision that is no BUY, or is for another ticker, leaves the last buy
    time of a ticker as it was. *)
Theorem last_buy_time_follows_the_log
    (now : Q) (d : Decision) (db : list Row) :
  (d_action d = BUY -> not_after now db ->
   get_last_buy_time (d_ticker d) (log_decision now d db).2 = Some now)
  /\ (forall ticker,
        d_action d <> BUY \/ d_ticker d <> ticker ->
        get_last_buy_time ticker (log_decision now d db).2
        = get_last_buy_time ticker db).
Proof.
  unfold log_decision, get_last_buy_time. cbn [snd]. split.
  - intros Hbuy Hold. rewrite latest_app.
    cbn [row_data stored d_ticker d_action row_timestamp].
    rewrite String.eqb_refl, Hbuy. cbn [is_BUY andb].
    destruct (latest _ db) as [b |] eqn:E; [| done].
    apply latest_elem in E. unfold not_after in Hold.
    rewrite Forall_forall in Hold. specialize (Hold b E).
    apply Qltb_ge in Hold. by rewrite Hold.
  - intros ticker Hother. rewrite latest_app.
    cbn [row_data stored d_ticker d_action].
    destruct Hother as [Hno | Hne].
    + assert (is_BUY (d_action d) = false) as ->
        by (by destruct (d_action d)).
      by rewrite andb_false_r.
    + apply String.eqb_neq in Hne. by rewrite Hne.
Qed.

Lemma last_buy_time_follows_the_log_witness :
  get_last_buy_time "XYZ"
    (log_decision 1000000 (decision "XYZ" BUY 100 (HolisticBuy 1))
                  (Sample.bought_xyz 3600)).2 = Some 1000000
  /\ forall ticker,
       d_action (decision "XYZ" HOLD 100 SkipCooldown) <> BUY
       \/ d_ticker (decision "XYZ" HOLD 100 SkipCooldown) <> ticker ->
       get_last_buy_time ticker
         (log_decision 1000000 (decision "XYZ" HOLD 100 SkipCooldown)
                       (Sample.bought_xyz 3600)).2
       = get_last_buy_time ticker (Sample.bought_xyz 3600).
Proof.
  split.
  - apply (last_buy_time_follows_the_log 1000000
             (decision "XYZ" BUY 100 (HolisticBuy 1)) (Sample.bought_xyz 3600));
      [reflexivity |].
    repeat constructor. vm_compute. discriminate.
  - apply (last_buy_time_follows_the_log 1000000
             (decision "XYZ" HOLD 100 SkipCooldown) (Sample.bought_xyz 3600)).
Defined.

(** X10. The latest scores of a ticker change only through a logged
    decision that carries a sentiment score: the HOLD and SELL records of
    the risk check and the swap SELL records carry none and leave the
    scores of every ticker as they were, while a decision logged with a
    sentiment score, at a time after the stamp of every row, becomes the
    latest scores of its ticker (with duration 0 when it carries none). *)
Theorem latest_scores_follow_the_scored_log
    (now : Q) (d : Decision) (db : list Row) :
  (d_sentiment_score d = None ->
   forall ticker,
     get_latest_scores ticker (log_decision now d db).2
     = get_latest_scores ticker db)
  /\ (forall s, d_sentiment_score d = Some s -> all_before now db ->
        get_latest_scores (d_ticker d) (log_decision now d db).2
        = (s, default 0 (d_duration_score d))).
Proof.
  unfold log_decision, get_latest_scores. cbn [snd]. split.
  - intros Hnone ticker. rewrite latest_app.
    cbn [row_data stored d_ticker d_sentiment_score]. rewrite Hnone.
    by rewrite andb_false_r.
  - intros s Hs Hold. rewrite latest_app.
    cbn [row_data stored d_ticker d_sentiment_score row_timestamp].
    rewrite String.eqb_refl, Hs. cbn [andb].
    replace (bool_decide (is_Some (Some s))) with true by done.
    destruct (latest _ db) as [b |] eqn:E.
    + apply latest_elem in E. unfold all_before in Hold.
      rewrite Forall_forall in Hold. specialize (Hold b E).
      apply Qlt_le_weak, Qltb_ge in Hold. rewrite Hold.
      cbn [row_data stored d_sentiment_score d_duration_score default
           from_option id]. by rewrite Hs.
    + cbn [row_data stored d_sentiment_score d_duration_score default
           from_option id]. by rewrite Hs.
Qed.

Lemma latest_scores_follow_the_scored_log_witness :
  (forall ticker,
     get_latest_scores ticker
       (log_decision 1000000 (decision "XYZ" HOLD 100 SkipCooldown)
                     (Sample.bought_xyz 3600)).2
     = get_latest_scores ticker (Sample.bought_xyz 3600))
  /\ get_latest_scores "XYZ"
       (log_decision 1000000
          (with_scores (6 # 10) 1 (decision "XYZ" SKIP 100 SkipCooldown))
          (Sample.bought_xyz 3600)).2
     = (6 # 10, default 0 (Some 1)).
Proof.
  split.
  - by apply (latest_scores_follow_the_scored_log 1000000
                (decision "XYZ" HOLD 100 SkipCooldown) (Sample.bought_xyz 3600)).
  - apply (latest_scores_follow_the_scored_log 1000000
             (with_scores (6 # 10) 1 (decision "XYZ" SKIP 100 SkipCooldown))
             (Sample.bought_xyz 3600) ).
    + reflexivity.
    + repeat constructor.
Defined.

Lemma log_decision_takes_a_fresh_id_witness :
  exists decision_id,
    log_decision 1000000 (decision "XYZ" HOLD 100 SkipCooldown)
                 (Sample.bought_xyz 3600)
    = (inr decision_id,
       Sample.bought_xyz 3600
       ++ [mkRow decision_id 1000000 None
             (stored (decision "XYZ" HOLD 100 SkipCooldown))])
    /\ (decision_id ∉ map row_id (Sample.bought_xyz 3600))
    /\ (NoDup (map row_id (Sample.bought_xyz 3600)) ->
        NoDup (map row_id
                 (Sample.bought_xyz 3600
                  ++ [mkRow decision_id 1000000 None
                        (stored (decision "XYZ" HOLD 100 SkipCooldown))]))).
Proof.
  apply (log_decision_takes_a_fresh_id 1000000
           (decision "XYZ" HOLD 100 SkipCooldown) (Sample.bought_xyz 3600)).
Defined.

(** ** The risk evaluator: which sells it can decide *)

Section RiskReasons.

Variables (self : TradingLogic) (env : Env).

(** When the zero-loss rule is active the price is above the stop: the rule
    needs a gain above 5% now, and sets the stop 0.5% above the entry. *)
Lemma zero_loss_active_above_stop buy_price current_price stop_price s :
  zero_loss_rule buy_price current_price stop_price = (s, true) ->
  s < current_price.
Proof.
  unfold zero_loss_rule.
  destruct (Qltb 0 buy_price) eqn:Ebp; [| done].
  destruct (Qltb (5 # 100) _) eqn:Eg; [| done].
  destruct (Qltb stop_price _); [| done]. intros [= <-].
  apply Qltb_lt in Ebp, Eg.
  assert ((5 # 100) * buy_price
          < (current_price - buy_price) / buy_price * buy_price) as H.
  { apply Qmult_lt_compat_r; done. }
  assert ((current_price - buy_price) / buy_price * buy_price
          == current_price - buy_price) as Hf by (field; lra).
  rewrite Hf in H. lra.
Qed.

Lemma evaluate_triggers_reason ticker buy_price current_price last_buy r :
  evaluate_triggers self env ticker buy_price current_price last_buy
    = inr (SellFor r) ->
  is_risk_sell_reason r = true.
Proof.
  unfold evaluate_triggers, holding_stop.
  destruct (zero_loss_rule _ _ _) as [stop zl] eqn:Hz.
  destruct (stop_loss_trigger _ _ _ _ _ _) as [e | [r1 |]] eqn:E1; [done | |].
  - intros [= <-]. unfold stop_loss_trigger in E1.
    destruct (Qltb current_price stop) eqn:E; [| done].
    destruct (Qeq_bool buy_price 0); [done |].
    destruct zl.
    + apply zero_loss_active_above_stop in Hz. apply Qltb_lt in E. lra.
    + destruct (holding_atr self ticker) as [a |];
        [destruct (truthy a) |]; by simplify_eq.
  - destruct (trailing_trigger _ _ _ _) as [r2 |] eqn:E2.
    + intros [= <-]. unfold trailing_trigger in E2.
      repeat case_match; by simplify_eq.
    + intros [= Htb]. apply trend_breakdown_sell in Htb
        as (a & b & _ & _ & -> & _). done.
Qed.

(** The stop-loss decides before the grace period is looked at. *)
Lemma evaluate_triggers_stop ticker buy_price current_price last_buy :
  ~ buy_price == 0 ->
  current_price < fst (holding_stop self ticker buy_price current_price) ->
  exists r, evaluate_triggers self env ticker buy_price current_price last_buy
            = inr (SellFor r)
            /\ is_stop_reason r = true.
Proof.
  intros Hbp Hlt. unfold evaluate_triggers, holding_stop in *.
  destruct (zero_loss_rule _ _ _) as [stop zl] eqn:Hz. cbn [fst] in Hlt.
  unfold stop_loss_trigger.
  apply Qltb_lt in Hlt. rewrite Hlt.
  assert (Qeq_bool buy_price 0 = false) as ->.
  { destruct (Qeq_bool buy_price 0) eqn:E; [| done].
    apply Qeq_bool_iff in E. contradiction. }
  destruct zl.
  - apply zero_loss_active_above_stop in Hz. apply Qltb_lt in Hlt. lra.
  - destruct (holding_atr self ticker) as [a |];
      [destruct (truthy a) |]; eauto.
Qed.

End RiskReasons.

Section RiskShape.

Variables (self : TradingLogic) (env : Env).

Lemma risk_loop_shape items : forall acc tot db sell_orders tot' db',
  risk_loop self env items acc tot db = (inr (sell_orders, tot'), db') ->
  exists new,
    sell_orders = acc ++ new
    /\ map o_ticker new `sublist_of` map fst items
    /\ tot' == tot + sell_proceeds new
    /\ Forall is_whole_limit_sell new.
Proof.
  induction items as [| [t d] rest IH];
    intros acc tot db sell_orders tot' db' H.
  - cbv [risk_loop ret] in H. simplify_eq. exists [].
    rewrite app_nil_r. change (sell_proceeds []) with 0.
    split; [done |]. split; [constructor |]. split; [ring | constructor].
  - cbn [risk_loop] in H. unfold bind in H.
    destruct (risk_check_holding self env t d db) as [[e | v] db1] eqn:E;
      [done |].
    destruct v as [| | | o p];
      try (apply IH in H as (new & -> & Hsub & Ht & Hall);
           exists new; repeat split; try done;
           cbn [map fst]; by apply sublist_cons).
    apply IH in H as (new & -> & Hsub & Ht & Hall).
    apply risk_check_holding_sold in E as (cp & r & Hs & Hp & _ & -> & ->).
    exists (sell_order t (py_int (h_qty d)) cp r (next_id db) :: new).
    rewrite <- app_assoc. split; [done |].
    split; [cbn [map fst o_ticker sell_order]; by apply sublist_skip |].
    split.
    + change (sell_proceeds (sell_order t (py_int (h_qty d)) cp r (next_id db)
                             :: new))
        with (inject_Z (py_int (h_qty d)) * cp + sell_proceeds new).
      rewrite Ht. ring.
    + constructor; [| done].
      unfold is_whole_limit_sell, sell_order. cbn.
      repeat split; eauto.
Qed.

End RiskShape.

(** X11. Every sell the risk check decides carries one of four reasons:
    ATR stop, hard stop-loss, trailing profit taken or trend breakdown.
    The "Protected Profit Stop" reason is never given: the zero-loss rule
    is active only while the gain is above 5%, and the price is then above
    the stop it sets 0.5% over the entry. *)
Theorem risk_sells_carry_four_reasons
    (self : TradingLogic) (env : Env)
    (holdings_data : list (string * Holding)) (db : list Row)
    (sell_orders : list Order) (total_proceeds : Q) (db' : list Row) :
  check_portfolio_risks self env holdings_data db
    = (inr (sell_orders, total_proceeds), db') ->
  Forall (fun o => is_risk_sell_reason (o_reason o) = true) sell_orders.
Proof.
  intros H. apply risk_loop_sells in H as (new & -> & Hall). simpl.
  eapply Forall_impl; [exact Hall |].
  intros o (t & d & db0 & db1 & p & _ & Hr).
  apply risk_check_holding_sold in Hr as (cp & r & _ & _ & Hev & -> & _).
  by apply evaluate_triggers_reason in Hev.
Qed.

Lemma risk_sells_carry_four_reasons_witness :
  Forall (fun o => is_risk_sell_reason (o_reason o) = true)
         (Sample.sells_of Sample.dear_sale).
Proof.
  apply (risk_sells_carry_four_reasons Sample.live Sample.nobody
           [("XYZ"%string, Sample.xyz_dear)] []
           (Sample.sells_of Sample.dear_sale)
           (Sample.proceeds_of Sample.dear_sale) Sample.dear_sale.2).
  vm_compute. reflexivity.
Defined.

(** X12. The stop-loss is not subject to the grace period: a holding with
    a whole share, an obtainable price below its stop and a non-zero entry
    price is sold for the stop (ATR stop or hard stop-loss), with one SELL
    record, whatever the ledger says about its last buy and whatever the
    panic flag and the moving averages are. *)
Theorem stop_loss_ignores_the_grace_period
    (self : TradingLogic) (env : Env) (ticker : string) (data : Holding)
    (db : list Row) (current_price : Q) :
  (0 < py_int (h_qty data))%Z ->
  if_truthy (holding_price self env ticker data) = Some current_price ->
  ~ h_avg_entry data == 0 ->
  current_price
    < fst (holding_stop self ticker (h_avg_entry data) current_price) ->
  exists sell_reason,
    is_stop_reason sell_reason = true
    /\ risk_check_holding self env ticker data db
       = (inr (Sold (sell_order ticker (py_int (h_qty data)) current_price
                                sell_reason (next_id db))
                    (current_price * inject_Z (py_int (h_qty data)))),
          db ++ [mkRow (next_id db) (now env) None
                   (stored (sell_record self ticker (py_int (h_qty data))
                              (h_avg_entry data) current_price
                              sell_reason))]).
Proof.
  intros Hs Hp Hbp Hlt.
  destruct (evaluate_triggers_stop self env ticker (h_avg_entry data)
              current_price (get_last_buy_time ticker db) Hbp Hlt)
    as (r & Hev & Hr).
  exists r. split; [done |].
  by rewrite (risk_check_holding_eval _ _ _ _ _ current_price Hs Hp), Hev.
Qed.

Lemma stop_loss_ignores_the_grace_period_witness :
  exists sell_reason,
    is_stop_reason sell_reason = true
    /\ risk_check_holding Sample.live Sample.nobody "XYZ" Sample.xyz_dear
         (Sample.bought_xyz 3600)
       = (inr (Sold (sell_order "XYZ" (py_int (h_qty Sample.xyz_dear)) 100
                                sell_reason (next_id (Sample.bought_xyz 3600)))
                    (100 * inject_Z (py_int (h_qty Sample.xyz_dear)))),
          Sample.bought_xyz 3600
          ++ [mkRow (next_id (Sample.bought_xyz 3600)) (now Sample.nobody) None
                (stored (sell_record Sample.live "XYZ"
                           (py_int (h_qty Sample.xyz_dear))
                           (h_avg_entry Sample.xyz_dear) 100 sell_reason))]).
Proof.
  apply (stop_loss_ignores_the_grace_period Sample.live Sample.nobody "XYZ"
           Sample.xyz_dear (Sample.bought_xyz 3600) 100);
    try reflexivity.
  vm_compute. discriminate.
Defined.

(** X13. The sell orders of the risk check follow the holdings in order,
    at most one per holding, so no ticker is sold twice when the holdings
    have distinct tickers; each is a limit sell of a positive whole number
    of shares; and the total the risk check returns is what these orders
    fetch, quantity times limit price. *)
Theorem risk_sells_follow_the_holdings
    (self : TradingLogic) (env : Env)
    (holdings_data : list (string * Holding)) (db : list Row)
    (sell_orders : list Order) (total_proceeds : Q) (db' : list Row) :
  check_portfolio_risks self env holdings_data db
    = (inr (sell_orders, total_proceeds), db') ->
  map o_ticker sell_orders `sublist_of` map fst holdings_data
  /\ (NoDup (map fst holdings_data) -> NoDup (map o_ticker sell_orders))
  /\ Forall is_whole_limit_sell sell_orders
  /\ total_proceeds == sell_proceeds sell_orders.
Proof.
  intros H. apply risk_loop_shape in H as (new & -> & Hsub & Ht & Hall).
  simpl. split; [done |]. split; [| split; [done |]].
  - intros Hnd. by eapply sublist_NoDup.
  - rewrite Ht. ring.
Qed.

Lemma risk_sells_follow_the_holdings_witness :
  map o_ticker (Sample.sells_of Sample.dear_sale)
    `sublist_of` map fst [("XYZ"%string, Sample.xyz_dear)]
  /\ (NoDup (map fst [("XYZ"%string, Sample.xyz_dear)]) ->
      NoDup (map o_ticker (Sample.sells_of Sample.dear_sale)))
  /\ Forall is_whole_limit_sell (Sample.sells_of Sample.dear_sale)
  /\ Sample.proceeds_of Sample.dear_sale
     == sell_proceeds (Sample.sells_of Sample.dear_sale).
Proof.
  apply (risk_sells_follow_the_holdings Sample.live Sample.nobody
           [("XYZ"%string, Sample.xyz_dear)] []
           (Sample.sells_of Sample.dear_sale)
           (Sample.proceeds_of Sample.dear_sale) Sample.dear_sale.2).
  vm_compute. reflexivity.
Defined.

(** X14. The trailing take-profit needs five bars of history: without them
    the high-water mark is the current price itself, and the trailing stop
    a fraction of it, so the trigger cannot fire.  The price and the drop
    percentage are not negative. *)
Theorem trailing_needs_five_bars
    (self : TradingLogic) (ohlc : option (list Bar))
    (buy_price current_price : Q) :
  0 <= trailing_drop_pct self -> 0 <= current_price ->
  recent_high ohlc = None ->
  trailing_trigger self ohlc buy_price current_price = None.
Proof.
  intros Hd Hcp Hrh. unfold trailing_trigger. rewrite Hrh.
  destruct (Qltb 0 buy_price); [| done].
  destruct (Qltb (trailing_activation_pct self) _); [| done].
  cbn [default from_option id].
  assert (Qmax current_price current_price == current_price) as Hm.
  { apply Q.max_l, Qle_refl. }
  destruct (Qltb current_price _) eqn:E; [| done].
  apply Qltb_lt in E. rewrite Hm in E.
  assert (0 <= current_price * trailing_drop_pct self)
    by by apply Qmult_le_0_compat.
  set (c := current_price * trailing_drop_pct self) in *.
  assert (current_price * (1 - trailing_drop_pct self) == current_price - c)
    as Hr by (unfold c; ring).
  rewrite Hr in E. lra.
Qed.

Lemma trailing_needs_five_bars_witness :
  trailing_trigger Sample.live (Some (take 4 Sample.falling_bars)) 100 150
  = None.
Proof.
  apply trailing_needs_five_bars; [| | reflexivity]; vm_compute; discriminate.
Defined.

(** ** The planner: ranking *)

Section Ranking.

Lemma insert_desc_Forall (P : RankEntry -> Prop) x l :
  P x -> Forall P l -> Forall P (insert_desc x l).
Proof.
  intros Hx. induction 1 as [| y l Hy Hl IH]; cbn [insert_desc].
  - by constructor.
  - destruct (Qltb _ _); by repeat constructor.
Qed.

Lemma sort_desc_Forall (P : RankEntry -> Prop) l :
  Forall P l -> Forall P (sort_desc l).
Proof.
  induction 1 as [| x l Hx Hl IH]; [constructor |].
  cbn [sort_desc foldr]. by apply insert_desc_Forall.
Qed.

Lemma insert_desc_perm x l : insert_desc x l ≡ₚ x :: l.
Proof.
  induction l as [| y l IH]; cbn [insert_desc]; [done |].
  destruct (Qltb _ _); [| done].
  rewrite IH. apply Permutation_swap.
Qed.

Lemma insert_desc_sorted x l :
  StronglySorted ranks_before l -> StronglySorted ranks_before (insert_desc x l).
Proof.
  induction 1 as [| y l Hs IH Hall]; cbn [insert_desc].
  - repeat constructor.
  - destruct (Qltb (r_rank_score x) (r_rank_score y)) eqn:E.
    + constructor; [done |].
      rewrite insert_desc_perm. constructor; [| done].
      apply Qltb_lt in E. unfold ranks_before. by apply Qlt_le_weak.
    + apply Qltb_ge in E. constructor; [by constructor |].
      constructor; [done |].
      eapply Forall_impl; [exact Hall |].
      intros z Hz. unfold ranks_before in *. by eapply Qle_trans.
Qed.

Lemma insert_desc_scored s x l :
  scored s (insert_desc x l) = scored s (x :: l).
Proof.
  induction l as [| y l IH]; cbn [insert_desc]; [done |].
  destruct (Qltb (r_rank_score x) (r_rank_score y)) eqn:E; [| done].
  unfold scored in *. cbn [List.filter] in *. rewrite IH.
  destruct (Qeq_bool (r_rank_score x) s) eqn:Ex,
           (Qeq_bool (r_rank_score y) s) eqn:Ey; try done.
  apply Qeq_bool_iff in Ex, Ey. apply Qltb_lt in E.
  rewrite Ex, Ey in E. lra.
Qed.

End Ranking.

(** X15. The ranking is a stable sort by descending score: the sorted list
    is a rearrangement of the list, no entry ranks below a later one, and
    the entries of any one score keep the order they had. *)
Theorem ranking_is_a_stable_descending_sort (rank_list : list RankEntry) :
  sort_desc rank_list ≡ₚ rank_list
  /\ StronglySorted ranks_before (sort_desc rank_list)
  /\ forall s, scored s (sort_desc rank_list) = scored s rank_list.
Proof.
  induction rank_list as [| x l (Hperm & Hsorted & Hstable)].
  - repeat split; constructor.
  - cbn [sort_desc foldr]. fold (sort_desc l). split; [| split].
    + by rewrite insert_desc_perm, Hperm.
    + by apply insert_desc_sorted.
    + intros s. rewrite insert_desc_scored. unfold scored in *.
      cbn [List.filter]. by rewrite Hstable.
Qed.

(** ** The planner: what a cycle ignores *)

Section Ignored.

Variables (self : TradingLogic) (env : Env).

Lemma add_new_signals_buy_signals sentiment_data : forall s rank_list db,
  add_new_signals s env sentiment_data rank_list db
  = add_new_signals s env (buy_signals sentiment_data) rank_list db.
Proof.
  induction sentiment_data as [| signal rest IH]; intros s rank_list db;
    [done |].
  unfold buy_signals. cbn [List.filter]. fold (buy_signals rest).
  cbn [add_new_signals].
  destruct (is_Buy (sig_action signal)) eqn:E; [| apply IH].
  cbn [add_new_signals]. rewrite E.
  destruct (validate_ticker s (sig_ticker signal)) as [ok s1].
  destruct ok; cbn [negb]; [apply IH |].
  unfold bind, log_decision. apply IH.
Qed.

End Ignored.

(** X16. Only the Buy signals of [sentiment_data] count: a cycle run with
    all the signals and a cycle run with the Buy signals alone give the
    same plan or exception, the same instance and the same ledger.  A Sell
    or Hold signal is never acted on, nor logged. *)
Theorem only_buy_signals_count
    (self : TradingLogic) (env : Env) (sentiment_data : list Signal)
    (portfolio : list (string * PortfolioPosition))
    (env_bias : Q) (macro_reason : string) (db : list Row) :
  generate_plan self env sentiment_data portfolio env_bias macro_reason db
  = generate_plan self env (buy_signals sentiment_data) portfolio env_bias
                  macro_reason db.
Proof.
  unfold generate_plan.
  destruct (load_holdings _ _) as [cost_basis_total chd].
  unfold rank_new_signals. destruct (_ || _); [done |].
  by rewrite add_new_signals_buy_signals.
Qed.

Section Defense.

Variables (self : TradingLogic) (env : Env).

Lemma plan_loop_holdings chd rank_list items : forall st db,
  Forall (fun e => r_type e = holding) items ->
  plan_loop self env chd rank_list items st db = (inr st, db).
Proof.
  induction items as [| item rest IH]; intros st db Hall; [done |].
  apply Forall_cons in Hall as [Hty Hall].
  cbn [plan_loop]. unfold bind, plan_entry. rewrite Hty.
  cbv [ret]. by apply IH.
Qed.

Lemma holding_entries_type chd db :
  Forall (fun e => r_type e = holding) (holding_entries self env chd db).
Proof.
  unfold holding_entries.
  induction chd as [| [t d] rest IH]; [constructor |].
  cbn [omap list_omap]. destruct (Qltb 0 (h_qty d)); [| exact IH].
  destruct (get_latest_scores t db). by constructor.
Qed.

End Defense.

(** X17. In defense and safe-hold mode ([env_bias < 0.5]) the plan is the
    list of the sell orders of the risk check and nothing else, whatever
    the signals are: one DEFENSE_MODE record is logged, no signal is
    validated, ranked or bought, and no holding is swapped. *)
Theorem defense_mode_plans_only_risk_sells
    (self : TradingLogic) (env : Env) (sentiment_data : list Signal)
    (portfolio : list (string * PortfolioPosition))
    (env_bias : Q) (macro_reason : string) (db : list Row) :
  env_bias < 5 # 10 ->
  let self1 := enter_mode self env_bias macro_reason in
  let db1 := db ++ [mkRow (next_id db) (now env) None
                      (stored (defense_record env_bias macro_reason))] in
  generate_plan self env sentiment_data portfolio env_bias macro_reason db
  = match check_portfolio_risks self1 env (load_holdings self portfolio).2
                                db1 with
    | (inr (risk_sells, _), db2) => (inr risk_sells, self1, db2)
    | (inl e, db2) => (inl e, self1, db2)
    end.
Proof.
  intros Hb self1 db1. unfold generate_plan.
  rewrite load_holdings_enter_mode.
  destruct (load_holdings self portfolio) as [cost_basis_total chd].
  cbn [snd]. unfold rank_new_signals.
  apply Qltb_lt in Hb. rewrite Hb. cbn [orb].
  unfold bind at 1. unfold log_decision at 1. cbv [ret].
  fold (defense_record env_bias macro_reason). fold self1. fold db1.
  unfold plan_orders. unfold bind at 1. unfold read at 1.
  unfold bind at 1.
  destruct (check_portfolio_risks self1 env chd db1)
    as [[e | [risk_sells risk_proceeds]] db2]; [done |].
  unfold bind. rewrite plan_loop_holdings; [done |].
  apply sort_desc_Forall. cbn [app]. apply holding_entries_type.
Qed.

Lemma defense_mode_plans_only_risk_sells_witness :
  generate_plan Sample.live Sample.nobody [Sample.buy_signal "NEW"] []
                (2 # 10) "crash" []
  = match check_portfolio_risks (enter_mode Sample.live (2 # 10) "crash")
            Sample.nobody (load_holdings Sample.live []).2
            ([] ++ [mkRow (next_id []) (now Sample.nobody) None
                      (stored (defense_record (2 # 10) "crash"))]) with
    | (inr (risk_sells, _), db2) =>
        (inr risk_sells, enter_mode Sample.live (2 # 10) "crash", db2)
    | (inl e, db2) => (inl e, enter_mode Sample.live (2 # 10) "crash", db2)
    end.
Proof.
  apply (defense_mode_plans_only_risk_sells Sample.live Sample.nobody
           [Sample.buy_signal "NEW"] [] (2 # 10) "crash" []).
  reflexivity.
Defined.

(** ** The ledger only grows *)

Section Growth.

Lemma grows_ret {A} (a : A) : grows (ret a).
Proof. intros db. done. Qed.

Lemma grows_raise {A} e : grows (@raise A e).
Proof. intros db. done. Qed.

Lemma grows_read {A} (f : list Row -> A) : grows (read f).
Proof. intros db. done. Qed.

Lemma grows_log now d : grows (log_decision now d).
Proof. intros db. by apply prefix_app_r. Qed.

Lemma grows_bind {A B} (m : L A) (k : A -> L B) :
  grows m -> (forall a, grows (k a)) -> grows (bind m k).
Proof.
  intros Hm Hk db. unfold bind. specialize (Hm db).
  destruct (m db) as [[e | a] db1]; [done |].
  etrans; [exact Hm |]. apply Hk.
Qed.

Ltac grow :=
  repeat first
    [ apply grows_ret | apply grows_raise | apply grows_read | apply grows_log
    | assumption
    | apply grows_bind; [| intros ?]
    | progress cbn beta iota
    | case_match ].

Lemma grows_risk_check_holding self env ticker data :
  grows (risk_check_holding self env ticker data).
Proof. unfold risk_check_holding. grow. Qed.

Lemma grows_risk_loop self env items : forall acc tot,
  grows (risk_loop self env items acc tot).
Proof.
  induction items as [| [t d] rest IH]; intros acc tot; cbn [risk_loop].
  - grow.
  - apply grows_bind; [apply grows_risk_check_holding |].
    intros v. destruct v; apply IH.
Qed.

Lemma grows_swap_scan env item new_price candidates : forall st,
  grows (swap_scan env item new_price candidates st).
Proof.
  induction candidates as [| c rest IH]; intros st; cbn [swap_scan].
  - grow.
  - repeat first [ apply IH | case_match ]; grow.
Qed.

Lemma grows_plan_entry self env chd rank_list item st :
  grows (plan_entry self env chd rank_list item st).
Proof.
  unfold plan_entry.
  repeat first
    [ apply grows_swap_scan
    | apply grows_ret | apply grows_raise | apply grows_read | apply grows_log
    | apply grows_bind; [| intros ?]
    | progress cbn beta iota
    | case_match ].
Qed.

Lemma grows_plan_loop self env chd rank_list items : forall st,
  grows (plan_loop self env chd rank_list items st).
Proof.
  induction items as [| item rest IH]; intros st; cbn [plan_loop].
  - grow.
  - apply grows_bind; [apply grows_plan_entry | apply IH].
Qed.

Lemma grows_plan_orders self env chd remaining new_entries :
  grows (plan_orders self env chd remaining new_entries).
Proof.
  unfold plan_orders, check_portfolio_risks.
  apply grows_bind; [apply grows_read |]. intros held.
  apply grows_bind; [apply grows_risk_loop |]. intros [sells proceeds].
  apply grows_bind; [apply grows_plan_loop |]. intros st. apply grows_ret.
Qed.

Lemma grows_add_new_signals env sentiment_data : forall self rank_list,
  grows (add_new_signals self env sentiment_data rank_list).
Proof.
  induction sentiment_data as [| signal rest IH]; intros self rank_list;
    cbn [add_new_signals].
  - grow.
  - repeat first [ apply IH | case_match
                 | apply grows_bind; [apply grows_log | intros ?] ].
Qed.

Lemma grows_rank_new_signals self env sentiment_data env_bias macro_reason :
  grows (rank_new_signals self env sentiment_data env_bias macro_reason).
Proof.
  unfold rank_new_signals.
  destruct (_ || _); [grow | apply grows_add_new_signals].
Qed.

End Growth.

(** X18. The ledger is append-only within a cycle: whether [generate_plan]
    returns a plan or raises, the ledger afterwards is the ledger before
    with rows added at its end; no row is changed or removed. *)
Theorem generate_plan_only_appends_to_the_ledger
    (self : TradingLogic) (env : Env) (sentiment_data : list Signal)
    (portfolio : list (string * PortfolioPosition))
    (env_bias : Q) (macro_reason : string) (db : list Row) :
  exists rows,
    (generate_plan self env sentiment_data portfolio env_bias macro_reason db).2
    = db ++ rows.
Proof.
  unfold generate_plan.
  destruct (load_holdings _ _) as [cost_basis_total chd].
  pose proof (grows_rank_new_signals
                (enter_mode self env_bias macro_reason) env sentiment_data
                env_bias macro_reason db) as H1.
  destruct (rank_new_signals _ _ _ _ _ _) as [[e | [self2 new_entries]] db1];
    [exact H1 |].
  pose proof (grows_plan_orders self2 env chd
                (budget (enter_mode self env_bias macro_reason) * env_bias
                 - cost_basis_total) new_entries db1) as H2.
  destruct (plan_orders _ _ _ _ _ _) as [res db2]. cbn [snd] in *.
  change (db `prefix_of` db2). by etrans.
Qed.

(** ** The orders of a plan *)

Section Soundness.

Lemma backed_prefix db db' o : db `prefix_of` db' -> backed db o -> backed db' o.
Proof.
  intros [rows ->] (r & Hin & H). exists r. split; [| done].
  apply elem_of_app. by left.
Qed.

Lemma sound_prefix st db db' : db `prefix_of` db' -> sound st db -> sound st db'.
Proof.
  intros Hpre (Hwf & Hb & Hsold & Hnd). repeat split; try done.
  eapply Forall_impl; [exact Hb |]. intros o. by apply backed_prefix.
Qed.

Lemma in_list_false t l : in_list t l = false -> t ∉ l.
Proof.
  unfold in_list. intros H Hin.
  assert (existsb (String.eqb t) l = true) as Ht; [| congruence].
  apply existsb_exists. exists t. split; [| apply String.eqb_refl].
  by apply list_elem_of_In.
Qed.

Lemma inject_Z_pos n : (0 < n)%Z -> 0 < inject_Z n.
Proof. intros H. change 0 with (inject_Z 0). by rewrite <- Zlt_Qlt. Qed.

Lemma size_order_whole_pos self remaining new_price shares_to_buy :
  size_order self remaining new_price = WholeShares shares_to_buy ->
  (0 < shares_to_buy)%Z.
Proof.
  unfold size_order.
  destruct (Qleb 1 _ && Qleb new_price remaining).
  - set (s1 := if (py_floor _ =? 0)%Z then _ else _).
    destruct (0 <? s1)%Z; [| done].
    destruct (Z.ltb_spec 0 (if Qltb remaining (inject_Z s1 * new_price)
                             then py_floor (remaining / new_price) else s1));
      [| done].
    by intros [= <-].
  - destruct (_ && _); [| done]. by destruct (Qltb 0 _).
Qed.

(** The state after a swap: the sell of half of the old holding, with the
    buy it funds when there is one. *)
Lemma sound_swap st db now new_ticker old_ticker swap_qty old_price new_price
    sent dur q ty remaining' :
  (0 < swap_qty)%Z ->
  in_list old_ticker (sold_tickers st) = false ->
  sound st db ->
  let proceeds := inject_Z swap_qty * old_price in
  let sell_row :=
    mkRow (next_id db) now None
      (stored (with_quantity (inject_Z swap_qty)
                 (decision old_ticker SELL old_price
                           (PartialSwapFor new_ticker)))) in
  let sell_o :=
    mkOrder old_ticker sell (inject_Z swap_qty) limit (Some old_price)
            (PartialSwapFor new_ticker) (next_id db) in
  let buy_row :=
    mkRow (next_id (db ++ [sell_row])) now None
      (stored (with_scores sent dur
                 (with_quantity q
                    (decision new_ticker BUY new_price
                              (SwapBuyVia old_ticker proceeds))))) in
  let buy_o :=
    mkOrder new_ticker buy q ty
            (match ty with limit => Some new_price | market => None end)
            (SwapBuyVia old_ticker proceeds)
            (next_id (db ++ [sell_row])) in
  sound (mkPlanState remaining' (sold_tickers st ++ [old_ticker])
           (orders st ++ sell_o :: (if Qltb 0 q then [buy_o] else [])))
        (if Qltb 0 q then (db ++ [sell_row]) ++ [buy_row]
         else db ++ [sell_row]).
Proof.
  intros Hsq Hnew (Hwf & Hb & Hsold & Hnd) proceeds sell_row sell_o buy_row
         buy_o.
  assert (well_formed sell_o) as Hwf_sell.
  { split; [by apply inject_Z_pos | by eexists]. }
  assert (forall rows, backed ((db ++ [sell_row]) ++ rows) sell_o) as Hb_sell.
  { intros rows. exists sell_row. split; [| done].
    apply elem_of_app. left. apply elem_of_app. right. by constructor. }
  assert (NoDup (sold_tickers st ++ [old_ticker])) as Hnd'.
  { apply NoDup_app. split; [done |]. split; [| apply NoDup_singleton].
    intros x Hx ->%list_elem_of_singleton. by apply in_list_false in Hnew. }
  unfold sound. cbn [orders sold_tickers].
  rewrite List.filter_app, map_app, <- Hsold.
  destruct (Qltb 0 q) eqn:Eq.
  - apply Qltb_lt in Eq. split; [| split; [| split; [| done]]].
    + apply Forall_app. split; [done |].
      constructor; [done |]. constructor; [| constructor].
      split; [done |]. cbn. destruct ty; [by eexists | done].
    + apply Forall_app. split.
      * eapply Forall_impl; [exact Hb |]. intros o.
        apply backed_prefix. rewrite <- app_assoc. by apply prefix_app_r.
      * constructor; [apply Hb_sell |]. constructor; [| constructor].
        exists buy_row. split; [| done].
        apply elem_of_app. right. by constructor.
    + done.
  - split; [| split; [| split; [| done]]].
    + apply Forall_app. split; [done |]. constructor; [done | constructor].
    + apply Forall_app. split.
      * eapply Forall_impl; [exact Hb |]. intros o.
        apply backed_prefix. by apply prefix_app_r.
      * constructor; [| constructor].
        specialize (Hb_sell []). by rewrite app_nil_r in Hb_sell.
    + done.
Qed.

Lemma swap_scan_sound env item new_price candidates : forall st db st' db',
  swap_scan env item new_price candidates st db = (inr st', db') ->
  sound st db -> sound st' db'.
Proof.
  induction candidates as [| c rest IH]; intros st db st' db' H Hs.
  - cbv [swap_scan ret] in H. by simplify_eq.
  - cbn [swap_scan] in H.
    destruct (r_type c); [by eapply IH |].
    destruct (in_list _ _) eqn:Hin; [by eapply IH |].
    destruct (r_qty c) as [old_qty |]; [| done].
    destruct (threshold_met _ _); [| by eapply IH].
    destruct (Z.leb_spec (py_floor (old_qty * (5 # 10))) 0) as [| Hsq];
      [by eapply IH |].
    destruct (r_price c) as [old_price |]; [| done].
    unfold bind at 1 in H. unfold log_decision at 1 in H.
    destruct (size_swap_buy _ new_price) as [q ty].
    pose proof (sound_swap st db (now env) (r_ticker item) (r_ticker c)
                  (py_floor (old_qty * (5 # 10))) old_price new_price
                  (r_sent_score item) (r_dur_score item) q ty) as Hswap.
    unfold bind, log_decision, ret in H.
    destruct (Qltb 0 q) eqn:Eq; simplify_eq; by eapply Hswap.
Qed.

Lemma plan_entry_sound self env chd rank_list item st db st' db' :
  plan_entry self env chd rank_list item st db = (inr st', db') ->
  sound st db -> sound st' db'.
Proof.
  intros H Hs.
  pose proof (grows_plan_entry self env chd rank_list item st db) as Hpre.
  rewrite H in Hpre. cbn [snd] in Hpre.
  unfold plan_entry in H.
  destruct (r_type item); [| cbv [ret] in H; by simplify_eq].
  destruct (if_truthy (r_price item)) as [new_price |];
    [| cbv [ret] in H; by simplify_eq].
  unfold bind at 1 in H. unfold read at 1 in H.
  destruct (is_on_cooldown _ _ _ _).
  { cbv [bind log_decision ret] in H. simplify_eq. by eapply sound_prefix. }
  destruct (_ <=? _)%Z.
  { cbv [bind log_decision ret] in H. simplify_eq. by eapply sound_prefix. }
  destruct (technical_filter _ _ _) as [e | [d |]]; [done | |].
  { cbv [bind log_decision ret] in H. simplify_eq. by eapply sound_prefix. }
  destruct (entry_indicators _) as [[rsi sma_20] sma_50].
  destruct (size_order self (remaining_budget st) new_price)
    as [shares_to_buy | frac_qty |] eqn:Hsize.
  - cbv [bind log_decision ret] in H. simplify_eq.
    destruct Hs as (Hwf & Hb & Hsold & Hnd).
    unfold sound. cbn [orders sold_tickers].
    rewrite List.filter_app, map_app. cbn [List.filter is_sell o_action map].
    rewrite app_nil_r.
    split; [| split; [| done]].
    + apply Forall_app. split; [done |]. constructor; [| constructor].
      split; [| by eexists].
      apply inject_Z_pos. by eapply size_order_whole_pos.
    + apply Forall_app. split.
      * eapply Forall_impl; [exact Hb |]. intros o. by apply backed_prefix.
      * constructor; [| constructor]. eexists.
        split; [apply elem_of_app; right; by constructor | done].
  - cbv [bind log_decision ret] in H. simplify_eq.
    destruct Hs as (Hwf & Hb & Hsold & Hnd).
    unfold sound. cbn [orders sold_tickers].
    rewrite List.filter_app, map_app. cbn [List.filter is_sell o_action map].
    rewrite app_nil_r.
    split; [| split; [| done]].
    + apply Forall_app. split; [done |]. constructor; [| constructor].
      split; [by eapply size_order_fractional | done].
    + apply Forall_app. split.
      * eapply Forall_impl; [exact Hb |]. intros o. by apply backed_prefix.
      * constructor; [| constructor]. eexists.
        split; [apply elem_of_app; right; by constructor | done].
  - by eapply swap_scan_sound.
Qed.

Lemma plan_loop_sound self env chd rank_list items : forall st db st' db',
  plan_loop self env chd rank_list items st db = (inr st', db') ->
  sound st db -> sound st' db'.
Proof.
  induction items as [| item rest IH]; intros st db st' db' H Hs.
  - cbv [plan_loop ret] in H. by simplify_eq.
  - cbn [plan_loop] in H. unfold bind in H.
    destruct (plan_entry _ _ _ _ _ _ _) as [[e | st1] db1] eqn:E; [done |].
    eapply IH; [exact H |]. by eapply plan_entry_sound.
Qed.

End Soundness.

Section CycleSoundness.

Variables (env : Env).

Lemma risk_check_holding_sold_backed self ticker data db o p db1 :
  risk_check_holding self env ticker data db = (inr (Sold o p), db1) ->
  backed db1 o.
Proof.
  intros H.
  destruct (Z.leb_spec (py_int (h_qty data)) 0) as [Hs | Hs].
  { by rewrite risk_check_holding_no_shares in H. }
  destruct (if_truthy (holding_price self env ticker data)) as [cp |] eqn:Hp.
  2: { by rewrite risk_check_holding_no_price in H. }
  rewrite (risk_check_holding_eval _ _ _ _ _ cp Hs Hp) in H.
  destruct (evaluate_triggers _ _ _ _ _ _) as [e | [| h | r]]; try done.
  simplify_eq. eexists.
  split; [apply elem_of_app; right; by constructor | done].
Qed.

Lemma risk_loop_backed self items : forall acc tot db sell_orders tot' db',
  risk_loop self env items acc tot db = (inr (sell_orders, tot'), db') ->
  Forall (backed db) acc -> Forall (backed db') sell_orders.
Proof.
  induction items as [| [t d] rest IH];
    intros acc tot db sell_orders tot' db' H Hacc.
  - cbv [risk_loop ret] in H. by simplify_eq.
  - cbn [risk_loop] in H. unfold bind in H.
    pose proof (grows_risk_check_holding self env t d db) as Hpre.
    destruct (risk_check_holding self env t d db) as [[e | v] db1] eqn:E;
      [done |].
    cbn [snd] in Hpre.
    assert (Forall (backed db1) acc) as Hacc1.
    { eapply Forall_impl; [exact Hacc |]. intros o. by apply backed_prefix. }
    destruct v as [| | | o p]; try (by eapply IH).
    eapply IH; [exact H |]. apply Forall_app. split; [done |].
    constructor; [| constructor]. by eapply risk_check_holding_sold_backed.
Qed.

Lemma dict_set_keys_elem {V} k (v : V) d x :
  x ∈ map fst (dict_set k v d) -> x = k \/ x ∈ map fst d.
Proof.
  induction d as [| [k' v'] rest IH]; cbn [dict_set map fst].
  - intros ->%list_elem_of_singleton. by left.
  - destruct (String.eqb_spec k' k) as [-> | Hne]; cbn [map fst].
    + intros [-> | Hx]%elem_of_cons; [by left |]. right. by constructor.
    + intros [-> | Hx]%elem_of_cons; [right; by constructor |].
      destruct (IH Hx) as [-> | Hin]; [by left |]. right. by constructor.
Qed.

Lemma dict_set_keys_NoDup {V} k (v : V) d :
  NoDup (map fst d) -> NoDup (map fst (dict_set k v d)).
Proof.
  induction d as [| [k' v'] rest IH]; cbn [dict_set map fst]; intros Hnd.
  - apply NoDup_singleton.
  - apply NoDup_cons in Hnd as [Hk' Hnd].
    destruct (String.eqb_spec k' k) as [-> | Hne]; cbn [map fst].
    + by apply NoDup_cons.
    + apply NoDup_cons. split; [| by apply IH].
      intros [-> | Hin]%dict_set_keys_elem; done.
Qed.

(** The holdings of a cycle have distinct tickers. *)
Lemma load_holdings_keys_NoDup self portfolio :
  NoDup (map fst (load_holdings self portfolio).2).
Proof.
  unfold load_holdings.
  destruct (api self) as [client |]; [| constructor].
  destruct (list_positions client) as [positions |].
  - assert (forall acc, NoDup (map fst acc.2) ->
              NoDup (map fst
                (fold_left (fun '(cost_basis_total, chd) p =>
                    (cost_basis_total + qty p * avg_entry_price p,
                     dict_set (symbol p)
                       (mkHolding (qty p) (avg_entry_price p)
                                  (Some (market_value p))
                                  (Some (current_price p))) chd))
                  positions acc).2)) as Hfold.
    { induction positions as [| p rest IH]; intros [cb chd] Hacc; [done |].
      cbn [fold_left]. apply IH. simpl. by apply dict_set_keys_NoDup. }
    apply Hfold. constructor.
  - assert (forall acc, NoDup (map fst acc.2) ->
              NoDup (map fst
                (fold_left (fun '(cost_basis_total, chd) '(ticker, data) =>
                    (cost_basis_total + shares data * buy_price data,
                     dict_set ticker
                       (mkHolding (shares data) (buy_price data) None None)
                       chd))
                  portfolio acc).2)) as Hfold.
    { induction portfolio as [| [t d] rest IH]; intros [cb chd] Hacc; [done |].
      cbn [fold_left]. apply IH. simpl. by apply dict_set_keys_NoDup. }
    apply Hfold. constructor.
Qed.

Lemma whole_limit_sell_well_formed o : is_whole_limit_sell o -> well_formed o.
Proof.
  intros (_ & Hty & Hlp & n & Hn & Hq). split.
  - rewrite Hq. by apply inject_Z_pos.
  - by rewrite Hty.
Qed.

Lemma whole_limit_sells_filter sells :
  Forall is_whole_limit_sell sells -> List.filter is_sell sells = sells.
Proof.
  induction 1 as [| o l (Ha & _) _ IH]; [done |].
  cbn [List.filter]. unfold is_sell at 1. rewrite Ha. by f_equal.
Qed.

(** A plan that is returned is the list of orders of a sound state. *)
Lemma generate_plan_sound self sentiment_data portfolio env_bias macro_reason
    db plan self' db' :
  generate_plan self env sentiment_data portfolio env_bias macro_reason db
    = (inr plan, self', db') ->
  exists st, plan = orders st /\ sound st db'.
Proof.
  intros H. unfold generate_plan in H.
  pose proof (load_holdings_keys_NoDup
                (enter_mode self env_bias macro_reason) portfolio) as Hkeys.
  destruct (load_holdings _ _) as [cost_basis_total chd]. cbn [snd] in Hkeys.
  destruct (rank_new_signals _ _ _ _ _ _)
    as [[e | [self2 new_entries]] db1]; [done |].
  destruct (plan_orders _ _ _ _ _ _) as [res db2] eqn:Eplan.
  simplify_eq.
  unfold plan_orders in Eplan.
  unfold bind at 1 in Eplan. unfold read at 1 in Eplan.
  unfold bind at 1 in Eplan.
  destruct (check_portfolio_risks self' env chd db1)
    as [[e | [risk_sells risk_proceeds]] db_r] eqn:Erisk; [done |].
  unfold bind in Eplan.
  destruct (plan_loop _ _ _ _ _ _ _) as [[e | st] db_f] eqn:Eloop; [done |].
  cbv [ret] in Eplan. simplify_eq.
  exists st. split; [done |].
  eapply plan_loop_sound; [exact Eloop |].
  unfold check_portfolio_risks in Erisk.
  pose proof Erisk as Hshape.
  apply risk_loop_shape in Hshape as (new & Hnew & Hsub & _ & Hall).
  cbn [app] in Hnew. subst new.
  apply risk_loop_backed in Erisk; [| constructor].
  unfold sound. cbn [orders sold_tickers].
  rewrite whole_limit_sells_filter by done.
  repeat split; try done.
  - eapply Forall_impl; [exact Hall |]. apply whole_limit_sell_well_formed.
  - by eapply sublist_NoDup.
Qed.

End CycleSoundness.

(** X19. Every order of a plan is one a broker can take and is backed by
    the ledger: its quantity is positive, a limit order carries a limit
    price, a market order is a buy without one, and the decision id it
    carries is the id of a row logged for the same ticker, action (BUY for
    a buy, SELL for a sell), quantity and reason. *)
Theorem planned_orders_are_well_formed_and_logged
    (self : TradingLogic) (env : Env) (sentiment_data : list Signal)
    (portfolio : list (string * PortfolioPosition))
    (env_bias : Q) (macro_reason : string) (db : list Row)
    (plan : list Order) (self' : TradingLogic) (db' : list Row) :
  generate_plan self env sentiment_data portfolio env_bias macro_reason db
    = (inr plan, self', db') ->
  Forall well_formed plan /\ Forall (backed db') plan.
Proof.
  intros H. apply generate_plan_sound in H as (st & -> & Hwf & Hb & _).
  done.
Qed.

Lemma planned_orders_are_well_formed_and_logged_witness :
  Forall well_formed Sample.invested_plan
  /\ Forall (backed (Sample.plan_for Sample.invested "NEW").2)
            Sample.invested_plan.
Proof.
  apply (planned_orders_are_well_formed_and_logged
           (Sample.engine (Some Sample.invested)) Sample.nobody
           [Sample.buy_signal "NEW"] [] 1 ""%string []
           Sample.invested_plan
           (Sample.plan_for Sample.invested "NEW").1.2).
  vm_compute. reflexivity.
Defined.

(** X20. No ticker is sold twice in one plan: the sell orders of a plan,
    risk sells and swap sells together, are for distinct tickers, so a
    holding ends a cycle sold by the risk check or by one swap, never
    both, and is swapped at most once. *)
Theorem no_ticker_is_sold_twice
    (self : TradingLogic) (env : Env) (sentiment_data : list Signal)
    (portfolio : list (string * PortfolioPosition))
    (env_bias : Q) (macro_reason : string) (db : list Row)
    (plan : list Order) (self' : TradingLogic) (db' : list Row) :
  generate_plan self env sentiment_data portfolio env_bias macro_reason db
    = (inr plan, self', db') ->
  NoDup (map o_ticker (List.filter is_sell plan)).
Proof.
  intros H. apply generate_plan_sound in H as (st & -> & _ & _ & Hsold & Hnd).
  by rewrite <- Hsold.
Qed.

Lemma no_ticker_is_sold_twice_witness :
  NoDup (map o_ticker (List.filter is_sell Sample.invested_plan)).
Proof.
  apply (no_ticker_is_sold_twice
           (Sample.engine (Some Sample.invested)) Sample.nobody
           [Sample.buy_signal "NEW"] [] 1 ""%string []
           Sample.invested_plan
           (Sample.plan_for Sample.invested "NEW").1.2
           (Sample.plan_for Sample.invested "NEW").2).
  vm_compute. reflexivity.
Defined.

(** ** The fractional gap-filler and its rounding *)

Section GapFill.

(** [round(x, 4)] is within half a step of [x]. *)
Lemma py_round4_near x :
  py_round4 x - x <= 1 # 20000 /\ x - py_round4 x <= 1 # 20000.
Proof.
  unfold py_round4, Qdiv. change (/ 10000) with (1 # 10000).
  pose proof (Qfloor_le (x * 10000)) as Hlo.
  pose proof (Qlt_floor (x * 10000)) as Hhi.
  rewrite inject_Z_plus in Hhi. change (inject_Z 1) with 1 in Hhi.
  assert (forall n : Z, inject_Z (n + 1) == inject_Z n + 1) as Hsucc.
  { intros n. rewrite inject_Z_plus. reflexivity. }
  set (f := Qfloor (x * 10000)) in *.
  destruct (Qltb (x * 10000 - inject_Z f) (1 # 2)) eqn:E1.
  { apply Qltb_lt in E1. set (F := inject_Z f) in *. clearbody F.
    split; lra. }
  apply Qltb_ge in E1.
  destruct (Qltb (1 # 2) (x * 10000 - inject_Z f)) eqn:E2.
  { rewrite Hsucc. set (F := inject_Z f) in *. clearbody F. split; lra. }
  apply Qltb_ge in E2.
  destruct (Z.even f).
  - set (F := inject_Z f) in *. clearbody F. split; lra.
  - rewrite Hsucc. set (F := inject_Z f) in *. clearbody F. split; lra.
Qed.

(** Below 1, [round(x, 4)] is at most 1. *)
Lemma py_round4_below_1 x : x < 1 -> py_round4 x <= 1.
Proof.
  intros Hx. unfold py_round4, Qdiv. change (/ 10000) with (1 # 10000).
  pose proof (Qfloor_le (x * 10000)) as Hlo.
  set (f := Qfloor (x * 10000)) in *.
  assert (f < 10000)%Z as Hf.
  { rewrite Zlt_Qlt. change (inject_Z 10000) with 10000.
    eapply Qle_lt_trans; [exact Hlo |]. lra. }
  set (n := if Qltb _ _ then _ else _).
  assert (n <= 10000)%Z as Hn.
  { subst n. repeat case_match; lia. }
  rewrite Zle_Qle in Hn. change (inject_Z 10000) with 10000 in Hn.
  set (N := inject_Z n) in *. clearbody N. lra.
Qed.

End GapFill.

(** X21. The fractional gap-filler can overdraw the budget it fills, by
    rounding alone: the quantity is [remaining_budget / price] rounded to
    four places, so it is positive and at most one share (a rounded-up
    quantity of exactly one share is possible), and its cost lies within
    [price / 20000] of the remaining budget, on either side. *)
Theorem gap_fill_misses_the_budget_by_rounding_only
    (self : TradingLogic) (remaining new_price frac_qty : Q) :
  size_order self remaining new_price = FractionalShares frac_qty ->
  0 < frac_qty /\ frac_qty <= 1
  /\ frac_qty * new_price <= remaining + new_price * (1 # 20000)
  /\ remaining - new_price * (1 # 20000) <= frac_qty * new_price.
Proof.
  intros H. unfold size_order in H.
  destruct (Qleb 1 _ && Qleb new_price remaining).
  { set (s1 := if (py_floor _ =? 0)%Z then _ else _) in H.
    destruct (0 <? s1)%Z; [| done].
    by destruct (0 <? _)%Z. }
  destruct (_ && _) eqn:Hc; [| done].
  apply andb_true_iff in Hc as [[[_ _]%andb_true_iff Hpos%Qltb_lt]%andb_true_iff
                                 Hlt%Qltb_lt].
  destruct (Qltb 0 _) eqn:E; [| done]. apply Qltb_lt in E.
  injection H as <-.
  assert (0 < new_price) as Hp by lra.
  assert (remaining / new_price * new_price == remaining) as Hx.
  { field. lra. }
  assert (remaining / new_price < 1) as Hx1.
  { apply Qlt_shift_div_r; lra. }
  destruct (py_round4_near (remaining / new_price)) as [Hup Hdown].
  pose proof (py_round4_below_1 _ Hx1) as Hle.
  set (x := remaining / new_price) in *. set (q := py_round4 x) in *.
  clearbody q x.
  assert ((q - x) * new_price <= (1 # 20000) * new_price) as H1
    by (apply Qmult_le_compat_r; lra).
  assert ((x - q) * new_price <= (1 # 20000) * new_price) as H2
    by (apply Qmult_le_compat_r; lra).
  assert (q * new_price == (q - x) * new_price + remaining) as Hq1
    by (rewrite <- Hx; ring).
  assert (q * new_price == remaining - (x - q) * new_price) as Hq2
    by (rewrite <- Hx; ring).
  set (a := (q - x) * new_price) in *. set (b := (x - q) * new_price) in *.
  set (c := q * new_price) in *. clearbody a b c.
  repeat split; try done; lra.
Qed.

Lemma gap_fill_misses_the_budget_by_rounding_only_witness :
  0 < py_round4 (200 / 300) /\ py_round4 (200 / 300) <= 1
  /\ py_round4 (200 / 300) * 300 <= 200 + 300 * (1 # 20000)
  /\ 200 - 300 * (1 # 20000) <= py_round4 (200 / 300) * 300.
Proof.
  apply (gap_fill_misses_the_budget_by_rounding_only
           (Sample.engine None) 200 300).
  vm_compute. reflexivity.
Defined.

(** ** The validation cache across cycles *)

Section CacheGrowth.

Lemma validate_ticker_cache self ticker :
  _ticker_cache self ⊆ _ticker_cache (validate_ticker self ticker).2.
Proof.
  unfold validate_ticker.
  destruct (_ticker_cache self !! ticker) eqn:E; [done |].
  destruct (api self) as [client |]; [destruct (get_asset client ticker) |];
    cbn [snd set_ticker_cache _ticker_cache]; by apply insert_subseteq.
Qed.

Lemma add_new_signals_cache env sentiment_data :
  forall self rank_list db self' entries db',
  add_new_signals self env sentiment_data rank_list db
    = (inr (self', entries), db') ->
  _ticker_cache self ⊆ _ticker_cache self'.
Proof.
  induction sentiment_data as [| signal rest IH];
    intros self rank_list db self' entries db' H.
  - cbv [add_new_signals ret] in H. by simplify_eq.
  - cbn [add_new_signals] in H.
    destruct (is_Buy (sig_action signal)); [| by eapply IH].
    pose proof (validate_ticker_cache self (sig_ticker signal)) as Hv.
    destruct (validate_ticker self (sig_ticker signal)) as [ok self1].
    cbn [snd] in Hv.
    destruct ok; cbn [negb] in H.
    + etrans; [exact Hv |]. by eapply IH.
    + unfold bind, log_decision in H. cbn [fst snd] in H.
      etrans; [exact Hv |]. by eapply IH.
Qed.

Lemma generate_plan_cache self env sentiment_data portfolio env_bias
    macro_reason db :
  _ticker_cache self
  ⊆ _ticker_cache
      (generate_plan self env sentiment_data portfolio env_bias macro_reason
         db).1.2.
Proof.
  unfold generate_plan.
  destruct (load_holdings _ _) as [cost_basis_total chd].
  destruct (rank_new_signals _ _ _ _ _ _)
    as [[e | [self2 new_entries]] db1] eqn:E; [done |].
  destruct (plan_orders _ _ _ _ _ _) as [res db2]. cbn [fst snd].
  unfold rank_new_signals in E.
  destruct (_ || _).
  - cbv [bind log_decision ret] in E. by simplify_eq.
  - by apply add_new_signals_cache in E.
Qed.

Lemma run_cycles_cache cycles : forall self,
  _ticker_cache self ⊆ _ticker_cache (run_cycles self cycles).
Proof.
  induction cycles as [| c rest IH]; intros self; [done |].
  cbn [run_cycles]. etrans; [| apply IH].
  etrans; [| apply generate_plan_cache]. by destruct self.
Qed.

End CacheGrowth.

(** X22. A verdict of [validate_ticker] is final for the instance: once a
    ticker is in the validation cache, no number of later calls of
    [generate_plan], with whatever the broker answers by then, changes
    the answer.  A ticker rejected because its lookup raised stays
    rejected after the broker has recovered. *)
Theorem a_cached_verdict_is_final
    (self : TradingLogic) (cycles : list Cycle) (ticker : string)
    (verdict : bool) (client : AlpacaApi) :
  _ticker_cache self !! ticker = Some verdict ->
  (validate_ticker (with_client client (run_cycles self cycles)) ticker).1
  = verdict.
Proof.
  intros H.
  pose proof (run_cycles_cache cycles self) as Hsub.
  eapply lookup_weaken in Hsub; [| exact H].
  unfold validate_ticker. cbn [with_client _ticker_cache].
  by rewrite Hsub.
Qed.

(** ** What a plan may trade *)

Section Justified.

Variables (env : Env) (chd : list (string * Holding))
          (sentiment_data : list Signal).

Lemma py_int_le q : (0 < py_int q)%Z -> inject_Z (py_int q) <= q.
Proof.
  destruct q as [n d]. unfold py_int. cbn [Qnum Qden]. intros H.
  destruct (Z.lt_ge_cases n 0) as [Hneg | Hpos].
  - pose proof (Z.quot_pos (- n) (Z.pos d)) as Hq.
    rewrite Z.quot_opp_l in Hq by lia. lia.
  - rewrite Z.quot_div_nonneg by lia. apply (Qfloor_le (n # d)).
Qed.

Lemma half_floor_le q :
  (0 < py_floor (q * (5 # 10)))%Z -> inject_Z (py_floor (q * (5 # 10))) <= q.
Proof.
  intros H%inject_Z_pos. unfold py_floor in *.
  pose proof (Qfloor_le (q * (5 # 10))) as Hle.
  set (F := inject_Z _) in *. clearbody F. lra.
Qed.

Lemma risk_sells_held self items : forall acc tot db sell_orders tot' db',
  risk_loop self env items acc tot db = (inr (sell_orders, tot'), db') ->
  Forall (held_by items) acc -> Forall (held_by items) sell_orders.
Proof.
  intros acc tot db sell_orders tot' db' H Hacc.
  apply risk_loop_sells in H as (new & -> & Hnew).
  apply Forall_app. split; [done |].
  eapply Forall_impl; [exact Hnew |].
  intros o (t & d & db0 & db1 & p & Hin & Hsold).
  apply risk_check_holding_sold in Hsold
    as (cp & reason & Hshares & _ & _ & -> & _).
  exists d. split; [done |]. by apply py_int_le.
Qed.

Lemma holding_entries_ranked self db :
  Forall (ranked_from chd sentiment_data) (holding_entries self env chd db).
Proof.
  unfold holding_entries.
  assert (forall l, l ⊆ chd ->
            Forall (ranked_from chd sentiment_data)
              (omap (fun '(ticker, data) =>
                 if Qltb 0 (h_qty data) then
                   let '(last_sent, last_dur) := get_latest_scores ticker db in
                   Some (mkRankEntry ticker holding (last_sent * last_dur)
                           last_sent last_dur (fetch_price self env ticker)
                           (Some (h_qty data)))
                 else None) l)) as Hgen.
  { induction l as [| [t d] rest IH]; intros Hsub; [constructor |].
    cbn [omap list_omap].
    assert (rest ⊆ chd) as Hrest.
    { intros x Hx. apply Hsub. by constructor. }
    destruct (Qltb 0 (h_qty d)); [| by apply IH].
    destruct (get_latest_scores t db). constructor; [| by apply IH].
    exists d. split; [| done]. apply Hsub. by constructor. }
  by apply Hgen.
Qed.

Lemma add_new_signals_ranked signals :
  forall self rank_list db self' entries db',
  add_new_signals self env signals rank_list db
    = (inr (self', entries), db') ->
  signals ⊆ sentiment_data ->
  Forall (ranked_from chd sentiment_data) rank_list ->
  Forall (ranked_from chd sentiment_data) entries.
Proof.
  induction signals as [| signal rest IH];
    intros self rank_list db self' entries db' H Hsub Hrl.
  - cbv [add_new_signals ret] in H. by simplify_eq.
  - assert (rest ⊆ sentiment_data) as Hrest.
    { intros x Hx. apply Hsub. by constructor. }
    cbn [add_new_signals] in H.
    destruct (is_Buy (sig_action signal)) eqn:Hbuy; [| by eapply IH].
    destruct (validate_ticker self (sig_ticker signal)) as [ok self1].
    destruct ok; cbn [negb] in H.
    + eapply IH; [exact H | done |].
      apply Forall_app. split; [done |]. constructor; [| constructor].
      unfold ranked_from, signalled, buy_signals. cbn [r_type r_ticker].
      apply list_elem_of_In, in_map, filter_In. split; [| done].
      apply list_elem_of_In, Hsub. by constructor.
    + unfold bind, log_decision in H. cbn [fst snd] in H. by eapply IH.
Qed.

Lemma swap_scan_justified item new_price candidates :
  forall st db st' db',
  swap_scan env item new_price candidates st db = (inr st', db') ->
  signalled sentiment_data (r_ticker item) ->
  Forall (ranked_from chd sentiment_data) candidates ->
  Forall (justified chd sentiment_data) (orders st) ->
  Forall (justified chd sentiment_data) (orders st').
Proof.
  induction candidates as [| c rest IH];
    intros st db st' db' H Hitem Hc Hs.
  - cbv [swap_scan ret] in H. by simplify_eq.
  - apply Forall_cons in Hc as [Hc Hrest].
    cbn [swap_scan] in H. unfold ranked_from in Hc.
    destruct (r_type c); [by eapply IH |].
    destruct Hc as (data & Hin & Hqty).
    destruct (in_list _ _); [by eapply IH |].
    rewrite Hqty in H.
    destruct (threshold_met _ _); [| by eapply IH].
    destruct (Z.leb_spec (py_floor (h_qty data * (5 # 10))) 0) as [| Hsq];
      [by eapply IH |].
    destruct (r_price c) as [old_price |]; [| done].
    unfold bind at 1 in H. unfold log_decision at 1 in H.
    destruct (size_swap_buy _ new_price) as [q ty].
    unfold bind, log_decision, ret in H.
    assert (justified chd sentiment_data
              (mkOrder (r_ticker c) sell
                 (inject_Z (py_floor (h_qty data * (5 # 10)))) limit
                 (Some old_price) (PartialSwapFor (r_ticker item))
                 (next_id db))) as Hsell.
    { exists data. split; [done |]. by apply half_floor_le. }
    destruct (Qltb 0 q); simplify_eq; cbn [orders];
      apply Forall_app; (split; [done |]);
      repeat (constructor; [done |]); constructor.
Qed.

Lemma plan_entry_justified self rank_list item st db st' db' :
  plan_entry self env chd rank_list item st db = (inr st', db') ->
  ranked_from chd sentiment_data item ->
  Forall (ranked_from chd sentiment_data) rank_list ->
  Forall (justified chd sentiment_data) (orders st) ->
  Forall (justified chd sentiment_data) (orders st').
Proof.
  intros H Hitem Hrl Hs.
  unfold plan_entry in H. unfold ranked_from in Hitem.
  destruct (r_type item); [| cbv [ret] in H; by simplify_eq].
  destruct (if_truthy (r_price item)) as [new_price |];
    [| cbv [ret] in H; by simplify_eq].
  unfold bind at 1 in H. unfold read at 1 in H.
  destruct (is_on_cooldown _ _ _ _).
  { cbv [bind log_decision ret] in H. by simplify_eq. }
  destruct (_ <=? _)%Z.
  { cbv [bind log_decision ret] in H. by simplify_eq. }
  destruct (technical_filter _ _ _) as [e | [d |]]; [done | |].
  { cbv [bind log_decision ret] in H. by simplify_eq. }
  destruct (entry_indicators _) as [[rsi sma_20] sma_50].
  destruct (size_order self (remaining_budget st) new_price)
    as [shares_to_buy | frac_qty |].
  - cbv [bind log_decision ret] in H. simplify_eq. cbn [orders].
    apply Forall_app. split; [done |]. by constructor.
  - cbv [bind log_decision ret] in H. simplify_eq. cbn [orders].
    apply Forall_app. split; [done |]. by constructor.
  - eapply swap_scan_justified; [exact H | done | | done].
    by apply Forall_rev.
Qed.

Lemma plan_loop_justified self rank_list items : forall st db st' db',
  plan_loop self env chd rank_list items st db = (inr st', db') ->
  Forall (ranked_from chd sentiment_data) items ->
  Forall (ranked_from chd sentiment_data) rank_list ->
  Forall (justified chd sentiment_data) (orders st) ->
  Forall (justified chd sentiment_data) (orders st').
Proof.
  induction items as [| item rest IH]; intros st db st' db' H Hi Hrl Hs.
  - cbv [plan_loop ret] in H. by simplify_eq.
  - apply Forall_cons in Hi as [Hitem Hrest].
    cbn [plan_loop] in H. unfold bind in H.
    destruct (plan_entry _ _ _ _ _ _ _) as [[e | st1] db1] eqn:E; [done |].
    eapply IH; [exact H | done | done |]. by eapply plan_entry_justified.
Qed.

Lemma justified_split plan :
  Forall (justified chd sentiment_data) plan ->
  Forall (held_by chd) (List.filter is_sell plan)
  /\ Forall (fun o => signalled sentiment_data (o_ticker o))
            (List.filter (fun o => negb (is_sell o)) plan).
Proof.
  induction 1 as [| o l Ho _ [IHs IHb]]; [by split |].
  cbn [List.filter]. unfold justified in Ho.
  assert (is_sell o = match o_action o with sell => true | buy => false end)
    as -> by done.
  destruct (o_action o); cbn [negb]; split; try done; by constructor.
Qed.

End Justified.

Lemma generate_plan_justified self env sentiment_data portfolio env_bias
    macro_reason db plan self' db' :
  generate_plan self env sentiment_data portfolio env_bias macro_reason db
    = (inr plan, self', db') ->
  Forall (justified
            (load_holdings (enter_mode self env_bias macro_reason) portfolio).2
            sentiment_data) plan.
Proof.
  intros H. unfold generate_plan in H.
  destruct (load_holdings _ _) as [cost_basis_total chd]. cbn [snd].
  destruct (rank_new_signals _ _ _ _ _ _)
    as [[e | [self2 new_entries]] db1] eqn:Erank; [done |].
  destruct (plan_orders _ _ _ _ _ _) as [res db2] eqn:Eplan.
  simplify_eq.
  assert (Forall (ranked_from chd sentiment_data) new_entries) as Hnew.
  { unfold rank_new_signals in Erank. destruct (_ || _).
    - cbv [bind log_decision ret] in Erank. simplify_eq. constructor.
    - eapply add_new_signals_ranked; [exact Erank | done | constructor]. }
  unfold plan_orders in Eplan.
  unfold bind at 1 in Eplan. unfold read at 1 in Eplan.
  unfold bind at 1 in Eplan.
  destruct (check_portfolio_risks self' env chd db1)
    as [[e | [risk_sells risk_proceeds]] db_r] eqn:Erisk; [done |].
  unfold bind in Eplan.
  destruct (plan_loop _ _ _ _ _ _ _) as [[e | st] db_f] eqn:Eloop; [done |].
  cbv [ret] in Eplan. simplify_eq.
  assert (Forall (ranked_from chd sentiment_data)
            (sort_desc (new_entries ++ holding_entries self' env chd db1)))
    as Hrl.
  { apply sort_desc_Forall, Forall_app. split; [done |].
    apply holding_entries_ranked. }
  eapply plan_loop_justified; [exact Eloop | done | done |].
  cbn [orders]. unfold check_portfolio_risks in Erisk.
  pose proof Erisk as Hshape.
  apply risk_loop_shape in Hshape as (new & Hnew' & _ & _ & Hall).
  cbn [app] in Hnew'. subst new.
  apply risk_sells_held in Erisk; [| constructor].
  apply Forall_forall. intros o Ho.
  rewrite Forall_forall in Erisk, Hall.
  unfold justified. destruct (Hall o Ho) as (-> & _). by apply Erisk.
Qed.

(** X23. A plan trades only what it may.  Every sell order, from the risk
    check or from a swap, is for a ticker among the holdings the cycle
    loaded and for no more than the quantity held there; every buy order
    is for the ticker of a Buy signal of this cycle's sentiment data.
    With one sell at most per ticker, no holding is oversold. *)
Theorem a_plan_sells_holdings_and_buys_signals
    (self : TradingLogic) (env : Env) (sentiment_data : list Signal)
    (portfolio : list (string * PortfolioPosition))
    (env_bias : Q) (macro_reason : string) (db : list Row)
    (plan : list Order) (self' : TradingLogic) (db' : list Row) :
  generate_plan self env sentiment_data portfolio env_bias macro_reason db
    = (inr plan, self', db') ->
  let chd :=
    (load_holdings (enter_mode self env_bias macro_reason) portfolio).2 in
  Forall (held_by chd) (List.filter is_sell plan)
  /\ Forall (fun o => signalled sentiment_data (o_ticker o))
            (List.filter (fun o => negb (is_sell o)) plan).
Proof.
  intros H chd. apply justified_split. subst chd.
  by eapply generate_plan_justified.
Qed.

Lemma a_plan_sells_holdings_and_buys_signals_witness :
  Forall (held_by Sample.invested_holdings)
         (List.filter is_sell Sample.invested_plan)
  /\ Forall (fun o => signalled [Sample.buy_signal "NEW"] (o_ticker o))
            (List.filter (fun o => negb (is_sell o)) Sample.invested_plan).
Proof.
  apply (a_plan_sells_holdings_and_buys_signals
           (Sample.engine (Some Sample.invested)) Sample.nobody
           [Sample.buy_signal "NEW"] [] 1 ""%string []
           Sample.invested_plan
           (Sample.plan_for Sample.invested "NEW").1.2
           (Sample.plan_for Sample.invested "NEW").2).
  vm_compute. reflexivity.
Defined.

Lemma a_cached_verdict_is_final_witness :
  (validate_ticker
     (with_client (Sample.broker None)
        (run_cycles
           (validate_ticker (Sample.engine (Some Sample.broker_down)) "NVDA").2
           [mkCycle (Sample.broker None) Sample.nobody []
                    [Sample.buy_signal "NVDA"] [] 1 "calm"]))
     "NVDA").1
  = false.
Proof.
  apply (a_cached_verdict_is_final
           (validate_ticker (Sample.engine (Some Sample.broker_down)) "NVDA").2).
  vm_compute. reflexivity.
Defined.

(** ** Cooldown within and across cycles *)

Section Cooled.

Variables (now : Q) (db0 : list Row).

Lemma cooldown_prefix t db db' :
  db `prefix_of` db' ->
  is_on_cooldown now t 4 db = true -> is_on_cooldown now t 4 db' = true.
Proof.
  intros [rows ->] H. by rewrite is_on_cooldown_app, H.
Qed.

Lemma cooldown_prefix_false t db db' :
  db `prefix_of` db' ->
  is_on_cooldown now t 4 db' = false -> is_on_cooldown now t 4 db = false.
Proof.
  intros Hpre H. destruct (is_on_cooldown now t 4 db) eqn:E; [| done].
  by rewrite (cooldown_prefix _ _ _ Hpre E) in H.
Qed.

Lemma logged_buy_cools d db i :
  d_action d = BUY ->
  is_on_cooldown now (d_ticker d) 4 (db ++ [mkRow i now None (stored d)])
  = true.
Proof.
  intros Hbuy. rewrite is_on_cooldown_app.
  apply orb_true_iff. right. unfold is_on_cooldown.
  cbn [existsb row_data row_timestamp stored d_ticker d_action
       not_rejected row_execution_status].
  rewrite String.eqb_refl, Hbuy. cbn [is_BUY andb].
  assert (Qltb (now - 4 * 3600) now = true) as ->; [| done].
  apply Qltb_lt. lra.
Qed.

Lemma bought_app a b : bought (a ++ b) = bought a ++ bought b.
Proof. unfold bought. by rewrite List.filter_app, map_app. Qed.

Lemma bought_sells sells :
  Forall is_whole_limit_sell sells -> bought sells = [].
Proof.
  induction 1 as [| o l (Ha & _) _ IH]; [done |].
  unfold bought in *. cbn [List.filter]. unfold is_sell at 1.
  by rewrite Ha.
Qed.

Lemma cooled_grow db db' plan :
  db `prefix_of` db' -> cooled now db0 db plan -> cooled now db0 db' plan.
Proof.
  intros Hpre (H0 & Hall & Hnd). split; [by etrans |]. split; [| done].
  eapply Forall_impl; [exact Hall |]. intros t [Hoff Hon].
  split; [done |]. by eapply cooldown_prefix.
Qed.

Lemma cooled_sell db plan o :
  o_action o = sell -> cooled now db0 db plan -> cooled now db0 db (plan ++ [o]).
Proof.
  intros Ha Hc. unfold cooled. rewrite bought_app.
  assert (bought [o] = []) as ->.
  { unfold bought. cbn [List.filter]. unfold is_sell. by rewrite Ha. }
  by rewrite app_nil_r.
Qed.

Lemma cooled_not_bought db plan t :
  cooled now db0 db plan -> is_on_cooldown now t 4 db = false ->
  t ∉ bought plan.
Proof.
  intros (_ & Hall & _) Hoff Hin.
  rewrite Forall_forall in Hall. destruct (Hall t Hin) as [_ Hon].
  by rewrite Hon in Hoff.
Qed.

Lemma cooled_buy db db' plan o :
  o_action o = buy ->
  is_on_cooldown now (o_ticker o) 4 db = false ->
  db `prefix_of` db' ->
  is_on_cooldown now (o_ticker o) 4 db' = true ->
  cooled now db0 db plan -> cooled now db0 db' (plan ++ [o]).
Proof.
  intros Ha Hoff Hpre Hon Hc.
  pose proof (cooled_not_bought _ _ _ Hc Hoff) as Hnew.
  pose proof Hc as (H0 & _ & _).
  apply (cooled_grow _ _ _ Hpre) in Hc as (H0' & Hall & Hnd).
  unfold cooled. rewrite bought_app.
  assert (bought [o] = [o_ticker o]) as ->.
  { unfold bought. cbn [List.filter]. unfold is_sell. by rewrite Ha. }
  split; [done |]. split.
  - apply Forall_app. split; [done |]. constructor; [| constructor].
    split; [| done]. by eapply cooldown_prefix_false.
  - apply NoDup_app. split; [done |]. split; [| apply NoDup_singleton].
    by intros t Ht ->%list_elem_of_singleton.
Qed.

End Cooled.

Section CooledCycle.

Variables (env : Env) (db0 : list Row).

Lemma swap_scan_cooled item new_price candidates : forall st db st' db',
  swap_scan env item new_price candidates st db = (inr st', db') ->
  is_on_cooldown (now env) (r_ticker item) 4 db = false ->
  cooled (now env) db0 db (orders st) ->
  cooled (now env) db0 db' (orders st').
Proof.
  induction candidates as [| c rest IH]; intros st db st' db' H Hoff Hc.
  - cbv [swap_scan ret] in H. by simplify_eq.
  - cbn [swap_scan] in H.
    destruct (r_type c); [by eapply IH |].
    destruct (in_list _ _); [by eapply IH |].
    destruct (r_qty c) as [old_qty |]; [| done].
    destruct (threshold_met _ _); [| by eapply IH].
    destruct (py_floor (old_qty * (5 # 10)) <=? 0)%Z; [by eapply IH |].
    destruct (r_price c) as [old_price |]; [| done].
    unfold bind at 1 in H. unfold log_decision at 1 in H.
    destruct (size_swap_buy _ new_price) as [q ty].
    unfold bind, log_decision, ret in H.
    destruct (Qltb 0 q); simplify_eq; cbn [orders].
    + match goal with
      | |- cooled _ _ _ (?a ++ [?s; ?b]) =>
          change (a ++ [s; b]) with (a ++ [s] ++ [b]); rewrite app_assoc
      end.
      eapply cooled_buy; [done | | | | apply cooled_sell; [done | exact Hc]].
      * exact Hoff.
      * rewrite <- app_assoc. by apply prefix_app_r.
      * cbn [o_ticker].
        apply (logged_buy_cools (now env)
                 (with_scores (r_sent_score item) (r_dur_score item)
                    (with_quantity q
                       (decision (r_ticker item) BUY new_price
                          (SwapBuyVia (r_ticker c)
                             (inject_Z (py_floor (old_qty * (5 # 10)))
                              * old_price)))))).
        done.
    + apply cooled_sell; [done |].
      eapply cooled_grow; [| exact Hc]. by apply prefix_app_r.
Qed.

Lemma plan_entry_cooled self chd rank_list item st db st' db' :
  plan_entry self env chd rank_list item st db = (inr st', db') ->
  cooled (now env) db0 db (orders st) ->
  cooled (now env) db0 db' (orders st').
Proof.
  intros H Hc.
  pose proof (grows_plan_entry self env chd rank_list item st db) as Hpre.
  rewrite H in Hpre. cbn [snd] in Hpre.
  unfold plan_entry in H.
  destruct (r_type item); [| cbv [ret] in H; by simplify_eq].
  destruct (if_truthy (r_price item)) as [new_price |];
    [| cbv [ret] in H; by simplify_eq].
  unfold bind at 1 in H. unfold read at 1 in H.
  destruct (is_on_cooldown _ _ _ _) eqn:Hoff.
  { cbv [bind log_decision ret] in H. simplify_eq. by eapply cooled_grow. }
  destruct (_ <=? _)%Z.
  { cbv [bind log_decision ret] in H. simplify_eq. by eapply cooled_grow. }
  destruct (technical_filter _ _ _) as [e | [d |]]; [done | |].
  { cbv [bind log_decision ret] in H. simplify_eq. by eapply cooled_grow. }
  destruct (entry_indicators _) as [[rsi sma_20] sma_50].
  destruct (size_order self (remaining_budget st) new_price)
    as [shares_to_buy | frac_qty |].
  - cbv [bind log_decision ret] in H. simplify_eq. cbn [orders].
    eapply cooled_buy; [done | exact Hoff | done | | exact Hc].
    cbn [o_ticker].
    apply (logged_buy_cools (now env)
             (with_sma_50 sma_50 (with_sma_20 sma_20 (with_rsi rsi
                (with_scores (r_sent_score item) (r_dur_score item)
                   (with_quantity (inject_Z shares_to_buy)
                      (decision (r_ticker item) BUY new_price
                         (HolisticBuy (r_rank_score item))))))))).
    done.
  - cbv [bind log_decision ret] in H. simplify_eq. cbn [orders].
    eapply cooled_buy; [done | exact Hoff | done | | exact Hc].
    cbn [o_ticker].
    apply (logged_buy_cools (now env)
             (with_sma_50 sma_50 (with_sma_20 sma_20 (with_rsi rsi
                (with_scores (r_sent_score item) (r_dur_score item)
                   (with_quantity frac_qty
                      (decision (r_ticker item) BUY new_price
                         (FractionalGapFill (r_rank_score item)
                            frac_qty)))))))).
    done.
  - by eapply swap_scan_cooled.
Qed.

Lemma plan_loop_cooled self chd rank_list items : forall st db st' db',
  plan_loop self env chd rank_list items st db = (inr st', db') ->
  cooled (now env) db0 db (orders st) ->
  cooled (now env) db0 db' (orders st').
Proof.
  induction items as [| item rest IH]; intros st db st' db' H Hc.
  - cbv [plan_loop ret] in H. by simplify_eq.
  - cbn [plan_loop] in H. unfold bind in H.
    destruct (plan_entry _ _ _ _ _ _ _) as [[e | st1] db1] eqn:E; [done |].
    eapply IH; [exact H |]. by eapply plan_entry_cooled.
Qed.

End CooledCycle.

Lemma generate_plan_cooled self env sentiment_data portfolio env_bias
    macro_reason db plan self' db' :
  generate_plan self env sentiment_data portfolio env_bias macro_reason db
    = (inr plan, self', db') ->
  cooled (now env) db db' plan.
Proof.
  intros H. unfold generate_plan in H.
  destruct (load_holdings _ _) as [cost_basis_total chd].
  pose proof (grows_rank_new_signals
                (enter_mode self env_bias macro_reason) env sentiment_data
                env_bias macro_reason db) as Hg1.
  destruct (rank_new_signals _ _ _ _ _ _)
    as [[e | [self2 new_entries]] db1]; [done |].
  cbn [snd] in Hg1.
  destruct (plan_orders _ _ _ _ _ _) as [res db2] eqn:Eplan.
  simplify_eq.
  unfold plan_orders in Eplan.
  unfold bind at 1 in Eplan. unfold read at 1 in Eplan.
  unfold bind at 1 in Eplan.
  pose proof (grows_risk_loop self' env chd [] 0 db1) as Hg2.
  fold (check_portfolio_risks self' env chd) in Hg2.
  destruct (check_portfolio_risks self' env chd db1)
    as [[e | [risk_sells risk_proceeds]] db_r] eqn:Erisk; [done |].
  cbn [snd] in Hg2.
  unfold bind in Eplan.
  destruct (plan_loop _ _ _ _ _ _ _) as [[e | st] db_f] eqn:Eloop; [done |].
  cbv [ret] in Eplan. simplify_eq.
  eapply plan_loop_cooled; [exact Eloop |].
  cbn [orders]. unfold check_portfolio_risks in Erisk.
  apply risk_loop_shape in Erisk as (new & Hnew & _ & _ & Hall).
  cbn [app] in Hnew. subst new.
  unfold cooled. rewrite (bought_sells _ Hall).
  split; [by etrans |]. split; constructor.
Qed.

(** X24. The cooldown holds for every way of buying: a ticker that is on
    cooldown when [generate_plan] is called (bought within the last four
    hours and not marked 'rejected') gets no buy order in the plan,
    neither a direct buy nor a fractional one nor the buy side of a
    swap. *)
Theorem a_ticker_on_cooldown_is_not_bought
    (self : TradingLogic) (env : Env) (sentiment_data : list Signal)
    (portfolio : list (string * PortfolioPosition))
    (env_bias : Q) (macro_reason : string) (db : list Row)
    (plan : list Order) (self' : TradingLogic) (db' : list Row)
    (ticker : string) :
  is_on_cooldown (now env) ticker 4 db = true ->
  generate_plan self env sentiment_data portfolio env_bias macro_reason db
    = (inr plan, self', db') ->
  ticker ∉ bought plan.
Proof.
  intros Hon H Hin.
  apply generate_plan_cooled in H as (_ & Hall & _).
  rewrite Forall_forall in Hall. destruct (Hall ticker Hin) as [Hoff _].
  by rewrite Hon in Hoff.
Qed.

(** X25. No ticker is bought twice in one plan: a BUY that is logged puts
    its ticker on cooldown at once, so a second Buy signal for the ticker
    in the same cycle is skipped, and the buy orders of a plan are for
    distinct tickers. *)
Theorem no_ticker_is_bought_twice
    (self : TradingLogic) (env : Env) (sentiment_data : list Signal)
    (portfolio : list (string * PortfolioPosition))
    (env_bias : Q) (macro_reason : string) (db : list Row)
    (plan : list Order) (self' : TradingLogic) (db' : list Row) :
  generate_plan self env sentiment_data portfolio env_bias macro_reason db
    = (inr plan, self', db') ->
  NoDup (bought plan).
Proof.
  intros H. apply generate_plan_cooled in H as (_ & _ & Hnd). exact Hnd.
Qed.

Lemma a_ticker_on_cooldown_is_not_bought_witness :
  is_on_cooldown (now Sample.nobody) "XYZ" 4 (Sample.bought_xyz 3600) = true
  /\ "XYZ" ∉ bought
       [mkOrder "OLD" sell 6 limit (Some 100) (PartialSwapFor "NEW") 4;
        mkOrder "NEW" buy 12 limit (Some 50) (SwapBuyVia "OLD" 600) 5].
Proof.
  split; [reflexivity |].
  apply (a_ticker_on_cooldown_is_not_bought
           (Sample.engine (Some Sample.invested)) Sample.nobody
           [Sample.buy_signal "XYZ"; Sample.buy_signal "NEW"] [] 1 ""%string
           (Sample.bought_xyz 3600)
           [mkOrder "OLD" sell 6 limit (Some 100) (PartialSwapFor "NEW") 4;
            mkOrder "NEW" buy 12 limit (Some 50) (SwapBuyVia "OLD" 600) 5]
           (generate_plan (Sample.engine (Some Sample.invested)) Sample.nobody
              [Sample.buy_signal "XYZ"; Sample.buy_signal "NEW"] [] 1
              ""%string (Sample.bought_xyz 3600)).1.2
           (generate_plan (Sample.engine (Some Sample.invested)) Sample.nobody
              [Sample.buy_signal "XYZ"; Sample.buy_signal "NEW"] [] 1
              ""%string (Sample.bought_xyz 3600)).2);
    vm_compute; reflexivity.
Defined.

Lemma no_ticker_is_bought_twice_witness :
  NoDup (bought Sample.invested_plan).
Proof.
  apply (no_ticker_is_bought_twice
           (Sample.engine (Some Sample.invested)) Sample.nobody
           [Sample.buy_signal "NEW"; Sample.buy_signal "NEW"] [] 1 ""%string
           [] Sample.invested_plan
           (generate_plan (Sample.engine (Some Sample.invested)) Sample.nobody
              [Sample.buy_signal "NEW"; Sample.buy_signal "NEW"] [] 1
              ""%string []).1.2
           (generate_plan (Sample.engine (Some Sample.invested)) Sample.nobody
              [Sample.buy_signal "NEW"; Sample.buy_signal "NEW"] [] 1
              ""%string []).2).
  vm_compute. reflexivity.
Defined.

(** ** The swap scan *)

Section SwapScan.

Lemma threshold_met_better old_rank new_rank :
  threshold_met old_rank new_rank = true -> old_rank < new_rank.
Proof.
  unfold threshold_met.
  destruct (Qleb old_rank (1 # 100)) eqn:E.
  - apply Qleb_le in E. intros H%Qltb_lt. lra.
  - apply Qleb_gt in E. intros H%Qltb_lt. lra.
Qed.

Lemma swaps_further item c candidates st st' :
  swaps item candidates st st' -> swaps item (c :: candidates) st st'.
Proof.
  intros (c0 & old_qty & sell_order & buys & Hin & H).
  exists c0, old_qty, sell_order, buys. split; [by constructor | done].
Qed.

End SwapScan.

(** X26. What one swap scan does.  A scan that returns has either left
    the plan and the ledger as they were, or swapped half of exactly one
    holding for the signal: a holding not yet sold in this plan, ranked
    strictly below the signal, of at least two shares; the sell is for the
    floor of half the quantity held, at most one buy order for the signal
    follows it, and the remaining budget does not go down. *)
Theorem a_swap_sells_half_of_one_weaker_holding
    (env : Env) (item : RankEntry) (new_price : Q)
    (candidates : list RankEntry) (st : PlanState) (db : list Row)
    (st' : PlanState) (db' : list Row) :
  swap_scan env item new_price candidates st db = (inr st', db') ->
  (st' = st /\ db' = db) \/ swaps item candidates st st'.
Proof.
  revert st db st' db'.
  induction candidates as [| c rest IH]; intros st db st' db' H.
  { cbv [swap_scan ret] in H. simplify_eq. by left. }
  assert (forall st0 db0,
            swap_scan env item new_price rest st0 db0 = (inr st', db') ->
            (st' = st0 /\ db' = db0) \/ swaps item (c :: rest) st0 st')
    as Hskip.
  { intros st0 db0 H0. destruct (IH _ _ _ _ H0) as [Hsame | Hswap];
      [by left | right; by apply swaps_further]. }
  cbn [swap_scan] in H.
  destruct (r_type c) eqn:Hty; [by apply Hskip |].
  destruct (in_list _ _) eqn:Hsold; [by apply Hskip |].
  destruct (r_qty c) as [old_qty |] eqn:Hqty; [| done].
  destruct (threshold_met _ _) eqn:Hth; [| by apply Hskip].
  destruct (Z.leb_spec (py_floor (old_qty * (5 # 10))) 0) as [| Hsq];
    [by apply Hskip |].
  destruct (r_price c) as [old_price |]; [| done].
  unfold bind at 1 in H. unfold log_decision at 1 in H.
  destruct (size_swap_buy _ new_price) as [q ty].
  unfold bind, log_decision, ret in H.
  right.
  pose proof (Qfloor_le (old_qty * (5 # 10))) as Hfl.
  pose proof (inject_Z_pos _ Hsq) as Hpos.
  assert (1 <= inject_Z (py_floor (old_qty * (5 # 10)))) as Hone.
  { change 1 with (inject_Z 1). rewrite <- Zle_Qle. lia. }
  unfold py_floor in *.
  set (leftover := inject_Z (Qfloor (old_qty * (5 # 10))) * old_price
                   - (if Qltb 0 q then q * new_price else 0)) in *.
  assert (remaining_budget st
          <= (if Qltb 0 leftover then remaining_budget st + leftover
              else remaining_budget st)) as Hrb.
  { destruct (Qltb 0 leftover) eqn:El; [apply Qltb_lt in El |]; lra. }
  exists c, old_qty.
  destruct (Qltb 0 q) eqn:Eq; simplify_eq; cbn [orders sold_tickers
                                                  remaining_budget];
    eexists _, _;
    (split; [by constructor |]); (split; [done |]);
    (split; [by apply in_list_false |]);
    (split; [by apply threshold_met_better |]);
    (split; [done |]);
    (split; [set (F := inject_Z _) in *; clearbody F; lra |]);
    (split; [done |]); (split; [exact Hrb |]);
    (split; [reflexivity |]); cbn [o_ticker o_action o_quantity length];
    (split; [done |]); (split; [done |]); (split; [done |]);
    (split; [set (F := inject_Z _) in *; clearbody F; lra |]);
    (split; [lia |]); repeat constructor.
Qed.

Lemma a_swap_sells_half_of_one_weaker_holding_witness :
  (mkPlanState (-200) ["OLD"%string] Sample.invested_plan
   = mkPlanState (-200) [] []
   /\ (Sample.plan_for Sample.invested "NEW").2 = Sample.invested_ledger)
  \/ swaps (mkRankEntry "NEW" new_signal (6 # 10) (6 # 10) 1 (Some 50) None)
           (rev Sample.invested_rank_list)
           (mkPlanState (-200) [] [])
           (mkPlanState (-200) ["OLD"%string] Sample.invested_plan).
Proof.
  apply (a_swap_sells_half_of_one_weaker_holding Sample.nobody
           (mkRankEntry "NEW" new_signal (6 # 10) (6 # 10) 1 (Some 50) None)
           50 (rev Sample.invested_rank_list) (mkPlanState (-200) [] [])
           Sample.invested_ledger).
  vm_compute. reflexivity.
Defined.

(** ** The grace period within a cycle *)

Section GracePeriod.

Variables (env : Env).

(** Rows that are no BUY leave the last buy time of every ticker alone. *)
Lemma get_last_buy_time_no_buys ticker db rows :
  no_buys rows ->
  get_last_buy_time ticker (db ++ rows) = get_last_buy_time ticker db.
Proof.
  intros Hq. unfold get_last_buy_time, latest. rewrite fold_left_app.
  f_equal. generalize (fold_left
    (fun (best : option Row) (r : Row) =>
       if String.eqb (d_ticker (row_data r)) ticker
          && is_BUY (d_action (row_data r))
       then match best with
            | Some b => if Qltb (row_timestamp r) (row_timestamp b)
                        then Some b else Some r
            | None => Some r
            end
       else best) db None) as best.
  induction Hq as [| r rows Hr _ IH]; intros best; [done |].
  cbn [fold_left]. rewrite Hr, andb_false_r. apply IH.
Qed.

Lemma no_buys_app rows1 rows2 :
  no_buys rows1 -> no_buys rows2 -> no_buys (rows1 ++ rows2).
Proof. intros H1 H2. apply Forall_app. by split. Qed.

(** The breakdown of a young holding on an instance whose panic flag is
    known. *)
Lemma breakdown_within_grace self (panic : bool) ticker data db
    current_price s20 s50 bought :
  (0 < py_int (h_qty data))%Z ->
  holding_price self env ticker data = Some current_price ->
  0 < current_price ->
  holding_sma self ticker 20 = Some s20 ->
  holding_sma self ticker 50 = Some s50 ->
  current_price < s20 -> s20 < s50 ->
  fst (holding_stop self ticker (h_avg_entry data) current_price)
    <= current_price ->
  trailing_trigger self (fetch_history self ticker) (h_avg_entry data)
                   current_price = None ->
  get_last_buy_time ticker db = Some bought ->
  (now env - bought) / 3600 < 24 ->
  _panic_mode self = Some panic ->
  let shares := py_int (h_qty data) in
  let logged d := db ++ [mkRow (next_id db) (now env) None (stored d)] in
  risk_check_holding self env ticker data db
  = if panic
    then (inr (Sold (sell_order ticker shares current_price
                       (TrendBreakdown current_price s20 s50) (next_id db))
                    (current_price * inject_Z shares)),
          logged (sell_record self ticker shares (h_avg_entry data)
                    current_price (TrendBreakdown current_price s20 s50)))
    else (inr GraceHeld,
          logged (grace_record self ticker shares current_price
                    ((now env - bought) / 3600))).
Proof.
  intros Hs Hp Hpos H20 H50 Hlt1 Hlt2 Hstop Htrail Hbuy Hage Hmode shares logged.
  assert (if_truthy (holding_price self env ticker data) = Some current_price)
    as Hp'.
  { rewrite Hp. simpl. by rewrite truthy_pos. }
  assert (evaluate_triggers self env ticker (h_avg_entry data) current_price
            (get_last_buy_time ticker db)
          = inr (if negb panic
                 then GraceSuppressed ((now env - bought) / 3600)
                 else SellFor (TrendBreakdown current_price s20 s50))) as Hev.
  { unfold evaluate_triggers.
    destruct (holding_stop _ _ _ _) as [stop zl]. simpl in Hstop.
    unfold stop_loss_trigger. apply Qltb_ge in Hstop.
    rewrite Hstop, Htrail, H20, H50, Hbuy.
    unfold trend_breakdown.
    assert (0 < s20) by (eapply Qlt_trans; eauto).
    assert (0 < s50) by (eapply Qlt_trans; eauto).
    rewrite !truthy_pos by done.
    apply Qltb_lt in Hlt1, Hlt2, Hage. rewrite Hlt1, Hlt2, Hage, Hmode.
    simpl. by destruct panic. }
  rewrite (risk_check_holding_eval _ _ _ _ _ current_price Hs Hp'), Hev.
  by destruct panic.
Qed.

(** The validation cache plays no part in the risk check. *)
Lemma risk_check_holding_set_cache c self ticker data db :
  risk_check_holding (set_ticker_cache c self) env ticker data db
  = risk_check_holding self env ticker data db.
Proof. reflexivity. Qed.

Lemma risk_loop_set_cache c self items : forall acc tot db,
  risk_loop (set_ticker_cache c self) env items acc tot db
  = risk_loop self env items acc tot db.
Proof.
  induction items as [| [t d] rest IH]; intros acc tot db; [done |].
  cbn [risk_loop]. unfold bind. rewrite risk_check_holding_set_cache.
  destruct (risk_check_holding self env t d db) as [[e | v] db1]; [done |].
  destruct v; apply IH.
Qed.

Lemma validate_ticker_set_cache self ticker :
  exists c, (validate_ticker self ticker).2 = set_ticker_cache c self.
Proof.
  unfold validate_ticker.
  destruct (_ticker_cache self !! ticker).
  { exists (_ticker_cache self). by destruct self. }
  destruct (api self) as [client |]; [destruct (get_asset client ticker) |];
    by eexists.
Qed.

(** Ranking the signals changes the cache of the instance and nothing
    else, and logs no BUY. *)
Lemma add_new_signals_frame sentiment_data :
  forall self rank_list db self' entries db',
  add_new_signals self env sentiment_data rank_list db
    = (inr (self', entries), db') ->
  (exists c, self' = set_ticker_cache c self)
  /\ exists rows, db' = db ++ rows /\ no_buys rows.
Proof.
  induction sentiment_data as [| signal rest IH];
    intros self rank_list db self' entries db' H.
  - cbv [add_new_signals ret] in H. simplify_eq. split.
    + exists (_ticker_cache self'). by destruct self'.
    + exists []. rewrite app_nil_r. split; [done | constructor].
  - cbn [add_new_signals] in H.
    destruct (is_Buy (sig_action signal)); [| by eapply IH].
    destruct (validate_ticker_set_cache self (sig_ticker signal)) as [c Hc].
    destruct (validate_ticker self (sig_ticker signal)) as [ok self1].
    cbn [snd] in Hc. subst self1.
    destruct ok; cbn [negb] in H.
    + apply IH in H as ([c' ->] & rows & -> & Hq). split; [by eexists |].
      by exists rows.
    + unfold bind, log_decision in H. cbn [fst snd] in H.
      apply IH in H as ([c' ->] & rows & -> & Hq). split; [by eexists |].
      eexists. split; [by rewrite <- app_assoc |].
      apply no_buys_app; [| done]. by repeat constructor.
Qed.

Lemma rank_new_signals_frame self sentiment_data env_bias macro_reason db
    self' entries db' :
  rank_new_signals self env sentiment_data env_bias macro_reason db
    = (inr (self', entries), db') ->
  (exists c, self' = set_ticker_cache c self)
  /\ exists rows, db' = db ++ rows /\ no_buys rows.
Proof.
  unfold rank_new_signals. destruct (_ || _).
  - cbv [bind log_decision ret]. intros H. simplify_eq. split.
    + exists (_ticker_cache self'). by destruct self'.
    + eexists. split; [done |]. by repeat constructor.
  - apply add_new_signals_frame.
Qed.

(** The check of one holding logs no BUY. *)
Lemma risk_check_holding_no_buys self ticker data db :
  exists rows,
    (risk_check_holding self env ticker data db).2 = db ++ rows
    /\ no_buys rows.
Proof.
  destruct (Z.leb_spec (py_int (h_qty data)) 0) as [Hs | Hs].
  { rewrite risk_check_holding_no_shares by done.
    exists []. rewrite app_nil_r. split; [done | constructor]. }
  destruct (if_truthy (holding_price self env ticker data)) as [cp |] eqn:Hp.
  2: { rewrite risk_check_holding_no_price by done.
       exists []. rewrite app_nil_r. split; [done | constructor]. }
  rewrite (risk_check_holding_eval _ _ _ _ _ cp Hs Hp).
  destruct (evaluate_triggers _ _ _ _ _ _) as [e | [| h | r]]; cbn [snd].
  - exists []. rewrite app_nil_r. split; [done | constructor].
  - eexists. split; [done |]. by repeat constructor.
  - eexists. split; [done |]. by repeat constructor.
  - eexists. split; [done |]. by repeat constructor.
Qed.

(** Each holding of a risk check that returns was checked at the ledger
    the check started with, grown by rows that are no BUY, and a sell it
    came to is among the orders returned. *)
Lemma risk_loop_visits self items : forall acc tot db sell_orders tot' db',
  risk_loop self env items acc tot db = (inr (sell_orders, tot'), db') ->
  forall t d, (t, d) ∈ items ->
  exists rows v db1,
    no_buys rows
    /\ risk_check_holding self env t d (db ++ rows) = (inr v, db1)
    /\ db1 `prefix_of` db'
    /\ forall o p, v = Sold o p -> o ∈ sell_orders.
Proof.
  induction items as [| [t0 d0] rest IH];
    intros acc tot db sell_orders tot' db' H t d Hin.
  { by apply elem_of_nil in Hin. }
  cbn [risk_loop] in H. unfold bind in H.
  destruct (risk_check_holding_no_buys self t0 d0 db) as (rows0 & Hrows0 & Hq0).
  destruct (risk_check_holding self env t0 d0 db) as [[e | v] db1] eqn:E;
    [done |].
  cbn [snd] in Hrows0. subst db1.
  apply elem_of_cons in Hin as [[= -> ->] | Hin].
  - exists [], v, (db ++ rows0). rewrite app_nil_r.
    split; [constructor |]. split; [done |].
    destruct v as [| | | o p].
    + split; [| done].
      pose proof (grows_risk_loop self env rest acc tot (db ++ rows0)) as Hg.
      by rewrite H in Hg.
    + split; [| done].
      pose proof (grows_risk_loop self env rest acc tot (db ++ rows0)) as Hg.
      by rewrite H in Hg.
    + split; [| done].
      pose proof (grows_risk_loop self env rest acc tot (db ++ rows0)) as Hg.
      by rewrite H in Hg.
    + split.
      * pose proof (grows_risk_loop self env rest (acc ++ [o]) (tot + p)
                      (db ++ rows0)) as Hg.
        by rewrite H in Hg.
      * intros o' p' [= <- <-].
        apply risk_loop_shape in H as (new & -> & _).
        apply elem_of_app. left. apply elem_of_app. right. by constructor.
  - assert (exists acc1 tot1,
              risk_loop self env rest acc1 tot1 (db ++ rows0)
              = (inr (sell_orders, tot'), db')) as (acc1 & tot1 & H1).
    { destruct v; by eexists _, _. }
    destruct (IH _ _ _ _ _ _ H1 t d Hin) as (rows & v' & db2 & Hq & Hv & Hpre & Hs).
    exists (rows0 ++ rows), v', db2. rewrite app_assoc.
    split; [by apply no_buys_app |]. done.
Qed.

(** Each sell of a risk check that returns was decided for one of the
    holdings, at the ledger the check started with grown by rows that
    are no BUY. *)
Lemma risk_loop_sources self items : forall acc tot db sell_orders tot' db',
  risk_loop self env items acc tot db = (inr (sell_orders, tot'), db') ->
  forall o, o ∈ sell_orders ->
  o ∈ acc
  \/ exists t d rows p db1,
       (t, d) ∈ items /\ no_buys rows
       /\ risk_check_holding self env t d (db ++ rows) = (inr (Sold o p), db1).
Proof.
  induction items as [| [t0 d0] rest IH];
    intros acc tot db sell_orders tot' db' H o Ho.
  { cbv [risk_loop ret] in H. simplify_eq. by left. }
  cbn [risk_loop] in H. unfold bind in H.
  destruct (risk_check_holding_no_buys self t0 d0 db) as (rows0 & Hrows0 & Hq0).
  destruct (risk_check_holding self env t0 d0 db) as [[e | v] db1] eqn:E;
    [done |].
  cbn [snd] in Hrows0. subst db1.
  assert (forall acc1 tot1,
            risk_loop self env rest acc1 tot1 (db ++ rows0)
            = (inr (sell_orders, tot'), db') ->
            o ∈ acc1
            \/ exists t d rows p db1,
                 (t, d) ∈ (t0, d0) :: rest /\ no_buys rows
                 /\ risk_check_holding self env t d (db ++ rows)
                    = (inr (Sold o p), db1)) as Hrest.
  { intros acc1 tot1 H1.
    destruct (IH _ _ _ _ _ _ H1 o Ho)
      as [Hacc | (t & d & rows & p & db1 & Hin & Hq & Hv)]; [by left |].
    right. exists t, d, (rows0 ++ rows), p, db1. rewrite app_assoc.
    split; [by constructor |]. split; [by apply no_buys_app | done]. }
  destruct v as [| | | o0 p0].
  - apply Hrest in H as [Hacc | Hsrc]; [by left | by right].
  - apply Hrest in H as [Hacc | Hsrc]; [by left | by right].
  - apply Hrest in H as [Hacc | Hsrc]; [by left | by right].
  - apply Hrest in H as [[Hacc | ->%list_elem_of_singleton]%elem_of_app | Hsrc];
      [by left | | by right].
    right. exists t0, d0, [], p0, (db ++ rows0). rewrite app_nil_r.
    split; [by constructor |]. split; [constructor | done].
Qed.

(** Step 4 adds no order with a reason of the risk check. *)
Lemma swap_scan_adds item new_price candidates : forall st db st' db',
  swap_scan env item new_price candidates st db = (inr st', db') ->
  exists extra,
    orders st' = orders st ++ extra
    /\ Forall (fun o => is_risk_sell_reason (o_reason o) = false) extra.
Proof.
  induction candidates as [| c rest IH]; intros st db st' db' H.
  - cbv [swap_scan ret] in H. simplify_eq. exists []. rewrite app_nil_r. split; [done | constructor].
  - cbn [swap_scan] in H.
    destruct (r_type c); [by eapply IH |].
    destruct (in_list _ _); [by eapply IH |].
    destruct (r_qty c) as [old_qty |]; [| done].
    destruct (threshold_met _ _); [| by eapply IH].
    destruct (py_floor (old_qty * (5 # 10)) <=? 0)%Z; [by eapply IH |].
    destruct (r_price c) as [old_price |]; [| done].
    unfold bind at 1 in H. unfold log_decision at 1 in H.
    destruct (size_swap_buy _ new_price) as [q ty].
    unfold bind, log_decision, ret in H.
    destruct (Qltb 0 q); simplify_eq; cbn [orders];
      eexists; (split; [done |]); by repeat constructor.
Qed.

Lemma plan_entry_adds self chd rank_list item st db st' db' :
  plan_entry self env chd rank_list item st db = (inr st', db') ->
  exists extra,
    orders st' = orders st ++ extra
    /\ Forall (fun o => is_risk_sell_reason (o_reason o) = false) extra.
Proof.
  intros H.
  assert (exists extra,
            orders st = orders st ++ extra
            /\ Forall (fun o => is_risk_sell_reason (o_reason o) = false)
                      extra) as Hnone.
  { exists []. rewrite app_nil_r. split; [done | constructor]. }
  unfold plan_entry in H.
  destruct (r_type item); [| cbv [ret] in H; by simplify_eq].
  destruct (if_truthy (r_price item)) as [new_price |];
    [| cbv [ret] in H; by simplify_eq].
  unfold bind at 1 in H. unfold read at 1 in H.
  destruct (is_on_cooldown _ _ _ _).
  { cbv [bind log_decision ret] in H. by simplify_eq. }
  destruct (_ <=? _)%Z.
  { cbv [bind log_decision ret] in H. by simplify_eq. }
  destruct (technical_filter _ _ _) as [e | [d |]]; [done | |].
  { cbv [bind log_decision ret] in H. by simplify_eq. }
  destruct (entry_indicators _) as [[rsi sma_20] sma_50].
  destruct (size_order self (remaining_budget st) new_price)
    as [shares_to_buy | frac_qty |].
  - cbv [bind log_decision ret] in H. simplify_eq. cbn [orders].
    eexists. split; [done |]. by repeat constructor.
  - cbv [bind log_decision ret] in H. simplify_eq. cbn [orders].
    eexists. split; [done |]. by repeat constructor.
  - by eapply swap_scan_adds.
Qed.

Lemma plan_loop_adds self chd rank_list items : forall st db st' db',
  plan_loop self env chd rank_list items st db = (inr st', db') ->
  exists extra,
    orders st' = orders st ++ extra
    /\ Forall (fun o => is_risk_sell_reason (o_reason o) = false) extra.
Proof.
  induction items as [| item rest IH]; intros st db st' db' H.
  - cbv [plan_loop ret] in H. simplify_eq. exists []. rewrite app_nil_r. split; [done | constructor].
  - cbn [plan_loop] in H. unfold bind in H.
    destruct (plan_entry _ _ _ _ _ _ _) as [[e | st1] db1] eqn:E; [done |].
    apply plan_entry_adds in E as (extra1 & E1 & H1).
    apply IH in H as (extra2 & E2 & H2).
    exists (extra1 ++ extra2). rewrite E2, E1, app_assoc.
    split; [done |]. apply Forall_app. by split.
Qed.

Lemma NoDup_fst_lookup {V} (l : list (string * V)) k v1 v2 :
  NoDup (map fst l) -> (k, v1) ∈ l -> (k, v2) ∈ l -> v1 = v2.
Proof.
  induction l as [| [k0 v0] rest IH]; intros Hnd H1 H2.
  { by apply elem_of_nil in H1. }
  cbn [map fst] in Hnd. apply NoDup_cons in Hnd as [Hk Hnd].
  apply elem_of_cons in H1 as [E1 | H1];
    apply elem_of_cons in H2 as [E2 | H2]; simplify_eq.
  - done.
  - exfalso. apply Hk. apply list_elem_of_fmap. by exists (k0, v2).
  - exfalso. apply Hk. apply list_elem_of_fmap. by exists (k0, v1).
  - by apply IH.
Qed.

(** What a cycle that returns a plan comes to: the instance and the ledger
    the risk check ran on, and the plan as the sells of the risk check
    followed by orders of step 4. *)
Lemma generate_plan_risk_check self sentiment_data portfolio env_bias
    macro_reason db plan self' db' :
  generate_plan self env sentiment_data portfolio env_bias macro_reason db
    = (inr plan, self', db') ->
  let self1 := enter_mode self env_bias macro_reason in
  exists rows risk_sells risk_proceeds db_r extra,
    no_buys rows
    /\ check_portfolio_risks self1 env (load_holdings self1 portfolio).2
         (db ++ rows)
       = (inr (risk_sells, risk_proceeds), db_r)
    /\ db_r `prefix_of` db'
    /\ plan = risk_sells ++ extra
    /\ Forall (fun o => is_risk_sell_reason (o_reason o) = false) extra.
Proof.
  intros H self1. unfold generate_plan in H. fold self1 in H.
  destruct (load_holdings self1 portfolio) as [cost_basis_total chd].
  cbn [snd].
  destruct (rank_new_signals self1 env sentiment_data env_bias macro_reason db)
    as [[e | [self2 new_entries]] db1] eqn:Erank; [done |].
  destruct (plan_orders _ _ _ _ _ _) as [res db2] eqn:Eplan.
  simplify_eq.
  apply rank_new_signals_frame in Erank as ([c ->] & rows & -> & Hq).
  unfold plan_orders in Eplan.
  unfold bind at 1 in Eplan. unfold read at 1 in Eplan.
  unfold bind at 1 in Eplan.
  unfold check_portfolio_risks in *.
  rewrite risk_loop_set_cache in Eplan.
  destruct (risk_loop self1 env chd [] 0 (db ++ rows))
    as [[e | [risk_sells risk_proceeds]] db_r] eqn:Erisk; [done |].
  unfold bind in Eplan.
  destruct (plan_loop _ _ _ _ _ _ _) as [[e | st] db_f] eqn:Eloop; [done |].
  cbv [ret] in Eplan. simplify_eq.
  assert (db_r `prefix_of` db') as Hg.
  { match type of Eloop with
    | plan_loop ?s ?e ?h ?rl ?it ?st0 _ = _ =>
        pose proof (grows_plan_loop s e h rl it st0 db_r) as Hg
    end.
    by rewrite Eloop in Hg. }
  apply plan_loop_adds in Eloop as (extra & Eo & Hextra).
  cbn [orders] in Eo.
  by exists rows, risk_sells, risk_proceeds, db_r, extra.
Qed.

End GracePeriod.

(** C7. A holding whose last BUY is less than 24 hours old, in a confirmed
    breakdown (price < SMA20 < SMA50), with the stop-loss and the trailing
    take-profit silent, on the instance as [generate_plan] leaves it once
    it has set the panic flag from [env_bias] and tightened the stop.
    With [env_bias >= 0.3] (no panic) the check of the holding returns
    without a sell and logs one HOLD row with the grace-period reason;
    with [env_bias < 0.3] (panic) the same check returns a limit sell of
    the whole shares for the trend breakdown and logs the SELL row the
    order refers to.  So it is within a cycle: when [generate_plan]
    returns a plan and the holding is among those it loaded, without panic
    the ledger has gained the grace-period HOLD row and no order of the
    plan for the ticker is a sell of the risk check; in panic the plan
    holds the breakdown sell and the ledger has gained its SELL row.
    Prices are positive. *)
Theorem grace_period_unless_panic
    (self : TradingLogic) (env : Env) (env_bias : Q) (macro_reason : string)
    (ticker : string) (data : Holding) (db : list Row)
    (current_price s20 s50 bought : Q) :
  let self1 := enter_mode self env_bias macro_reason in
  let shares := py_int (h_qty data) in
  let hours_held := (now env - bought) / 3600 in
  (0 < shares)%Z ->
  holding_price self1 env ticker data = Some current_price ->
  0 < current_price ->
  holding_sma self1 ticker 20 = Some s20 ->
  holding_sma self1 ticker 50 = Some s50 ->
  current_price < s20 -> s20 < s50 ->
  fst (holding_stop self1 ticker (h_avg_entry data) current_price)
    <= current_price ->
  trailing_trigger self1 (fetch_history self1 ticker) (h_avg_entry data)
                   current_price = None ->
  get_last_buy_time ticker db = Some bought ->
  hours_held < 24 ->
  (3 # 10 <= env_bias ->
   exists row,
     risk_check_holding self1 env ticker data db
     = (inr GraceHeld, db ++ [row])
     /\ is_grace_hold ticker shares current_price hours_held row)
  /\ (env_bias < 3 # 10 ->
      exists o row,
        risk_check_holding self1 env ticker data db
        = (inr (Sold o (current_price * inject_Z shares)), db ++ [row])
        /\ is_breakdown_sell ticker shares current_price s20 s50 o row)
  /\ (forall sentiment_data portfolio plan self' db',
        generate_plan self env sentiment_data portfolio env_bias macro_reason
                      db
          = (inr plan, self', db') ->
        (ticker, data) ∈ (load_holdings self1 portfolio).2 ->
        (3 # 10 <= env_bias ->
         (exists rows row,
            db' = db ++ rows /\ row ∈ rows
            /\ is_grace_hold ticker shares current_price hours_held row)
         /\ no_risk_sell_of ticker plan)
        /\ (env_bias < 3 # 10 ->
            exists rows row o,
              db' = db ++ rows /\ row ∈ rows /\ o ∈ plan
              /\ is_breakdown_sell ticker shares current_price s20 s50
                                   o row)).
Proof.
  intros self1 shares hours_held Hs Hp Hpos H20 H50 Hlt1 Hlt2 Hstop Htrail
         Hbuy Hage.
  assert (forall db0,
            get_last_buy_time ticker db0 = Some bought ->
            risk_check_holding self1 env ticker data db0
            = if Qltb env_bias (3 # 10)
              then (inr (Sold (sell_order ticker shares current_price
                                 (TrendBreakdown current_price s20 s50)
                                 (next_id db0))
                              (current_price * inject_Z shares)),
                    db0 ++ [mkRow (next_id db0) (now env) None
                              (stored (sell_record self1 ticker shares
                                         (h_avg_entry data) current_price
                                         (TrendBreakdown current_price
                                            s20 s50)))])
              else (inr GraceHeld,
                    db0 ++ [mkRow (next_id db0) (now env) None
                              (stored (grace_record self1 ticker shares
                                         current_price hours_held))]))
    as Hcheck.
  { intros db0 Hbuy0.
    by apply (breakdown_within_grace env self1 (Qltb env_bias (3 # 10))
                ticker data db0 current_price s20 s50 bought). }
  split; [| split].
  - intros Hb. apply Qltb_ge in Hb. eexists.
    rewrite (Hcheck db Hbuy), Hb. split; [reflexivity |]. by repeat split.
  - intros Hb. apply Qltb_lt in Hb. eexists _, _.
    rewrite (Hcheck db Hbuy), Hb. split; [reflexivity |]. by repeat split.
  - intros sentiment_data portfolio plan self' db' Hgen Hin.
    apply generate_plan_risk_check in Hgen
      as (rows & risk_sells & risk_proceeds & db_r & extra
          & Hq & Hrisk & [rows_r ->] & -> & Hextra).
    fold self1 in Hrisk. unfold check_portfolio_risks in Hrisk.
    assert (forall rows1, no_buys rows1 ->
              get_last_buy_time ticker ((db ++ rows) ++ rows1) = Some bought)
      as Hlast.
    { intros rows1 Hq1. rewrite <- app_assoc.
      rewrite get_last_buy_time_no_buys; [done | by apply no_buys_app]. }
    destruct (risk_loop_visits env _ _ _ _ _ _ _ _ Hrisk ticker data Hin)
      as (rows1 & v & db1 & Hq1 & Hv & [rows2 ->] & Hsold).
    rewrite (Hcheck _ (Hlast rows1 Hq1)) in Hv.
    split.
    + intros Hb. apply Qltb_ge in Hb. rewrite Hb in Hv. simplify_eq.
      split.
      * eexists _, _. split; [by rewrite <- !app_assoc |].
        split.
        { apply elem_of_app. right. apply elem_of_app. right.
          apply elem_of_app. left. by constructor. }
        by repeat split.
      * apply Forall_app. split.
        -- apply Forall_forall. intros o Ho Ht.
           destruct (risk_loop_sources env _ _ _ _ _ _ _ _ Hrisk o Ho)
             as [Hnil | (t & d & rows3 & p & db3 & Hin3 & Hq3 & Hv3)];
             [by apply elem_of_nil in Hnil |].
           pose proof Hv3 as Hshape.
           apply risk_check_holding_sold in Hshape
             as (cp & reason & _ & _ & _ & -> & _).
           cbn [sell_order o_ticker] in Ht. subst t.
           assert (d = data) as ->.
           { eapply NoDup_fst_lookup; [| exact Hin3 | exact Hin].
             apply load_holdings_keys_NoDup. }
           rewrite (Hcheck _ (Hlast rows3 Hq3)), Hb in Hv3. done.
        -- eapply Forall_impl; [exact Hextra |]. by intros o Ho _.
    + intros Hb. apply Qltb_lt in Hb. rewrite Hb in Hv. simplify_eq.
      eexists _, _, _. split; [by rewrite <- !app_assoc |].
      split.
      { apply elem_of_app. right. apply elem_of_app. right.
        apply elem_of_app. left. by constructor. }
      split.
      { apply elem_of_app. left. by eapply Hsold. }
      repeat split; try reflexivity.
      cbn [o_decision_id sell_order row_id]. by rewrite app_assoc.
Qed.

Lemma grace_period_unless_panic_witness :
  (exists row,
     risk_check_holding (enter_mode Sample.xyz_holder (4 # 10) "weak")
                        Sample.nobody "XYZ" Sample.xyz (Sample.bought_xyz 3600)
     = (inr GraceHeld, Sample.bought_xyz 3600 ++ [row])
     /\ is_grace_hold "XYZ" 10 100
          ((now Sample.nobody - (now Sample.nobody - 3600)) / 3600) row)
  /\ ((exists rows row,
         (generate_plan Sample.xyz_holder Sample.nobody [] [] (4 # 10) "weak"
                        (Sample.bought_xyz 3600)).2
         = Sample.bought_xyz 3600 ++ rows
         /\ row ∈ rows
         /\ is_grace_hold "XYZ" 10 100
              ((now Sample.nobody - (now Sample.nobody - 3600)) / 3600) row)
      /\ no_risk_sell_of "XYZ" [])
  /\ (exists o row,
        risk_check_holding (enter_mode Sample.xyz_holder (2 # 10) "crash")
                           Sample.nobody "XYZ" Sample.xyz
                           (Sample.bought_xyz 3600)
        = (inr (Sold o (100 * inject_Z 10)), Sample.bought_xyz 3600 ++ [row])
        /\ is_breakdown_sell "XYZ" 10 100 Sample.xyz_sma20 Sample.xyz_sma50
                             o row)
  /\ (exists rows row o,
        (generate_plan Sample.xyz_holder Sample.nobody [] [] (2 # 10) "crash"
                       (Sample.bought_xyz 3600)).2
        = Sample.bought_xyz 3600 ++ rows
        /\ row ∈ rows /\ o ∈ Sample.xyz_panic_plan
        /\ is_breakdown_sell "XYZ" 10 100 Sample.xyz_sma20 Sample.xyz_sma50
                             o row).
Proof.
  destruct (grace_period_unless_panic Sample.xyz_holder Sample.nobody (4 # 10)
              "weak" "XYZ" Sample.xyz (Sample.bought_xyz 3600)
              100 Sample.xyz_sma20 Sample.xyz_sma50 (now Sample.nobody - 3600))
    as (Hheld & _ & Hcalm); try reflexivity; try (vm_compute; discriminate).
  destruct (grace_period_unless_panic Sample.xyz_holder Sample.nobody (2 # 10)
              "crash" "XYZ" Sample.xyz (Sample.bought_xyz 3600)
              100 Sample.xyz_sma20 Sample.xyz_sma50 (now Sample.nobody - 3600))
    as (_ & Hsold & Hpanic); try reflexivity; try (vm_compute; discriminate).
  destruct (Hcalm [] [] []
              (generate_plan Sample.xyz_holder Sample.nobody [] [] (4 # 10)
                             "weak" (Sample.bought_xyz 3600)).1.2
              (generate_plan Sample.xyz_holder Sample.nobody [] [] (4 # 10)
                             "weak" (Sample.bought_xyz 3600)).2)
    as [Hcalm' _]; [vm_compute; reflexivity | vm_compute; constructor |].
  destruct (Hpanic [] [] Sample.xyz_panic_plan
              (generate_plan Sample.xyz_holder Sample.nobody [] [] (2 # 10)
                             "crash" (Sample.bought_xyz 3600)).1.2
              (generate_plan Sample.xyz_holder Sample.nobody [] [] (2 # 10)
                             "crash" (Sample.bought_xyz 3600)).2)
    as [_ Hpanic']; [vm_compute; reflexivity | vm_compute; constructor |].
  split; [apply Hheld; vm_compute; discriminate |].
  split; [apply Hcalm'; vm_compute; discriminate |].
  split; [apply Hsold; reflexivity | apply Hpanic'; reflexivity].
Defined.
